(** * Grading orchestration of the judge: [dmoj/graders/standard.py] and
    [dmoj/graders/bridged.py]

    A shallow embedding of [StandardGrader] and [BridgedInteractiveGrader].
    The graders are stateful Python objects that drive sandboxed processes,
    pipes and temporary files and that may raise; they are embedded in a
    state-and-exception monad over an explicit judge state.  Everything
    the two files import from the rest of the judge (the sandbox, the
    executors, the checkers, the contrib modules, the configuration) is a
    field of the record [Env], so every statement below is quantified over
    the behaviour of those collaborators. *)

From stdpp Require Import base gmap sets strings.
From Stdlib Require Import ZArith QArith String List Bool Lia.
Import ListNotations.

Local Open Scope string_scope.
Local Open Scope Z_scope.

(** ** Python values shared by both graders *)

(** [bytes] objects. *)
Definition bytes := list Byte.byte.

(** File descriptors handed out by [os.pipe]. *)
Definition fd := nat.

(** The exceptions that occur in the two source files, and those the
    collaborators are documented to raise. *)
#[warnings="-register-all"]
Inductive PyExc : Type :=
| CompileError (msg : string)
| InternalError (msg : string) (cause : option PyExc)
| UnicodeDecodeError
| OutputLimitExceeded
| UnboundLocalError (var : string)
| AssertionError
| AttributeError (attr : string)
| KeyError (key : string)
| OSError (msg : string)
| RuntimeError (msg : string).

(** Result of running a fallible piece of Python. *)
Inductive Outcome (A : Type) : Type :=
| Return (a : A)
| Raise (e : PyExc).
Arguments Return {A} a.
Arguments Raise {A} e.

Definition is_InternalError (e : PyExc) : bool :=
  match e with InternalError _ _ => true | _ => false end.

Definition is_CompileError (e : PyExc) : bool :=
  match e with CompileError _ => true | _ => false end.

(** Python's [x or y] on optional text: the first operand when it is
    truthy (neither [None] nor the empty string), the second otherwise. *)
Definition str_or (x y : option string) : option string :=
  match x with
  | Some s => if String.eqb s "" then y else x
  | None => y
  end.

(** Python's [x or y] on an optional number: [None] and [0] are falsy. *)
Definition num_or {A : Type} (is_zero : A -> bool) (x : option A) (y : A) : A :=
  match x with
  | Some v => if is_zero v then y else v
  | None => y
  end.

Definition Q_is_zero (q : Q) : bool := Qeq_bool q 0.

(** [posixpath.join] on two components. *)
Definition os_path_join (a b : string) : string :=
  if String.prefix "/" b then b
  else if String.eqb a "" then b
  else if String.eqb (String.substring (String.length a - 1) 1 a) "/"
       then a ++ b
       else a ++ "/" ++ b.

(** ** Data model *)

(** [dmoj.result.CheckerResult]: the rich checker return value.
    [feedback] and [extended_feedback] default to [None]. *)
Module CheckerResult.
Record t : Type := mk {
  passed : bool;
  points : Q;
  feedback : option string;
  extended_feedback : option string
}.
End CheckerResult.

(** [dmoj.checkers.CheckerOutput = Union[bool, CheckerResult]]. *)
Inductive CheckerOutput : Type :=
| CBool (b : bool)
| CRich (r : CheckerResult.t).

(** [dmoj.result.Result], restricted to the attributes the graders touch. *)
Module Result.
Record t : Type := mk {
  result_flag : Z;
  points : Q;
  feedback : option string;
  extended_feedback : option string;
  proc_output : bytes;
  execution_time : Q
}.

Definition set_proc_output (r : t) (o : bytes) : t :=
  mk (result_flag r) (points r) (feedback r) (extended_feedback r) o
     (execution_time r).

Definition set_result_flag (r : t) (f : Z) : t :=
  mk f (points r) (feedback r) (extended_feedback r) (proc_output r)
     (execution_time r).

Definition set_execution_time (r : t) (x : Q) : t :=
  mk (result_flag r) (points r) (feedback r) (extended_feedback r)
     (proc_output r) x.
End Result.

(** Per-case configuration ([case.config]). *)
Module CaseConfig.
Record t : Type := mk {
  symlinks : list (string * string);
  wall_time_factor : Q;
  output_limit_length : Z
}.
End CaseConfig.

(** The keyword arguments a checker is called with
    ([StandardGrader.check_result], lines 67-81).  The [case] and [result]
    objects are passed through their data. *)
Module CheckerArgs.
Record t : Type := mk {
  process_output : bytes;
  judge_output : bytes;
  submission_source : bytes;
  judge_input : bytes;
  point_value : Q;
  case_position : Z;
  batch : Z;
  submission_language : string;
  binary_data : bool;
  execution_time : Q;
  problem_id : string;
  result : Result.t
}.
End CheckerArgs.

(** A checker as [case.checker()] returns it: a [partial] object whose
    [func] may carry the attribute [run_on_error] ([None]: the attribute
    is absent, so [getattr] yields its default) and which, when called,
    returns a [CheckerOutput] or raises. *)
Module Checker.
Record t : Type := mk {
  run_on_error : option bool;
  call : CheckerArgs.t -> Outcome CheckerOutput
}.
End Checker.

(** [dmoj.problem.TestCase], as the graders read it. *)
Module TestCase.
Record t : Type := mk {
  position : Z;
  batch : Z;
  points : Q;
  input_data : bytes;
  input_path : string;
  output_data : bytes;
  has_binary_data : bool;
  config : CaseConfig.t;
  checker : Checker.t
}.
End TestCase.

(** ** Collaborators: configuration, executors, sandboxed processes *)

(** What a [ConfigNode] unwraps to when it is not a scalar. *)
Inductive Unwrapped : Type :=
| UList (items : list string)
| UDict (entries : list (string * string)).

(** The value of [handler_data.files]: a [str]; a [ConfigNode], which
    has [unwrap()]; or a value that is neither, [None] for a missing key
    or a number, on which [files.unwrap()] raises [AttributeError].
    [ConfigNode] itself ([dmoj.config]) is not part of the two files. *)
Inductive FilesValue : Type :=
| FStr (s : string)
| FNode (raw : Unwrapped)
| FNone
| FNum (n : Q).

(** [problem.config.interactive].  A key that may be missing is an
    [option]; [None] is what attribute access and [get] see then. *)
Module HandlerData.
Record t : Type := mk {
  files : FilesValue;
  type : option string;
  flags : option (list string);
  unbuffered : option bool;
  lang : string;
  compiler_time_limit : option Q;
  feedback : bool;
  preprocessing_time : option Q;
  memory_limit : option Z;
  args_format_string : option string
}.
End HandlerData.

Module Problem.
Record t : Type := mk {
  id : string;
  time_limit : Q;
  memory_limit : Z;
  interactive : HandlerData.t
}.
End Problem.

(** A compiled, launchable artifact ([BaseExecutor]). *)
Module Executor.
Record t : Type := mk {
  name : string;
  fsize : Z
}.
Definition set_fsize (e : t) (n : Z) : t := mk (name e) n.
End Executor.

(** What may be bound to a standard stream of a launched process. *)
Inductive Stream : Type :=
| PIPE
| Fd (n : fd)
| MemIO
| InputFile (path : string).

Module LaunchArgs.
Record t : Type := mk {
  args : list string;
  time : Q;
  memory : Z;
  symlinks : list (string * string);
  stdin : Stream;
  stdout : Stream;
  stderr : Stream;
  wall_time : option Q;
  extra_fs : list string
}.
End LaunchArgs.

(** What a sandboxed process does once launched: how long it lives, what
    it writes, and what the sandbox reports post mortem. *)
Module Behaviour.
Record t : Type := mk {
  lifetime : nat;
  writes_stdout : bytes;
  writes_stderr : bytes;
  report_flags : Z;
  report_time : Q
}.
End Behaviour.

Inductive Role : Type := Submission | Interactor.

(** [dmoj.cptbox.TracedPopen]: a handle on a launched process.  [death]
    is the instant at which the process terminates. *)
Module TracedPopen.
Record t : Type := mk {
  role : Role;
  death : nat;
  behaviour : Behaviour.t;
  is_ole : bool;
  killed : bool
}.
Definition set_is_ole (p : t) (b : bool) : t :=
  mk (role p) (death p) (behaviour p) b (killed p).
Definition set_killed (p : t) (now : nat) : t :=
  mk (role p) (Nat.min (death p) now) (behaviour p) (is_ole p) true.
End TracedPopen.

(** [dmoj.cptbox.utils.MemoryIO]: a memory-backed file the process writes
    into.  It is read only after the process has been waited on, so it is
    created holding what the process will have written by then. *)
Module MemoryIO.
Record t : Type := mk {
  content : bytes;
  closed : bool
}.
Definition close (m : t) : t := mk (content m) true.
End MemoryIO.

(** Arguments of [ContribModule.parse_return_code] (lines 48-57). *)
Module ParseArgs.
Record t : Type := mk {
  proc : TracedPopen.t;
  executor : Executor.t;
  point_value : Q;
  time_limit : Q;
  memory_limit : Z;
  feedback : string;
  name : string;
  stderr : bytes
}.
End ParseArgs.

(** An entry of [dmoj.contrib.contrib_modules]. *)
Module ContribModule.
Record t : Type := mk {
  parse_return_code : ParseArgs.t -> Outcome CheckerOutput;
  get_interactor_args_format_string : string
}.
End ContribModule.

(** Everything the two files import from the rest of the judge and from
    Python's library, as parameters. *)
Module Env.
Record t : Type := mk {
  (* bits of [Result.result_flag], from [dmoj.result] *)
  AC : Z;
  WA : Z;
  OLE : Z;
  (* [executor.launch]: the sandbox either refuses or starts a process *)
  launch : Executor.t -> LaunchArgs.t -> Outcome Behaviour.t;
  (* [dmoj.contrib.contrib_modules] *)
  contrib_modules : gmap string ContribModule.t;
  (* [dmoj.judgeenv.get_problem_root] *)
  get_problem_root : string -> option string;
  (* [dmoj.utils.helper_files.compile_with_auxiliary_files] *)
  compile_with_auxiliary_files :
    list string -> list string -> string -> option Q -> bool ->
    Outcome Executor.t;
  (* [dmoj.judgeenv.env['generator_memory_limit']] *)
  generator_memory_limit : Z;
  (* [shlex.split(fmt.format(input_file=shlex.quote(i),
     output_file=shlex.quote(o), answer_file=shlex.quote(a)))] *)
  format_interactor_args :
    string -> string -> string -> string -> Outcome (list string);
  (* [dmoj.utils.unicode.utf8text] *)
  utf8text : bytes -> string;
  (* the [name] of the temporary file [mktemp] creates *)
  tmp_name : nat -> string;
  (* whether the bounded read of [communicate] also leaves the
     output-limit mark on the process when only the bound on the
     standard error was crossed; neither the two files nor the spec
     say *)
  stderr_breach_marks_ole : bool
}.
End Env.

(** ** The grader object and the judge state *)

(** The attributes of a grader instance: those of [BaseGrader] the two
    files read, the ones [StandardGrader] adds and the ones
    [BridgedInteractiveGrader] adds.  An attribute that is only assigned
    later starts as [None]. *)
Module Grader.
Record t : Type := mk {
  problem : Problem.t;
  language : string;
  source : bytes;
  binary : Executor.t;
  _current_proc : option TracedPopen.t;
  _stdout_io : option MemoryIO.t;
  _stderr_io : option MemoryIO.t;
  _orig_fsize : Z;
  memfd_output : bool;
  handler_data : HandlerData.t;
  interactor_binary : option Executor.t;
  contrib_type : string;
  _interactor : option TracedPopen.t;
  _interactor_stdin_pipe : option fd;
  _interactor_stdout_pipe : option fd;
  _interactor_time_limit : Q;
  _interactor_memory_limit : Z
}.

Definition set_binary (g : t) (x : Executor.t) : t :=
  mk (problem g) (language g) (source g) x (_current_proc g)
     (_stdout_io g) (_stderr_io g) (_orig_fsize g) (memfd_output g)
     (handler_data g) (interactor_binary g) (contrib_type g)
     (_interactor g) (_interactor_stdin_pipe g) (_interactor_stdout_pipe g)
     (_interactor_time_limit g) (_interactor_memory_limit g).

Definition set_current_proc (g : t) (x : option TracedPopen.t) : t :=
  mk (problem g) (language g) (source g) (binary g) x
     (_stdout_io g) (_stderr_io g) (_orig_fsize g) (memfd_output g)
     (handler_data g) (interactor_binary g) (contrib_type g)
     (_interactor g) (_interactor_stdin_pipe g) (_interactor_stdout_pipe g)
     (_interactor_time_limit g) (_interactor_memory_limit g).

Definition set_stdout_io (g : t) (x : option MemoryIO.t) : t :=
  mk (problem g) (language g) (source g) (binary g) (_current_proc g)
     x (_stderr_io g) (_orig_fsize g) (memfd_output g)
     (handler_data g) (interactor_binary g) (contrib_type g)
     (_interactor g) (_interactor_stdin_pipe g) (_interactor_stdout_pipe g)
     (_interactor_time_limit g) (_interactor_memory_limit g).

Definition set_stderr_io (g : t) (x : option MemoryIO.t) : t :=
  mk (problem g) (language g) (source g) (binary g) (_current_proc g)
     (_stdout_io g) x (_orig_fsize g) (memfd_output g)
     (handler_data g) (interactor_binary g) (contrib_type g)
     (_interactor g) (_interactor_stdin_pipe g) (_interactor_stdout_pipe g)
     (_interactor_time_limit g) (_interactor_memory_limit g).

Definition set_interactive (g : t) (h : HandlerData.t)
    (b : option Executor.t) (c : string) : t :=
  mk (problem g) (language g) (source g) (binary g) (_current_proc g)
     (_stdout_io g) (_stderr_io g) (_orig_fsize g) (memfd_output g)
     h b c
     (_interactor g) (_interactor_stdin_pipe g) (_interactor_stdout_pipe g)
     (_interactor_time_limit g) (_interactor_memory_limit g).

Definition set_interactor (g : t) (x : option TracedPopen.t) : t :=
  mk (problem g) (language g) (source g) (binary g) (_current_proc g)
     (_stdout_io g) (_stderr_io g) (_orig_fsize g) (memfd_output g)
     (handler_data g) (interactor_binary g) (contrib_type g)
     x (_interactor_stdin_pipe g) (_interactor_stdout_pipe g)
     (_interactor_time_limit g) (_interactor_memory_limit g).

Definition set_interactor_stdin_pipe (g : t) (x : option fd) : t :=
  mk (problem g) (language g) (source g) (binary g) (_current_proc g)
     (_stdout_io g) (_stderr_io g) (_orig_fsize g) (memfd_output g)
     (handler_data g) (interactor_binary g) (contrib_type g)
     (_interactor g) x (_interactor_stdout_pipe g)
     (_interactor_time_limit g) (_interactor_memory_limit g).

Definition set_interactor_stdout_pipe (g : t) (x : option fd) : t :=
  mk (problem g) (language g) (source g) (binary g) (_current_proc g)
     (_stdout_io g) (_stderr_io g) (_orig_fsize g) (memfd_output g)
     (handler_data g) (interactor_binary g) (contrib_type g)
     (_interactor g) (_interactor_stdin_pipe g) x
     (_interactor_time_limit g) (_interactor_memory_limit g).

Definition set_interactor_limits (g : t) (tl : Q) (ml : Z) : t :=
  mk (problem g) (language g) (source g) (binary g) (_current_proc g)
     (_stdout_io g) (_stderr_io g) (_orig_fsize g) (memfd_output g)
     (handler_data g) (interactor_binary g) (contrib_type g)
     (_interactor g) (_interactor_stdin_pipe g) (_interactor_stdout_pipe g)
     tl ml.

Definition proc_of (g : t) (r : Role) : option TracedPopen.t :=
  match r with
  | Submission => _current_proc g
  | Interactor => _interactor g
  end.

Definition set_proc_of (g : t) (r : Role) (p : TracedPopen.t) : t :=
  match r with
  | Submission => set_current_proc g (Some p)
  | Interactor => set_interactor g (Some p)
  end.
End Grader.

(** What the judge does to the outside world, in the order it does it. *)
Inductive Event : Type :=
| EvPipe (r w : fd)
| EvClose (n : fd)
| EvLaunch (who : Role) (a : LaunchArgs.t)
| EvWait (who : Role)
| EvKill (who : Role)
| EvMarkOle (who : Role)
| EvCommunicate (who : Role) (outlimit errlimit : Z)
| EvChecker (a : CheckerArgs.t)
| EvParseReturnCode (a : ParseArgs.t)
| EvMktemp (file : nat)
| EvUnlink (file : nat)
| EvFreeData.

(** The judge state during one [grade] call: a clock, the descriptors the
    judge process holds open, the temporary files that exist, the trace of
    actions (each stamped with the clock), and the grader object. *)
Module State.
Record t : Type := mk {
  clock : nat;
  open_fds : gset fd;
  next_fd : fd;
  tmp_files : gset nat;
  next_tmp : nat;
  trace : list (nat * Event);
  self : Grader.t
}.

Definition set_self (s : t) (g : Grader.t) : t :=
  mk (clock s) (open_fds s) (next_fd s) (tmp_files s) (next_tmp s)
     (trace s) g.

Definition set_clock (s : t) (c : nat) : t :=
  mk c (open_fds s) (next_fd s) (tmp_files s) (next_tmp s)
     (trace s) (self s).

Definition set_fds (s : t) (o : gset fd) (n : fd) : t :=
  mk (clock s) o n (tmp_files s) (next_tmp s) (trace s) (self s).

Definition set_tmp (s : t) (f : gset nat) (n : nat) : t :=
  mk (clock s) (open_fds s) (next_fd s) f n (trace s) (self s).

(** Every action takes one tick and is appended to the trace. *)
Definition record (s : t) (e : Event) : t :=
  mk (S (clock s)) (open_fds s) (next_fd s) (tmp_files s) (next_tmp s)
     (trace s ++ [(clock s, e)]) (self s).
End State.

(** ** The monad: state threading with exceptions *)

Definition M (A : Type) : Type := State.t -> Outcome A * State.t.

Definition ret {A} (a : A) : M A := fun s => (Return a, s).

Definition raise {A} (e : PyExc) : M A := fun s => (Raise e, s).

Definition bind {A B} (m : M A) (k : A -> M B) : M B :=
  fun s =>
    match m s with
    | (Return a, s') => k a s'
    | (Raise e, s') => (Raise e, s')
    end.

#[global] Instance M_ret : MRet M := @ret.
#[global] Instance M_bind : MBind M := fun A B k m => bind m k.

(** [try: body  except <handled>: handler]. *)
Definition try_except {A} (body : M A) (handled : PyExc -> bool)
    (handler : PyExc -> M A) : M A :=
  fun s =>
    match body s with
    | (Return a, s') => (Return a, s')
    | (Raise e, s') => if handled e then handler e s' else (Raise e, s')
    end.

(** [try: body  finally: cleanup]: the cleanup runs on both exits; an
    exception of the cleanup replaces the pending outcome. *)
Definition try_finally {A} (body : M A) (cleanup : M unit) : M A :=
  fun s =>
    match body s with
    | (o, s') =>
        match cleanup s' with
        | (Return _, s'') => (o, s'')
        | (Raise e, s'') => (Raise e, s'')
        end
    end.

(** Lifting of a collaborator's answer. *)
Definition lift {A} (o : Outcome A) : M A := fun s => (o, s).

Definition get_self : M Grader.t := fun s => (Return (State.self s), s).

Definition get_clock : M nat := fun s => (Return (State.clock s), s).

Definition modify (f : State.t -> State.t) : M unit :=
  fun s => (Return tt, f s).

Definition modify_self (f : Grader.t -> Grader.t) : M unit :=
  modify (fun s => State.set_self s (f (State.self s))).

Definition emit (e : Event) : M unit :=
  fun s => (Return tt, State.record s e).

(** [assert x is not None]. *)
Definition assert_some {A} (x : option A) : M A :=
  match x with
  | Some a => ret a
  | None => raise AssertionError
  end.

(** [obj.attr] on an attribute that may still be [None]. *)
Definition attr_of {A} (name : string) (x : option A) : M A :=
  match x with
  | Some a => ret a
  | None => raise (AttributeError name)
  end.

(** ** Operating-system and sandbox primitives *)

(** [os.pipe()]: two fresh descriptors, read end first. *)
Definition os_pipe : M (fd * fd) :=
  fun s =>
    let r := State.next_fd s in
    let w := S r in
    (Return (r, w),
     State.record (State.set_fds s ({[r; w]} ∪ State.open_fds s) (S w))
       (EvPipe r w)).

(** [os.close(n)]: fails on a descriptor the judge does not hold. *)
Definition os_close (n : fd) : M unit :=
  fun s =>
    if decide (n ∈ State.open_fds s)
    then (Return tt,
          State.record
            (State.set_fds s (State.open_fds s ∖ {[n]}) (State.next_fd s))
            (EvClose n))
    else (Raise (OSError "Bad file descriptor"), s).

Section Primitives.
Context (E : Env.t).

(** [executor.launch(...)]: asks the sandbox to start a
    process; the handle records when the process will terminate. *)
Definition launch (who : Role) (exe : Executor.t) (a : LaunchArgs.t)
    : M TracedPopen.t :=
  emit (EvLaunch who a) ;;
  beh ← lift (Env.launch E exe a) ;
  now ← get_clock ;
  ret (TracedPopen.mk who (now + Behaviour.lifetime beh) beh false false).

(** [process.wait()]: blocks until the process has terminated. *)
Definition proc_wait (who : Role) : M unit :=
  g ← get_self ;
  p ← attr_of "wait" (Grader.proc_of g who) ;
  modify (fun s => State.set_clock s (Nat.max (State.clock s) (TracedPopen.death p))) ;;
  emit (EvWait who).

(** [process.kill()]. *)
Definition proc_kill (who : Role) : M unit :=
  g ← get_self ;
  p ← attr_of "kill" (Grader.proc_of g who) ;
  now ← get_clock ;
  modify_self (fun g => Grader.set_proc_of g who (TracedPopen.set_killed p now)) ;;
  emit (EvKill who).

(** [process.mark_ole()]. *)
Definition proc_mark_ole (who : Role) : M unit :=
  g ← get_self ;
  p ← attr_of "mark_ole" (Grader.proc_of g who) ;
  modify_self (fun g => Grader.set_proc_of g who (TracedPopen.set_is_ole p true)) ;;
  emit (EvMarkOle who).

(** Modelled from the spec: [ProcessHandle.communicate(timeout?,
    outlimit?, errlimit?) -> (stdout, stderr)], the bounded read of the
    pipe-based capture path, whose source ([dmoj.cptbox]) is not part of
    the two files.  It returns both streams when each stays within its
    limit and raises [OutputLimitExceeded] once a stream crosses it.  An
    output-limit breach is "not an error -- a flag on Result", also
    "when detected via bounded reads": a standard output that crosses
    [outlimit] leaves the output-limit mark on the process, from where
    [populate_result] carries it into the result.  Whether crossing the
    bound on the standard error alone leaves the mark too is left to
    [Env.stderr_breach_marks_ole]. *)
Definition proc_communicate (who : Role) (outlimit errlimit : Z)
    : M (bytes * bytes) :=
  g ← get_self ;
  p ← attr_of "communicate" (Grader.proc_of g who) ;
  emit (EvCommunicate who outlimit errlimit) ;;
  let out := Behaviour.writes_stdout (TracedPopen.behaviour p) in
  let err := Behaviour.writes_stderr (TracedPopen.behaviour p) in
  if (outlimit <? Z.of_nat (length out)) || (errlimit <? Z.of_nat (length err))
  then
    modify_self (fun g =>
      Grader.set_proc_of g who
        (TracedPopen.set_is_ole p
           (TracedPopen.is_ole p
            || (outlimit <? Z.of_nat (length out))
            || Env.stderr_breach_marks_ole E))) ;;
    raise OutputLimitExceeded
  else ret (out, err).

(** [process.stderr.read()] on a piped standard error. *)
Definition proc_stderr_read (p : TracedPopen.t) : bytes :=
  Behaviour.writes_stderr (TracedPopen.behaviour p).

(** Modelled from the spec: [Executor.populate_result(stderr_bytes,
    result, process)], whose source ([dmoj.executors.base_executor]) is
    not part of the two files.  It fills the result's timing and ORs
    into its flags the breaches the sandbox reports post mortem, the
    output-limit breach being the mark [mark_ole()] left on the
    process. *)
Definition Executor_populate_result (error : bytes) (result : Result.t)
    (process : TracedPopen.t) : Result.t :=
  let beh := TracedPopen.behaviour process in
  let result := Result.set_execution_time result (Behaviour.report_time beh) in
  Result.set_result_flag result
    (Z.lor (Result.result_flag result)
       (Z.lor (Behaviour.report_flags beh)
          (if TracedPopen.is_ole process then Env.OLE E else 0))).

(** Modelled from the spec: [Result(case)], "an empty Result bound to
    case"; the class ([dmoj.result]) is not part of the two files. *)
Definition Result_new (case : TestCase.t) : Result.t :=
  Result.mk 0 0 (Some "") (Some "") [] 0.

(** Modelled from the spec: [mktemp(data)] used as a context manager, "a
    temporary file containing the case's expected output, scoped to this
    call and deleted on every exit path"; the helper
    ([dmoj.utils.helper_files]) is not part of the two files. *)
Definition mktemp (data : bytes) : M nat :=
  fun s =>
    let f := State.next_tmp s in
    (Return f,
     State.record (State.set_tmp s ({[f]} ∪ State.tmp_files s) (S f))
       (EvMktemp f)).

Definition unlink (f : nat) : M unit :=
  fun s =>
    (Return tt,
     State.record
       (State.set_tmp s (State.tmp_files s ∖ {[f]}) (State.next_tmp s))
       (EvUnlink f)).

Definition with_mktemp {A} (data : bytes) (body : nat -> M A) : M A :=
  f ← mktemp data ;
  try_finally (body f) (unlink f).
End Primitives.

(** ** [StandardGrader] ([standard.py]) *)

(** The steps of [grade] a subclass may override. *)
Class GraderMethods : Type := {
  m_launch_process : TestCase.t -> option string -> M unit;
  m_interact_with_process : TestCase.t -> Result.t -> M (bytes * Result.t);
  m_check_result : TestCase.t -> Result.t -> M CheckerOutput
}.

Module StandardGrader.
Section WithEnv.
Context (E : Env.t).

(** The keyword arguments of lines 67-81. *)
Definition checker_args (g : Grader.t) (case : TestCase.t)
    (result : Result.t) : CheckerArgs.t :=
  CheckerArgs.mk
    (Result.proc_output result)
    (TestCase.output_data case)
    (Grader.source g)
    (TestCase.input_data case)
    (TestCase.points case)
    (TestCase.position case)
    (TestCase.batch case)
    (Grader.language g)
    (TestCase.has_binary_data case)
    (Result.execution_time result)
    (Problem.id (Grader.problem g))
    result.

Definition is_UnicodeDecodeError (e : PyExc) : bool :=
  match e with UnicodeDecodeError => true | _ => false end.

(** [getattr(checker.func, 'run_on_error', False)]. *)
Definition getattr_run_on_error (c : Checker.t) : bool :=
  match Checker.run_on_error c with
  | Some b => b
  | None => false
  end.

(** Lines 58-90. *)
Definition check_result (case : TestCase.t) (result : Result.t)
    : M CheckerOutput :=
  let checker := TestCase.checker case in
  g ← get_self ;
  if (Result.result_flag result =? 0) || getattr_run_on_error checker
  then
    try_except
      (let a := checker_args g case result in
       emit (EvChecker a) ;;
       lift (Checker.call checker a))
      is_UnicodeDecodeError
      (fun _ =>
         ret (CRich (CheckerResult.mk false 0 (Some "invalid unicode") None)))
  else
    ret (CBool false).

(** Lines 92-112. *)
Definition _launch_process (case : TestCase.t) (input_file : option string)
    : M unit :=
  g ← get_self ;
  streams ←
    (if Grader.memfd_output g
     then
       modify_self (fun g => Grader.set_stdout_io g (Some (MemoryIO.mk [] false))) ;;
       modify_self (fun g => Grader.set_stderr_io g (Some (MemoryIO.mk [] false))) ;;
       modify_self (fun g =>
         Grader.set_binary g
           (Executor.set_fsize (Grader.binary g)
              (Z.max (Z.max (Grader._orig_fsize g)
                        (CaseConfig.output_limit_length (TestCase.config case) + 1024))
                 1048576))) ;;
       ret (MemIO, MemIO)
     else ret (PIPE, PIPE)) ;
  g ← get_self ;
  p ← launch E Submission (Grader.binary g)
        (LaunchArgs.mk []
           (Problem.time_limit (Grader.problem g))
           (Problem.memory_limit (Grader.problem g))
           (CaseConfig.symlinks (TestCase.config case))
           (match input_file with Some f => InputFile f | None => PIPE end)
           (fst streams)
           (snd streams)
           (Some (CaseConfig.wall_time_factor (TestCase.config case)
                  * Problem.time_limit (Grader.problem g))%Q)
           []) ;
  modify_self (fun g => Grader.set_current_proc g (Some p)) ;;
  (* the process writes into the memory-backed files it was given *)
  (if Grader.memfd_output g
   then
     modify_self (fun g =>
       Grader.set_stdout_io g
         (Some (MemoryIO.mk (Behaviour.writes_stdout (TracedPopen.behaviour p)) false))) ;;
     modify_self (fun g =>
       Grader.set_stderr_io g
         (Some (MemoryIO.mk (Behaviour.writes_stderr (TracedPopen.behaviour p)) false)))
   else ret tt).

Definition is_OutputLimitExceeded (e : PyExc) : bool :=
  match e with OutputLimitExceeded => true | _ => false end.

(** Lines 114-139. *)
Definition _interact_with_process (case : TestCase.t) (result : Result.t)
    : M (bytes * Result.t) :=
  g ← get_self ;
  process ← assert_some (Grader._current_proc g) ;
  if Grader.memfd_output g
  then
    proc_wait Submission ;;
    g ← get_self ;
    out_io ← attr_of "to_bytes" (Grader._stdout_io g) ;
    let result := Result.set_proc_output result (MemoryIO.content out_io) in
    modify_self (fun g => Grader.set_stdout_io g (Some (MemoryIO.close out_io))) ;;
    (if CaseConfig.output_limit_length (TestCase.config case)
          <? Z.of_nat (length (Result.proc_output result))
     then proc_mark_ole Submission
     else ret tt) ;;
    g ← get_self ;
    err_io ← attr_of "to_bytes" (Grader._stderr_io g) ;
    let error := MemoryIO.content err_io in
    modify_self (fun g => Grader.set_stderr_io g (Some (MemoryIO.close err_io))) ;;
    ret (error, result)
  else
    try_finally
      (try_except
         (oe ← proc_communicate E Submission
                 (CaseConfig.output_limit_length (TestCase.config case)) 1048576 ;
          ret (snd oe, Result.set_proc_output result (fst oe)))
         is_OutputLimitExceeded
         (fun _ =>
            proc_kill Submission ;;
            ret ([], result)))
      (proc_wait Submission).

(** Line 43-44: a boolean checker value becomes a [CheckerResult]. *)
Definition normalize (case : TestCase.t) (check : CheckerOutput)
    : CheckerResult.t :=
  match check with
  | CRich r => r
  | CBool b => CheckerResult.mk b (if b then TestCase.points case else 0) None None
  end.

(** Line 46: [[Result.WA, Result.AC][check.passed]]. *)
Definition verdict_flag (passed : bool) : Z :=
  nth (Nat.b2n passed) [Env.WA E; Env.AC E] 0.

(** Lines 46-49. *)
Definition merge (result : Result.t) (check : CheckerResult.t) : Result.t :=
  Result.mk
    (Z.lor (Result.result_flag result) (verdict_flag (CheckerResult.passed check)))
    (CheckerResult.points check)
    (str_or (CheckerResult.feedback check) (Result.feedback result))
    (str_or (CheckerResult.extended_feedback check) (Result.extended_feedback result))
    (Result.proc_output result)
    (Result.execution_time result).

(** Lines 55-56. *)
Definition populate_result (error : bytes) (result : Result.t)
    (process : TracedPopen.t) : Result.t :=
  Executor_populate_result E error result process.

(** Lines 25-53.  The three overridable steps are taken from the
    instance the grader object belongs to. *)
Definition grade `{GraderMethods} (case : TestCase.t) : M Result.t :=
  let result := Result_new case in
  let input_file := TestCase.input_path case in
  m_launch_process case (Some input_file) ;;
  er ← m_interact_with_process case result ;
  let error := fst er in
  let result := snd er in
  g ← get_self ;
  process ← assert_some (Grader._current_proc g) ;
  let result := populate_result error result process in
  check ← m_check_result case result ;
  let check := normalize case check in
  let result := merge result check in
  emit EvFreeData ;;
  ret result.

(** The standard grader uses its own three steps. *)
Definition methods : GraderMethods := {|
  m_launch_process := _launch_process;
  m_interact_with_process := _interact_with_process;
  m_check_result := check_result
|}.
End WithEnv.
End StandardGrader.

(** ** [BridgedInteractiveGrader] ([bridged.py]) *)

Module BridgedInteractiveGrader.
Section WithEnv.
Context (E : Env.t).

(** Lines 123-126.  The local [filenames] is assigned on two of the
    three branches only; [None] stands for the unassigned local.  The
    test of line 125 calls [files.unwrap()], which a value that is
    neither a [str] nor a [ConfigNode] does not have. *)
Definition assigned_filenames (files : FilesValue)
    : Outcome (option (list string)) :=
  match files with
  | FStr s => Return (Some [s])
  | FNode (UList items) => Return (Some items)
  | FNode (UDict _) => Return None
  | FNone => Raise (AttributeError "unwrap")
  | FNum _ => Raise (AttributeError "unwrap")
  end.

(** Lines 121-134.  The first use of [filenames] is in line 129, after
    the assertion on the problem root. *)
Definition _generate_interactor_binary (g : Grader.t) : Outcome Executor.t :=
  let hd := Grader.handler_data g in
  let files := HandlerData.files hd in
  match assigned_filenames files with
  | Raise e => Raise e
  | Return filenames =>
      match Env.get_problem_root E (Problem.id (Grader.problem g)) with
      | None => Raise AssertionError
      | Some problem_root =>
          match filenames with
          | None => Raise (UnboundLocalError "filenames")
          | Some filenames =>
              let filenames := map (os_path_join problem_root) filenames in
              let flags := default [] (HandlerData.flags hd) in
              let unbuffered := default true (HandlerData.unbuffered hd) in
              Env.compile_with_auxiliary_files E filenames flags
                (HandlerData.lang hd) (HandlerData.compiler_time_limit hd)
                unbuffered
          end
      end
  end.

(** Lines 28-40, from the point where [super().__init__] has returned
    the object [g] ([BaseGrader.__init__] is not part of the two
    files). *)
Definition __init__ (g : Grader.t) : Outcome Grader.t :=
  let hd := Problem.interactive (Grader.problem g) in
  let g := Grader.set_interactive g hd (Grader.interactor_binary g)
             (Grader.contrib_type g) in
  match _generate_interactor_binary g with
  | Raise (CompileError msg) =>
      Raise (InternalError "interactor failed compiling"
               (Some (CompileError msg)))
  | Raise e => Raise e
  | Return interactor_binary =>
      let contrib_type := default "default" (HandlerData.type hd) in
      let g := Grader.set_interactive g hd (Some interactor_binary) contrib_type in
      match Env.contrib_modules E !! contrib_type with
      | None =>
          Raise (InternalError (contrib_type ++ " is not a valid contrib module")
                   None)
      | Some _ => Return g
      end
  end.

(** [contrib_modules[self.contrib_type].ContribModule]. *)
Definition contrib_module (g : Grader.t) : M ContribModule.t :=
  match Env.contrib_modules E !! Grader.contrib_type g with
  | Some cm => ret cm
  | None => raise (KeyError (Grader.contrib_type g))
  end.

(** Lines 42-59. *)
Definition check_result (case : TestCase.t) (result : Result.t)
    : M CheckerOutput :=
  g ← get_self ;
  interactor ← attr_of "stderr" (Grader._interactor g) ;
  let stderr := proc_stderr_read interactor in
  cm ← contrib_module g ;
  interactor_binary ← attr_of "interactor_binary" (Grader.interactor_binary g) ;
  let a :=
    ParseArgs.mk interactor interactor_binary (TestCase.points case)
      (Grader._interactor_time_limit g) (Grader._interactor_memory_limit g)
      (if HandlerData.feedback (Grader.handler_data g)
       then Env.utf8text E stderr else "")
      "interactor" stderr in
  emit (EvParseReturnCode a) ;;
  parsed_result ← lift (ContribModule.parse_return_code cm a) ;
  ret (if Result.result_flag result =? 0 then parsed_result else CBool false).

(** Lines 61-74. *)
Definition _launch_process (case : TestCase.t) (input_file : option string)
    : M unit :=
  p1 ← os_pipe ;
  modify_self (fun g => Grader.set_interactor_stdin_pipe g (Some (fst p1))) ;;
  let submission_stdout_pipe := snd p1 in
  p2 ← os_pipe ;
  let submission_stdin_pipe := fst p2 in
  modify_self (fun g => Grader.set_interactor_stdout_pipe g (Some (snd p2))) ;;
  g ← get_self ;
  p ← launch E Submission (Grader.binary g)
        (LaunchArgs.mk []
           (Problem.time_limit (Grader.problem g))
           (Problem.memory_limit (Grader.problem g))
           (CaseConfig.symlinks (TestCase.config case))
           (Fd submission_stdin_pipe)
           (Fd submission_stdout_pipe)
           PIPE
           (Some (CaseConfig.wall_time_factor (TestCase.config case)
                  * Problem.time_limit (Grader.problem g))%Q)
           []) ;
  modify_self (fun g => Grader.set_current_proc g (Some p)) ;;
  os_close submission_stdin_pipe ;;
  os_close submission_stdout_pipe.

(** Lines 76-119. *)
Definition _interact_with_process (case : TestCase.t) (result : Result.t)
    : M (bytes * Result.t) :=
  g ← get_self ;
  _ ← assert_some (Grader._current_proc g) ;
  let judge_output := TestCase.output_data case in
  let hd := Grader.handler_data g in
  modify_self (fun g =>
    Grader.set_interactor_limits g
      (num_or Q_is_zero (HandlerData.preprocessing_time hd) 2
       + Problem.time_limit (Grader.problem g))%Q
      (num_or (Z.eqb 0) (HandlerData.memory_limit hd)
         (Env.generator_memory_limit E))) ;;
  args_format_string ←
    match HandlerData.args_format_string hd with
    | Some s =>
        if String.eqb s ""
        then cm ← contrib_module g ;
             ret (ContribModule.get_interactor_args_format_string cm)
        else ret s
    | None =>
        cm ← contrib_module g ;
        ret (ContribModule.get_interactor_args_format_string cm)
    end ;
  with_mktemp judge_output (fun answer_file =>
    let input_path := TestCase.input_path case in
    interactor_args ←
      lift (Env.format_interactor_args E args_format_string input_path
              "/dev/null" (Env.tmp_name E answer_file)) ;
    g ← get_self ;
    interactor_binary ← attr_of "launch" (Grader.interactor_binary g) ;
    stdin_pipe ← attr_of "_interactor_stdin_pipe" (Grader._interactor_stdin_pipe g) ;
    stdout_pipe ← attr_of "_interactor_stdout_pipe" (Grader._interactor_stdout_pipe g) ;
    p ← launch E Interactor interactor_binary
          (LaunchArgs.mk interactor_args
             (Grader._interactor_time_limit g)
             (Grader._interactor_memory_limit g)
             []
             (Fd stdin_pipe)
             (Fd stdout_pipe)
             PIPE
             None
             [input_path]) ;
    modify_self (fun g => Grader.set_interactor g (Some p)) ;;
    os_close stdin_pipe ;;
    os_close stdout_pipe ;;
    proc_wait Submission ;;
    proc_wait Interactor ;;
    g ← get_self ;
    current_proc ← attr_of "stderr" (Grader._current_proc g) ;
    ret (proc_stderr_read current_proc, result)).

(** The interactive grader inherits [grade] and overrides its three
    steps. *)
Definition methods : GraderMethods := {|
  m_launch_process := _launch_process;
  m_interact_with_process := _interact_with_process;
  m_check_result := check_result
|}.

Definition grade (case : TestCase.t) : M Result.t :=
  StandardGrader.grade E (H := methods) case.
End WithEnv.
End BridgedInteractiveGrader.

(** ** Shapes and helpers used in the statements *)


(** Line 30: [self.handler_data = self.problem.config.interactive]. *)
Definition with_handler_data (g : Grader.t) : Grader.t :=
  Grader.set_interactive g (Problem.interactive (Grader.problem g))
    (Grader.interactor_binary g) (Grader.contrib_type g).

(** Line 38: [self.handler_data.get('type', 'default')]. *)
Definition configured_contrib_type (g : Grader.t) : string :=
  default "default" (HandlerData.type (Problem.interactive (Grader.problem g))).

(** The value a finished computation returned, if it returned. *)
Definition returned {A} (r : Outcome A * State.t) : option A :=
  match fst r with
  | Return a => Some a
  | Raise _ => None
  end.

(** The actions of a trace without their time stamps. *)
Definition actions (tr : list (nat * Event)) : list Event := map snd tr.

(** A flag is set in a flag word when all its bits are. *)
Definition flag_set (flag word : Z) : Prop := Z.land word flag = flag.

(** A process has terminated at a given instant. *)
Definition terminated (p : TracedPopen.t) (now : nat) : Prop :=
  (TracedPopen.death p <= now)%nat.

(** A computation keeps the temporary files when, however it ends, it
    leaves them as they were and creates none. *)
Definition keeps_tmp {A} (m : M A) : Prop :=
  forall s o s',
    m s = (o, s') ->
    State.tmp_files s' = State.tmp_files s
    /\ exists acts,
         actions (State.trace s') = (actions (State.trace s) ++ acts)%list
         /\ forall t, ~ In (EvMktemp t) acts.

(** A computation releases its temporary files when, however it ends,
    every file it created is gone. *)
Definition releases_tmp {A} (m : M A) : Prop :=
  forall s o s',
    m s = (o, s') ->
    exists acts,
      actions (State.trace s') = (actions (State.trace s) ++ acts)%list
      /\ forall t, In (EvMktemp t) acts -> t ∉ State.tmp_files s'.

(** The four action sequences by which the standard grader captures the
    output of the submission: on the memory-backed path a wait, followed
    by the mark when the limit was exceeded; on the pipe-based path the
    bounded read and a wait, with a kill in between when a bound was
    crossed. *)
Definition is_capture (limit : Z) (cap : list Event) : Prop :=
  cap = [EvWait Submission]
  \/ cap = [EvWait Submission; EvMarkOle Submission]
  \/ cap = [EvCommunicate Submission limit 1048576; EvWait Submission]
  \/ cap = [EvCommunicate Submission limit 1048576; EvKill Submission;
            EvWait Submission].

(** ** Concrete configurations *)

Module Scenario.
(** A sandbox in which the submission lives 3 ticks and the interactor
    5; the submission writes five bytes. *)
Definition sandbox (exe : Executor.t) (a : LaunchArgs.t) : Outcome Behaviour.t :=
  if String.eqb (Executor.name exe) "interactor"
  then Return (Behaviour.mk 5 [] [] 0 0)
  else Return (Behaviour.mk 3 (repeat Byte.x61 5) [] 0 (1 # 2)).

(** The same with the lifetimes exchanged: the interactor dies first. *)
Definition sandbox_interactor_first (exe : Executor.t) (a : LaunchArgs.t)
    : Outcome Behaviour.t :=
  if String.eqb (Executor.name exe) "interactor"
  then Return (Behaviour.mk 2 [] [] 0 0)
  else Return (Behaviour.mk 9 (repeat Byte.x61 5) [] 0 (1 # 2)).

(** A sandbox that refuses to start the interactor. *)
Definition sandbox_no_interactor (exe : Executor.t) (a : LaunchArgs.t)
    : Outcome Behaviour.t :=
  if String.eqb (Executor.name exe) "interactor"
  then Raise (RuntimeError "failed to spawn")
  else Return (Behaviour.mk 3 [] [] 0 0).

(** A sandbox in which the submission was killed for its time limit
    (flag 4). *)
Definition sandbox_tle (exe : Executor.t) (a : LaunchArgs.t) : Outcome Behaviour.t :=
  Return (Behaviour.mk 3 [] [] 4 2).

Definition accepting_contrib : ContribModule.t :=
  ContribModule.mk (fun _ => Return (CBool true)) "{input_file} {answer_file}".

Definition registry : gmap string ContribModule.t :=
  {[ "default" := accepting_contrib ]}.

Definition env_with (l : Executor.t -> LaunchArgs.t -> Outcome Behaviour.t)
    (compile : Outcome Executor.t) : Env.t :=
  Env.mk 0 1 64 l registry
    (fun _ => Some "/problems/p")
    (fun _ _ _ _ _ => compile)
    65536
    (fun _ i _ a => Return [i; a])
    (fun _ => "")
    (fun _ => "/tmp/answer")
    false.

Definition env : Env.t :=
  env_with sandbox (Return (Executor.mk "interactor" 0)).

Definition env_interactor_first : Env.t :=
  env_with sandbox_interactor_first (Return (Executor.mk "interactor" 0)).

Definition env_no_interactor : Env.t :=
  env_with sandbox_no_interactor (Return (Executor.mk "interactor" 0)).

Definition env_tle : Env.t :=
  env_with sandbox_tle (Return (Executor.mk "interactor" 0)).

Definition env_broken_interactor : Env.t :=
  env_with sandbox (Raise (CompileError "interactor.cpp: error")).

Definition handler (f : FilesValue) (ty : option string) : HandlerData.t :=
  HandlerData.mk f ty None None "CPP17" None false None None None.

Definition problem (f : FilesValue) (ty : option string) : Problem.t :=
  Problem.mk "p" 1 65536 (handler f ty).

(** A grader object as [super().__init__] leaves it. *)
Definition base_grader (f : FilesValue) (ty : option string) (memfd : bool)
    : Grader.t :=
  Grader.mk (problem f ty) "PY3" [] (Executor.mk "submission" 0)
    None None None 0 memfd (handler f ty) None "" None None None 0 0.

Definition initial (g : Grader.t) : State.t :=
  State.mk 0 ∅ 3%nat ∅ 0 [] g.

Definition checker_returning (roe : option bool) (o : Outcome CheckerOutput)
    : Checker.t :=
  Checker.mk roe (fun _ => o).

(** A case worth 100 points with an output limit of [limit] bytes. *)
Definition case_with (limit : Z) (c : Checker.t) : TestCase.t :=
  TestCase.mk 1 0 100 [] "/problems/p/1.in" [] false
    (CaseConfig.mk [] 3 limit) c.

(** The object [BridgedInteractiveGrader.__init__] builds in [env]. *)
Definition interactive_grader : Grader.t :=
  Grader.set_interactive (base_grader (FStr "interactor.cpp") None true)
    (handler (FStr "interactor.cpp") None)
    (Some (Executor.mk "interactor" 0)) "default".

Definition standard_state : State.t :=
  initial (base_grader (FStr "interactor.cpp") None true).

Definition pipe_state : State.t :=
  initial (base_grader (FStr "interactor.cpp") None false).

Definition interactive_state : State.t := initial interactive_grader.

(** A checker that awards twice the case's points. *)
Definition case_generous : TestCase.t :=
  case_with 10
    (checker_returning None (Return (CRich (CheckerResult.mk true 200 None None)))).

Definition case_true : TestCase.t :=
  case_with 10 (checker_returning None (Return (CBool true))).

(** A checker declaring [run_on_error] that accepts. *)
Definition case_run_on_error : TestCase.t :=
  case_with 10 (checker_returning (Some true) (Return (CBool true))).

Definition case_undecodable : TestCase.t :=
  case_with 10 (checker_returning None (Raise UnicodeDecodeError)).

(** An output limit of 3 bytes, which the 5 bytes of the submission
    exceed; the checker runs on error. *)
Definition case_small_limit : TestCase.t :=
  case_with 3 (checker_returning (Some true) (Return (CBool true))).

Definition failed_result : Result.t := Result.mk 4 0 None None [] 0.

(** A sandbox that refuses to start anything. *)
Definition sandbox_refusing (exe : Executor.t) (a : LaunchArgs.t)
    : Outcome Behaviour.t :=
  Raise (RuntimeError "failed to spawn").

Definition env_refusing : Env.t :=
  env_with sandbox_refusing (Return (Executor.mk "interactor" 0)).

(** A checker that crashes with something else than a decoding error. *)
Definition case_crashing_checker : TestCase.t :=
  case_with 10 (checker_returning None (Raise (RuntimeError "checker crashed"))).

(** An adapter that reports a crashed interactor. *)
Definition crashing_contrib : ContribModule.t :=
  ContribModule.mk
    (fun _ => Raise (InternalError "interactor crashed" None))
    "{input_file} {answer_file}".

Definition env_crashing_adapter : Env.t :=
  Env.mk 0 1 64 sandbox {[ "default" := crashing_contrib ]}
    (fun _ => Some "/problems/p")
    (fun _ _ _ _ _ => Return (Executor.mk "interactor" 0))
    65536
    (fun _ i _ a => Return [i; a])
    (fun _ => "")
    (fun _ => "/tmp/answer")
    false.

(** The interactive grader after both processes ran, with an interactor
    that lived 5 ticks. *)
Definition after_interaction : State.t :=
  initial
    (Grader.set_interactor interactive_grader
       (Some (TracedPopen.mk Interactor 12 (Behaviour.mk 5 [] [] 0 0) false false))).

(** A grader whose executor had a file-size limit of 4 MiB. *)
Definition large_fsize_state : State.t :=
  initial
    (Grader.mk (problem (FStr "interactor.cpp") None) "PY3" []
       (Executor.mk "submission" 4194304) None None None 4194304 true
       (handler (FStr "interactor.cpp") None) None "" None None None 0 0).

Definition clear_result : Result.t := Result.mk 0 0 None None [] 0.
End Scenario.

(** * Properties *)

(** ** Construction of the interactive grader *)

Section Construction.
Context (E : Env.t).

Lemma generate_CompileError_from_compiler g msg :
  BridgedInteractiveGrader._generate_interactor_binary E g = Raise (CompileError msg) ->
  exists fs fl l t u,
    Env.compile_with_auxiliary_files E fs fl l t u = Raise (CompileError msg).
Proof.
  unfold BridgedInteractiveGrader._generate_interactor_binary.
  destruct (HandlerData.files _) as [?|[?|?]| |?]; cbn; try discriminate;
    (destruct (Env.get_problem_root E _); [|discriminate]);
    try discriminate; eauto 10.
Qed.
End Construction.




(** C5: when the interactor sources fail to compile, that is when
    [_generate_interactor_binary] raises [CompileError], constructing the
    interactive grader raises [InternalError] carrying the compile error
    as its cause; it does not raise [CompileError], the signal of a
    submission that fails to compile. *)
Theorem interactor_compile_failure_is_internal_error (E : Env.t) (g : Grader.t)
    (msg : string) :
  BridgedInteractiveGrader._generate_interactor_binary E (with_handler_data g)
  = Raise (CompileError msg) ->
  BridgedInteractiveGrader.__init__ E g
  = Raise (InternalError "interactor failed compiling" (Some (CompileError msg)))
  /\ (forall e, BridgedInteractiveGrader.__init__ E g = Raise e ->
                is_InternalError e = true /\ is_CompileError e = false).
Proof.
  intros Hgen.
  assert (Hinit : BridgedInteractiveGrader.__init__ E g
                  = Raise (InternalError "interactor failed compiling"
                             (Some (CompileError msg)))).
  { unfold BridgedInteractiveGrader.__init__.
    fold (with_handler_data g). now rewrite Hgen. }
  split; [exact Hinit|].
  intros e He. rewrite Hinit in He. injection He as <-. split; reflexivity.
Qed.

Lemma interactor_compile_failure_is_internal_error_witness :
  BridgedInteractiveGrader.__init__ Scenario.env_broken_interactor
    (Scenario.base_grader (FStr "interactor.cpp") None true)
  = Raise (InternalError "interactor failed compiling"
             (Some (CompileError "interactor.cpp: error"))).
Proof.
  apply (interactor_compile_failure_is_internal_error
           Scenario.env_broken_interactor
           (Scenario.base_grader (FStr "interactor.cpp") None true)
           "interactor.cpp: error").
  reflexivity.
Defined.

(** C4, as stated, fails: with a [files] entry that unwraps to a mapping
    and the unknown adapter name ["bogus"], construction raises
    [UnboundLocalError], which is not an internal error. *)
Lemma unknown_contrib_not_always_internal_error :
  Env.contrib_modules Scenario.env !! "bogus" = None
  /\ configured_contrib_type
       (Scenario.base_grader (FNode (UDict [])) (Some "bogus") true) = "bogus"
  /\ BridgedInteractiveGrader.__init__ Scenario.env
       (Scenario.base_grader (FNode (UDict [])) (Some "bogus") true)
     = Raise (UnboundLocalError "filenames")
  /\ is_InternalError (UnboundLocalError "filenames") = false.
Proof.
  repeat split; vm_compute; reflexivity.
Qed.

(** C4, amended: when the configured adapter name is not in the registry,
    construction never yields a grader, so no case can be graded; it
    raises, and what it raises is an [InternalError] naming the adapter
    when the interactor binary was generated, and the [InternalError] of
    the compile failure when generation failed to compile. *)
Theorem unknown_contrib_rejected_at_construction (E : Env.t) (g : Grader.t) :
  Env.contrib_modules E !! configured_contrib_type g = None ->
  (exists e, BridgedInteractiveGrader.__init__ E g = Raise e)
  /\ (forall b,
        BridgedInteractiveGrader._generate_interactor_binary E (with_handler_data g)
        = Return b ->
        BridgedInteractiveGrader.__init__ E g
        = Raise (InternalError
                   (configured_contrib_type g ++ " is not a valid contrib module")
                   None))
  /\ (forall msg,
        BridgedInteractiveGrader._generate_interactor_binary E (with_handler_data g)
        = Raise (CompileError msg) ->
        BridgedInteractiveGrader.__init__ E g
        = Raise (InternalError "interactor failed compiling"
                   (Some (CompileError msg)))).
Proof.
  intros Hunknown.
  unfold BridgedInteractiveGrader.__init__.
  fold (with_handler_data g). fold (configured_contrib_type g).
  destruct (BridgedInteractiveGrader._generate_interactor_binary E (with_handler_data g))
    as [b|e] eqn:Hgen.
  - rewrite Hunknown. repeat split; eauto; discriminate.
  - repeat split; try discriminate.
    + destruct e; eauto.
    + intros msg [= ->]. reflexivity.
Qed.

Lemma unknown_contrib_rejected_at_construction_witness :
  BridgedInteractiveGrader.__init__ Scenario.env
    (Scenario.base_grader (FStr "interactor.cpp") (Some "bogus") true)
  = Raise (InternalError "bogus is not a valid contrib module" None).
Proof.
  destruct (unknown_contrib_rejected_at_construction Scenario.env
              (Scenario.base_grader (FStr "interactor.cpp") (Some "bogus") true))
    as (_ & Hgenerated & _).
  - vm_compute. reflexivity.
  - apply (Hgenerated (Executor.mk "interactor" 0)). reflexivity.
Defined.

(** ** Running monadic code *)

Section Running.
Context {A B : Type}.

Lemma bind_inv (m : M A) (k : A -> M B) s o s' :
  (m ≫= k) s = (o, s') ->
  (exists a s1, m s = (Return a, s1) /\ k a s1 = (o, s'))
  \/ (exists e, m s = (Raise e, s') /\ o = Raise e).
Proof.
  unfold mbind, M_bind, bind.
  destruct (m s) as [[a|e] s1]; intros H.
  - left. eauto.
  - right. injection H as <- <-. eauto.
Qed.

Lemma bind_Return_inv (m : M A) (k : A -> M B) s b s' :
  (m ≫= k) s = (Return b, s') ->
  exists a s1, m s = (Return a, s1) /\ k a s1 = (Return b, s').
Proof.
  intros H. apply bind_inv in H as [H|(e & _ & H)]; [exact H|discriminate].
Qed.

Lemma bind_run (m : M A) (k : A -> M B) s a s1 :
  m s = (Return a, s1) -> (m ≫= k) s = k a s1.
Proof.
  intros H. unfold mbind, M_bind, bind. now rewrite H.
Qed.

End Running.

(** ** The merge at the end of [grade] *)

Section Grade.
Context (E : Env.t) (H : GraderMethods).

(** [grade] returns exactly when its steps do, with the merged result. *)
Lemma grade_run case s s1 s2 s3 error result0 process check :
  m_launch_process case (Some (TestCase.input_path case)) s = (Return tt, s1) ->
  m_interact_with_process case (Result_new case) s1 = (Return (error, result0), s2) ->
  Grader._current_proc (State.self s2) = Some process ->
  m_check_result case (StandardGrader.populate_result E error result0 process) s2
  = (Return check, s3) ->
  StandardGrader.grade E case s
  = (Return (StandardGrader.merge E
               (StandardGrader.populate_result E error result0 process)
               (StandardGrader.normalize case check)),
     State.record s3 EvFreeData).
Proof.
  intros H1 H2 H3 H4. unfold StandardGrader.grade.
  rewrite (bind_run _ _ _ _ _ H1), (bind_run _ _ _ _ _ H2). cbn [fst snd].
  unfold get_self at 1. unfold mbind at 1, M_bind at 1, bind at 1.
  rewrite H3. cbn [assert_some].
  unfold mbind at 1, M_bind at 1, bind at 1, ret at 1.
  rewrite (bind_run _ _ _ _ _ H4). reflexivity.
Qed.

Lemma grade_inv case s r s' :
  StandardGrader.grade E case s = (Return r, s') ->
  exists s1 s2 s3 error result0 process check,
    m_launch_process case (Some (TestCase.input_path case)) s = (Return tt, s1)
    /\ m_interact_with_process case (Result_new case) s1
       = (Return (error, result0), s2)
    /\ Grader._current_proc (State.self s2) = Some process
    /\ m_check_result case (StandardGrader.populate_result E error result0 process) s2
       = (Return check, s3)
    /\ r = StandardGrader.merge E
             (StandardGrader.populate_result E error result0 process)
             (StandardGrader.normalize case check)
    /\ s' = State.record s3 EvFreeData.
Proof.
  unfold StandardGrader.grade. intros Hg.
  apply bind_Return_inv in Hg as ([] & s1 & H1 & Hg).
  apply bind_Return_inv in Hg as ([error result0] & s2 & H2 & Hg).
  cbn [fst snd] in Hg.
  apply bind_Return_inv in Hg as (g & s2' & Hself & Hg).
  injection Hself as <- <-.
  apply bind_Return_inv in Hg as (process & s2' & Hp & Hg).
  destruct (Grader._current_proc (State.self s2)) as [p|] eqn:Hproc;
    [|discriminate].
  injection Hp as <- <-.
  apply bind_Return_inv in Hg as (check & s3 & H4 & Hg).
  apply bind_Return_inv in Hg as ([] & s4 & Hemit & Hg).
  injection Hemit as <-. injection Hg as <- <-.
  exists s1, s2, s3, error, result0, p, check. repeat split; assumption.
Qed.
End Grade.

(** ** The checker gate of [StandardGrader.check_result] *)

Section CheckerGate.
Context (case : TestCase.t) (result : Result.t) (s : State.t).

Let checker := TestCase.checker case.
Let a := StandardGrader.checker_args (State.self s) case result.

Lemma check_result_skipped :
  Result.result_flag result <> 0 ->
  StandardGrader.getattr_run_on_error checker = false ->
  StandardGrader.check_result case result s = (Return (CBool false), s).
Proof.
  intros Hflag Hroe. unfold StandardGrader.check_result.
  unfold mbind, M_bind, bind, get_self. fold checker. rewrite Hroe.
  apply Z.eqb_neq in Hflag. rewrite Hflag. reflexivity.
Qed.

Lemma check_result_invoked :
  Result.result_flag result = 0
  \/ StandardGrader.getattr_run_on_error checker = true ->
  StandardGrader.check_result case result s
  = (match Checker.call checker a with
     | Return c => Return c
     | Raise e =>
         if StandardGrader.is_UnicodeDecodeError e
         then Return (CRich (CheckerResult.mk false 0 (Some "invalid unicode") None))
         else Raise e
     end,
     State.record s (EvChecker a)).
Proof.
  intros Hopen. unfold StandardGrader.check_result.
  unfold mbind, M_bind, bind, get_self. fold checker.
  assert ((Result.result_flag result =? 0)
          || StandardGrader.getattr_run_on_error checker = true) as ->.
  { destruct Hopen as [-> | ->]; [reflexivity | apply orb_true_r]. }
  unfold try_except, emit, lift. fold a.
  destruct (Checker.call checker a) as [c|e]; [reflexivity|].
  destruct (StandardGrader.is_UnicodeDecodeError e); reflexivity.
Qed.
End CheckerGate.



(** C8: when the checker is called and raises [UnicodeDecodeError],
    [check_result] returns the failing [CheckerResult] worth 0 points with
    feedback ["invalid unicode"]; and [grade], once the process has been
    launched and waited for, returns a result with that feedback, 0
    points and the [WA] flag, instead of raising. *)
Theorem checker_decode_failure_recovered (E : Env.t) (case : TestCase.t)
    (s s1 s2 : State.t) (error : bytes) (result0 : Result.t)
    (process : TracedPopen.t) :
  let result := StandardGrader.populate_result E error result0 process in
  let a := StandardGrader.checker_args (State.self s2) case result in
  let invalid := CheckerResult.mk false 0 (Some "invalid unicode") None in
  StandardGrader._launch_process E case (Some (TestCase.input_path case)) s
  = (Return tt, s1) ->
  StandardGrader._interact_with_process E case (Result_new case) s1
  = (Return (error, result0), s2) ->
  Grader._current_proc (State.self s2) = Some process ->
  Result.result_flag result = 0
  \/ StandardGrader.getattr_run_on_error (TestCase.checker case) = true ->
  Checker.call (TestCase.checker case) a = Raise UnicodeDecodeError ->
  StandardGrader.check_result case result s2
  = (Return (CRich invalid), State.record s2 (EvChecker a))
  /\ exists r,
       StandardGrader.grade E (H := StandardGrader.methods E) case s
       = (Return r, State.record (State.record s2 (EvChecker a)) EvFreeData)
       /\ Result.points r = 0%Q
       /\ Result.feedback r = Some "invalid unicode"
       /\ Result.result_flag r = Z.lor (Result.result_flag result) (Env.WA E).
Proof.
  intros result a invalid H1 H2 H3 Hopen Hraise.
  assert (Hcheck : StandardGrader.check_result case result s2
                   = (Return (CRich invalid), State.record s2 (EvChecker a))).
  { rewrite (check_result_invoked case result s2 Hopen).
    fold a. rewrite Hraise. reflexivity. }
  split; [exact Hcheck|].
  eexists. split.
  - apply (grade_run E (StandardGrader.methods E) case s s1 s2 _ error result0
             process (CRich invalid) H1 H2 H3 Hcheck).
  - repeat split.
Qed.

Lemma verdict_flag_spec (E : Env.t) (passed : bool) :
  StandardGrader.verdict_flag E passed = if passed then Env.AC E else Env.WA E.
Proof. destruct passed; reflexivity. Qed.

(** C1, amended: whichever grader runs, the points of the result [grade]
    returns are the points of the normalized checker judgment.  For a
    boolean judgment they are [case.points] on a pass and 0 on a fail,
    hence 0 whenever the judgment did not pass and, for a case worth a
    non-negative number of points, at most [case.points]; the points of a
    rich [CheckerResult] are copied as they are. *)
Theorem points_follow_checker_judgment (E : Env.t) (H : GraderMethods)
    (case : TestCase.t) (s s' : State.t) (r : Result.t) :
  StandardGrader.grade E case s = (Return r, s') ->
  exists result s2 check s3,
    m_check_result case result s2 = (Return check, s3)
    /\ Result.points r = CheckerResult.points (StandardGrader.normalize case check)
    /\ (forall b, check = CBool b ->
          (CheckerResult.passed (StandardGrader.normalize case check) = false ->
           Result.points r = 0%Q)
          /\ (b = true -> Result.points r = TestCase.points case)
          /\ ((0 <= TestCase.points case)%Q ->
              (Result.points r <= TestCase.points case)%Q))
    /\ (forall rich, check = CRich rich ->
          Result.points r = CheckerResult.points rich).
Proof.
  intros Hg.
  apply grade_inv in Hg
    as (s1 & s2 & s3 & error & result0 & process & check & _ & _ & _ & Hc & -> & _).
  exists (StandardGrader.populate_result E error result0 process), s2, check, s3.
  split; [exact Hc|]. split; [reflexivity|]. split.
  - intros b ->. cbn. destruct b; repeat split; intros; try discriminate;
      try reflexivity; try assumption.
    apply Qle_refl.
  - intros rich ->. reflexivity.
Qed.

Lemma points_follow_checker_judgment_witness :
  exists result s2 check s3,
    StandardGrader.check_result Scenario.case_true result s2 = (Return check, s3)
    /\ 100%Q = CheckerResult.points (StandardGrader.normalize Scenario.case_true check)
    /\ (forall b, check = CBool b ->
          (CheckerResult.passed (StandardGrader.normalize Scenario.case_true check)
           = false -> 100%Q = 0%Q)
          /\ (b = true -> 100%Q = TestCase.points Scenario.case_true)
          /\ ((0 <= TestCase.points Scenario.case_true)%Q ->
              (100 <= TestCase.points Scenario.case_true)%Q))
    /\ (forall rich, check = CRich rich -> 100%Q = CheckerResult.points rich).
Proof.
  apply (points_follow_checker_judgment Scenario.env
           (StandardGrader.methods Scenario.env) Scenario.case_true
           Scenario.standard_state
           (snd (StandardGrader.grade Scenario.env
                   (H := StandardGrader.methods Scenario.env)
                   Scenario.case_true Scenario.standard_state))
           (Result.mk 0 100 (Some "") (Some "") (repeat Byte.x61 5) (1 # 2))).
  vm_compute. reflexivity.
Defined.

(** C1, as stated, fails: a checker that returns a passing
    [CheckerResult] worth 200 points on a case worth 100 makes [grade]
    return a result worth 200 points. *)
Lemma rich_points_exceed_case_points :
  option_map Result.points
    (returned (StandardGrader.grade Scenario.env
                 (H := StandardGrader.methods Scenario.env)
                 Scenario.case_generous Scenario.standard_state))
  = Some 200%Q
  /\ TestCase.points Scenario.case_generous = 100%Q
  /\ ~ (200 <= 100)%Q.
Proof.
  split; [vm_compute; reflexivity|]. split; [reflexivity|].
  unfold Qle. cbn. lia.
Qed.

Lemma checker_decode_failure_recovered_witness :
  option_map Result.feedback
    (returned (StandardGrader.grade Scenario.env
                 (H := StandardGrader.methods Scenario.env)
                 Scenario.case_undecodable Scenario.standard_state))
  = Some (Some "invalid unicode").
Proof.
  pose proof
    (checker_decode_failure_recovered Scenario.env Scenario.case_undecodable
       Scenario.standard_state
       (snd (StandardGrader._launch_process Scenario.env Scenario.case_undecodable
               (Some (TestCase.input_path Scenario.case_undecodable))
               Scenario.standard_state))
       (snd (StandardGrader._interact_with_process Scenario.env Scenario.case_undecodable
               (Result_new Scenario.case_undecodable)
               (snd (StandardGrader._launch_process Scenario.env
                       Scenario.case_undecodable
                       (Some (TestCase.input_path Scenario.case_undecodable))
                       Scenario.standard_state))))
       []
       (Result.mk 0 0 (Some "") (Some "") (repeat Byte.x61 5) 0)
       (TracedPopen.mk Submission 4 (Behaviour.mk 3 (repeat Byte.x61 5) [] 0 (1 # 2))
          false false)) as Hthm.
  cbv zeta in Hthm.
  destruct Hthm as (_ & r & Hgrade & _ & Hfeedback & _).
  - vm_compute. reflexivity.
  - vm_compute. reflexivity.
  - vm_compute. reflexivity.
  - left. vm_compute. reflexivity.
  - vm_compute. reflexivity.
  - rewrite Hgrade. unfold returned. cbn [fst option_map].
    rewrite Hfeedback. reflexivity.
Defined.

(** ** The verdict flag *)

Section BridgedCheck.
Context (E : Env.t) (case : TestCase.t) (result : Result.t).

(** The interactive [check_result] returns the adapter's judgment when
    the submission has not failed, and [False] otherwise. *)
Lemma bridged_check_result_inv s check s' :
  BridgedInteractiveGrader.check_result E case result s = (Return check, s') ->
  exists cm a parsed,
    Env.contrib_modules E !! Grader.contrib_type (State.self s) = Some cm
    /\ ContribModule.parse_return_code cm a = Return parsed
    /\ s' = State.record s (EvParseReturnCode a)
    /\ check = (if Result.result_flag result =? 0 then parsed else CBool false)
    /\ Grader._interactor (State.self s) = Some (ParseArgs.proc a).
Proof.
  unfold BridgedInteractiveGrader.check_result. intros Hc.
  apply bind_Return_inv in Hc as (g & s0 & Hself & Hc).
  injection Hself as <- <-.
  apply bind_Return_inv in Hc as (interactor & s0 & Hi & Hc).
  destruct (Grader._interactor (State.self s)) as [p|] eqn:Hinter;
    [|discriminate].
  injection Hi as <- <-.
  apply bind_Return_inv in Hc as (cm & s0 & Hcm & Hc).
  unfold BridgedInteractiveGrader.contrib_module in Hcm.
  destruct (Env.contrib_modules E !! Grader.contrib_type (State.self s))
    as [cm'|] eqn:Hlookup; [|discriminate].
  injection Hcm as <- <-.
  apply bind_Return_inv in Hc as (ib & s0 & Hib & Hc).
  destruct (Grader.interactor_binary (State.self s)); [|discriminate].
  injection Hib as <- <-.
  apply bind_Return_inv in Hc as ([] & s0 & Hemit & Hc).
  injection Hemit as <-.
  apply bind_Return_inv in Hc as (parsed & s0 & Hparse & Hc).
  unfold lift in Hparse. injection Hparse as Hparse <-.
  injection Hc as <- <-.
  eexists. eexists. exists parsed.
  split; [reflexivity|]. split; [exact Hparse|]. repeat split.
Qed.
End BridgedCheck.

(** C3, amended: the flag [grade] ORs into [result_flag] is [AC] when the
    normalized checker judgment passed and [WA] otherwise, whatever flags
    the submission already carries.  The judgment can pass only if the
    submission did not already fail in two cases: for the standard grader
    when the checker does not declare [run_on_error], and for the
    interactive grader always, where it passes exactly when the submission
    did not fail and the adapter's judgment passed.  A boolean [True]
    normalizes to a pass worth [case.points], [False] to a fail worth
    0. *)
Theorem verdict_flag_follows_judgment (E : Env.t) (case : TestCase.t) :
  (forall (H : GraderMethods) s s' r,
      StandardGrader.grade E case s = (Return r, s') ->
      exists result s2 check s3,
        m_check_result case result s2 = (Return check, s3)
        /\ Result.result_flag r
           = Z.lor (Result.result_flag result)
               (if CheckerResult.passed (StandardGrader.normalize case check)
                then Env.AC E else Env.WA E))
  /\ (forall result s2 check s3,
        StandardGrader.check_result case result s2 = (Return check, s3) ->
        StandardGrader.getattr_run_on_error (TestCase.checker case) = false ->
        CheckerResult.passed (StandardGrader.normalize case check) = true ->
        Result.result_flag result = 0)
  /\ (forall result s2 check s3,
        BridgedInteractiveGrader.check_result E case result s2 = (Return check, s3) ->
        exists cm a parsed,
          Env.contrib_modules E !! Grader.contrib_type (State.self s2) = Some cm
          /\ ContribModule.parse_return_code cm a = Return parsed
          /\ (CheckerResult.passed (StandardGrader.normalize case check) = true
              <-> Result.result_flag result = 0
                  /\ CheckerResult.passed (StandardGrader.normalize case parsed) = true))
  /\ StandardGrader.normalize case (CBool true)
     = CheckerResult.mk true (TestCase.points case) None None
  /\ StandardGrader.normalize case (CBool false)
     = CheckerResult.mk false 0 None None.
Proof.
  split; [|split; [|split; [|split; reflexivity]]].
  - intros H s s' r Hg.
    apply grade_inv in Hg
      as (s1 & s2 & s3 & error & result0 & process & check & _ & _ & _ & Hc & -> & _).
    exists (StandardGrader.populate_result E error result0 process), s2, check, s3.
    split; [exact Hc|].
    unfold StandardGrader.merge. cbn [Result.result_flag].
    now rewrite verdict_flag_spec.
  - intros result s2 check s3 Hc Hroe Hpassed.
    destruct (Z.eq_dec (Result.result_flag result) 0) as [Hz|Hnz]; [exact Hz|].
    rewrite (check_result_skipped case result s2 Hnz Hroe) in Hc.
    injection Hc as <- _. discriminate.
  - intros result s2 check s3 Hc.
    apply bridged_check_result_inv in Hc
      as (cm & a & parsed & Hcm & Hp & _ & -> & _).
    exists cm, a, parsed. split; [exact Hcm|]. split; [exact Hp|].
    destruct (Z.eqb_spec (Result.result_flag result) 0) as [Hz|Hnz].
    + tauto.
    + cbn. split; [discriminate|tauto].
Qed.

(** C3, as stated, fails: on a submission that already failed (flag 4,
    time limit) a checker declaring [run_on_error] may pass; the
    normalized judgment then passes and the flag [grade] ORs in is [AC],
    not [WA]. *)
Lemma run_on_error_pass_after_failure :
  Result.result_flag Scenario.failed_result = 4
  /\ returned (StandardGrader.check_result Scenario.case_run_on_error
                 Scenario.failed_result Scenario.standard_state)
     = Some (CBool true)
  /\ StandardGrader.verdict_flag Scenario.env_tle
       (CheckerResult.passed
          (StandardGrader.normalize Scenario.case_run_on_error (CBool true)))
     = Env.AC Scenario.env_tle
  /\ Env.AC Scenario.env_tle <> Env.WA Scenario.env_tle
  /\ returned (StandardGrader.grade Scenario.env_tle
                 (H := StandardGrader.methods Scenario.env_tle)
                 Scenario.case_run_on_error Scenario.standard_state)
     = Some (Result.mk 4 100 (Some "") (Some "") [] 2).
Proof.
  repeat split; try (vm_compute; reflexivity). discriminate.
Qed.

(** ** Capturing the output of the submission *)

Ltac unfold_monad :=
  unfold mbind, M_bind, bind, get_self, modify_self, modify, emit, lift, mret,
    M_ret, ret, raise, get_clock, attr_of, assert_some, try_except,
    try_finally in *.

Ltac destruct_launch Hl :=
  match goal with
  | |- context [Env.launch ?env ?x ?y] =>
      let beh := fresh "beh" in
      destruct (Env.launch env x y) as [beh|?] eqn:Hl
  end.

Section Capture.
Context (E : Env.t) (case : TestCase.t).

Let limit := CaseConfig.output_limit_length (TestCase.config case).

(** What [StandardGrader._launch_process] leaves behind when the
    sandbox starts the process. *)
Lemma std_launch_process_post f s s1 :
  StandardGrader._launch_process E case f s = (Return tt, s1) ->
  exists beh a,
    Grader._current_proc (State.self s1)
    = Some (TracedPopen.mk Submission (S (State.clock s) + Behaviour.lifetime beh)
              beh false false)
    /\ Grader.memfd_output (State.self s1) = Grader.memfd_output (State.self s)
    /\ (Grader.memfd_output (State.self s) = true ->
        Grader._stdout_io (State.self s1)
        = Some (MemoryIO.mk (Behaviour.writes_stdout beh) false)
        /\ Grader._stderr_io (State.self s1)
           = Some (MemoryIO.mk (Behaviour.writes_stderr beh) false))
    /\ State.trace s1
       = (State.trace s ++ [(State.clock s, EvLaunch Submission a)])%list.
Proof.
  destruct s as [clk fds nfd tmp ntmp tr g].
  unfold StandardGrader._launch_process, launch. unfold_monad. cbn.
  destruct (Grader.memfd_output g) eqn:Hm; cbn; rewrite ?Hm;
    destruct_launch Hl; cbn; intros Hs; try discriminate;
    injection Hs as <-; cbn; rewrite ?Hm;
    exists beh; eexists; repeat split; try reflexivity; discriminate.
Qed.

(** The memory-backed path: wait, read, then mark the breach. *)
Lemma std_interact_memfd result s p out_io err_io :
  Grader.memfd_output (State.self s) = true ->
  Grader._current_proc (State.self s) = Some p ->
  Grader._stdout_io (State.self s) = Some out_io ->
  Grader._stderr_io (State.self s) = Some err_io ->
  let over := limit <? Z.of_nat (length (MemoryIO.content out_io)) in
  exists s',
    StandardGrader._interact_with_process E case result s
    = (Return (MemoryIO.content err_io,
               Result.set_proc_output result (MemoryIO.content out_io)), s')
    /\ Grader._current_proc (State.self s')
       = Some (if over then TracedPopen.set_is_ole p true else p)
    /\ actions (State.trace s')
       = (actions (State.trace s)
          ++ EvWait Submission :: (if over then [EvMarkOle Submission] else []))%list.
Proof.
  intros Hm Hp Hout Herr over.
  destruct s as [clk fds nfd tmp ntmp tr g]. cbn [State.self State.trace] in *.
  unfold StandardGrader._interact_with_process, proc_wait, proc_mark_ole.
  unfold_monad. cbn. rewrite Hp, Hm. cbn. rewrite Hp. cbn.
  rewrite Hout. cbn. fold limit. fold over.
  destruct over; cbn; rewrite ?Hp; cbn; rewrite ?Herr; cbn;
    eexists; (split; [reflexivity|]); cbn; rewrite ?Hp; (split; [reflexivity|]);
    unfold actions; rewrite !map_app; cbn; rewrite <- ?app_assoc; reflexivity.
Qed.

(** The pipe-based path: a bounded read, a kill when it is crossed, and
    a wait in both cases. *)
Lemma std_interact_pipe result s p :
  Grader.memfd_output (State.self s) = false ->
  Grader._current_proc (State.self s) = Some p ->
  let out := Behaviour.writes_stdout (TracedPopen.behaviour p) in
  let err := Behaviour.writes_stderr (TracedPopen.behaviour p) in
  let over := (limit <? Z.of_nat (length out))
              || (1048576 <? Z.of_nat (length err)) in
  exists s' p',
    StandardGrader._interact_with_process E case result s
    = (Return (if over then ([], result)
               else (err, Result.set_proc_output result out)), s')
    /\ Grader._current_proc (State.self s') = Some p'
    /\ TracedPopen.behaviour p' = TracedPopen.behaviour p
    /\ TracedPopen.is_ole p'
       = (if over
          then TracedPopen.is_ole p
               || (limit <? Z.of_nat (length out))
               || Env.stderr_breach_marks_ole E
          else TracedPopen.is_ole p)
    /\ actions (State.trace s')
       = (actions (State.trace s)
          ++ EvCommunicate Submission limit 1048576
             :: (if over then [EvKill Submission; EvWait Submission]
                 else [EvWait Submission]))%list.
Proof.
  intros Hm Hp out err over.
  destruct s as [clk fds nfd tmp ntmp tr g]. cbn [State.self State.trace] in *.
  unfold StandardGrader._interact_with_process, proc_wait, proc_kill,
    proc_communicate.
  unfold_monad. cbn. rewrite Hp, Hm. cbn. rewrite Hp. cbn.
  fold limit. fold out. fold err. fold over.
  destruct over; cbn; rewrite ?Hp; cbn.
  - do 2 eexists. split; [reflexivity|]. cbn. split; [reflexivity|]. cbn.
    repeat split.
    unfold actions; rewrite !map_app; cbn; rewrite <- ?app_assoc; reflexivity.
  - do 2 eexists. split; [reflexivity|]. cbn. split; [exact Hp|].
    repeat split.
    unfold actions; rewrite !map_app; cbn; rewrite <- ?app_assoc; reflexivity.
Qed.
End Capture.

Lemma flag_set_lor_r (word flag : Z) : flag_set flag (Z.lor word flag).
Proof.
  unfold flag_set. apply Z.bits_inj'. intros n _.
  rewrite Z.land_spec, Z.lor_spec.
  destruct (Z.testbit word n), (Z.testbit flag n); reflexivity.
Qed.

Lemma flag_set_lor_l (word other flag : Z) :
  flag_set flag word -> flag_set flag (Z.lor word other).
Proof.
  unfold flag_set. intros Hset. apply Z.bits_inj'. intros n _.
  assert (Hn : Z.testbit (Z.land word flag) n = Z.testbit flag n) by now rewrite Hset.
  rewrite Z.land_spec in Hn. rewrite Z.land_spec, Z.lor_spec.
  destruct (Z.testbit word n), (Z.testbit flag n), (Z.testbit other n);
    try reflexivity; discriminate.
Qed.

Lemma flag_set_lor_mid (word other flag : Z) :
  flag_set flag other -> flag_set flag (Z.lor word other).
Proof.
  unfold flag_set. intros Hset. apply Z.bits_inj'. intros n _.
  assert (Hn : Z.testbit (Z.land other flag) n = Z.testbit flag n) by now rewrite Hset.
  rewrite Z.land_spec in Hn. rewrite Z.land_spec, Z.lor_spec.
  destruct (Z.testbit word n), (Z.testbit flag n), (Z.testbit other n);
    try reflexivity; discriminate.
Qed.

Section OutputLimit.
Context (E : Env.t) (case : TestCase.t).

Let limit := CaseConfig.output_limit_length (TestCase.config case).

(** The standard [grade], cut at its steps: the captured output, the
    mark on the process and the actions performed. *)
Lemma std_grade_capture s r s' :
  StandardGrader.grade E (H := StandardGrader.methods E) case s = (Return r, s') ->
  exists beh a p' result0 error check acts,
    let out := Behaviour.writes_stdout beh in
    let err := Behaviour.writes_stderr beh in
    r = StandardGrader.merge E
          (StandardGrader.populate_result E error result0 p')
          (StandardGrader.normalize case check)
    /\ TracedPopen.behaviour p' = beh
    /\ (if Grader.memfd_output (State.self s)
        then Result.proc_output result0 = out
             /\ TracedPopen.is_ole p' = (limit <? Z.of_nat (length out))
        else Result.proc_output result0
             = (if (limit <? Z.of_nat (length out))
                   || (1048576 <? Z.of_nat (length err))
                then [] else out)
             /\ ((limit <? Z.of_nat (length out)) = true ->
                 TracedPopen.is_ole p' = true))
    /\ actions (State.trace s')
       = (actions (State.trace s) ++ EvLaunch Submission a :: acts)%list
    /\ (forall ca, In (EvChecker ca) acts ->
                   CheckerArgs.process_output ca = Result.proc_output r)
    /\ Grader._current_proc (State.self s') = Some p'.
Proof.
  intros Hg.
  apply grade_inv in Hg
    as (s1 & s2 & s3 & error & result0 & process & check
        & H1 & H2 & H3 & Hc & -> & ->).
  cbn [m_launch_process m_interact_with_process m_check_result
         StandardGrader.methods] in *.
  apply std_launch_process_post in H1 as (beh & a & Hp & Hm & Hio & Htr1).
  set (result := StandardGrader.populate_result E error result0 process) in *.
  assert (Hcheck : exists cacts,
             actions (State.trace s3) = (actions (State.trace s2) ++ cacts)%list
             /\ State.self s3 = State.self s2
             /\ forall ca, In (EvChecker ca) cacts ->
                           CheckerArgs.process_output ca = Result.proc_output result).
  { destruct (Z.eq_dec (Result.result_flag result) 0) as [Hz|Hnz];
      [|destruct (StandardGrader.getattr_run_on_error (TestCase.checker case))
          eqn:Hroe].
    - rewrite (check_result_invoked case result s2 (or_introl Hz)) in Hc.
      injection Hc as _ <-. eexists. split; [|split; [reflexivity|]].
      + unfold actions. cbn. rewrite map_app. reflexivity.
      + cbn. intros ca [[= <-]|[]]. reflexivity.
    - rewrite (check_result_invoked case result s2 (or_intror Hroe)) in Hc.
      injection Hc as _ <-. eexists. split; [|split; [reflexivity|]].
      + unfold actions. cbn. rewrite map_app. reflexivity.
      + cbn. intros ca [[= <-]|[]]. reflexivity.
    - rewrite (check_result_skipped case result s2 Hnz Hroe) in Hc.
      injection Hc as _ <-. exists []. split; [|split; [reflexivity|]].
      + now rewrite app_nil_r.
      + intros ca []. }
  destruct Hcheck as (cacts & Htr3 & Hself3 & Hchecker).
  assert (Hproc' : Grader._current_proc (State.self (State.record s3 EvFreeData))
                   = Some process).
  { cbn. rewrite Hself3. exact H3. }
  assert (Hfinal : forall iacts,
             actions (State.trace s2) = (actions (State.trace s1) ++ iacts)%list ->
             actions (State.trace (State.record s3 EvFreeData))
             = (actions (State.trace s)
                ++ EvLaunch Submission a :: (iacts ++ cacts ++ [EvFreeData]))%list).
  { intros iacts Htr2. unfold actions in *. cbn. rewrite map_app. cbn.
    rewrite Htr3, Htr2, Htr1, map_app. cbn.
    rewrite <- !app_assoc. reflexivity. }
  destruct (Grader.memfd_output (State.self s)) eqn:Hmemfd.
  - destruct (Hio eq_refl) as [Hout Herr].
    destruct (std_interact_memfd E case (Result_new case) s1 _ _ _ Hm Hp Hout Herr)
      as (s2' & H2' & Hp' & Htr2).
    rewrite H2 in H2'. cbn [MemoryIO.content] in H2'.
    injection H2' as -> -> ->.
    rewrite H3 in Hp'. injection Hp' as ->.
    exists beh, a. eexists. eexists. exists (Behaviour.writes_stderr beh), check.
    eexists. cbn zeta. split; [reflexivity|]. cbn [MemoryIO.content] in *.
    split; [|split; [|split; [apply (Hfinal _ Htr2)|split; [|exact Hproc']]]].
    + fold limit. now destruct (limit <? _).
    + split; [reflexivity|]. fold limit. now destruct (limit <? _).
    + intros ca Hin. rewrite !in_app_iff in Hin.
      destruct Hin as [Hin|[Hin|Hin]].
      * fold limit in Hin. destruct (limit <? _); cbn in Hin;
          intuition discriminate.
      * apply Hchecker in Hin. rewrite Hin. reflexivity.
      * cbn in Hin. intuition discriminate.
  - destruct (std_interact_pipe E case (Result_new case) s1 _ Hm Hp)
      as (s2' & p' & H2' & Hp' & Hbeh & Hole & Htr2).
    rewrite H2 in H2'. cbn [TracedPopen.behaviour] in *.
    fold limit in H2', Htr2, Hole.
    exists beh, a, p'.
    destruct ((limit <? Z.of_nat (length (Behaviour.writes_stdout beh)))
              || (1048576 <? Z.of_nat (length (Behaviour.writes_stderr beh))))
      eqn:Hover;
      injection H2' as -> -> ->; rewrite H3 in Hp'; injection Hp' as ->;
      eexists; eexists; exists check; eexists; cbn zeta;
      (split; [reflexivity|]); (split; [exact Hbeh|]);
      (split;
       [split;
        [reflexivity
        |intros Hlt; rewrite Hole; rewrite Hlt in *;
         rewrite ?orb_true_r; cbn in *; congruence]|]);
      (split; [apply (Hfinal _ Htr2)|]);
      (split; [|exact Hproc']);
      intros ca Hin; cbn in Hin; rewrite ?in_app_iff in Hin; cbn in Hin;
      repeat (destruct Hin as [Hin|Hin]; try discriminate; try contradiction);
      apply Hchecker in Hin; rewrite Hin; reflexivity.
Qed.
End OutputLimit.

(** C7: once the submission is launched, capturing its output never
    raises.  On the memory-backed path the grader waits, reads the
    output and only then, if it is longer than [output_limit_length],
    marks the breach on the process; on the pipe-based path it reads
    through [communicate] bounded by [output_limit_length] and by 1 MiB
    for the standard error, and when a bound is crossed it kills the
    process, waits for it and keeps the output it had.  On both paths,
    whenever the submission wrote more than the limit, the [OLE] flag is
    set in the result [grade] returns; the same holds whenever the
    output held by that result is longer than the limit; and a checker
    that is called receives exactly the captured output. *)
Theorem output_limit_breach_flagged (E : Env.t) (case : TestCase.t) :
  let limit := CaseConfig.output_limit_length (TestCase.config case) in
  (forall f s s1 result,
      StandardGrader._launch_process E case f s = (Return tt, s1) ->
      exists p captured s2 acts,
        Grader._current_proc (State.self s1) = Some p
        /\ StandardGrader._interact_with_process E case result s1
           = (Return captured, s2)
        /\ actions (State.trace s2) = (actions (State.trace s1) ++ acts)%list
        /\ let out := Behaviour.writes_stdout (TracedPopen.behaviour p) in
           let err := Behaviour.writes_stderr (TracedPopen.behaviour p) in
           let over := (limit <? Z.of_nat (length out))
                       || (1048576 <? Z.of_nat (length err)) in
           if Grader.memfd_output (State.self s)
           then Result.proc_output (snd captured) = out
                /\ acts = EvWait Submission
                          :: (if limit <? Z.of_nat (length out)
                              then [EvMarkOle Submission] else [])
           else Result.proc_output (snd captured)
                = (if over then Result.proc_output result else out)
                /\ acts = EvCommunicate Submission limit 1048576
                          :: (if over then [EvKill Submission; EvWait Submission]
                              else [EvWait Submission]))
  /\ (forall s r s',
        StandardGrader.grade E (H := StandardGrader.methods E) case s = (Return r, s') ->
        exists p,
          Grader._current_proc (State.self s') = Some p
          /\ let out := Behaviour.writes_stdout (TracedPopen.behaviour p) in
             let err := Behaviour.writes_stderr (TracedPopen.behaviour p) in
             (limit < Z.of_nat (length out) ->
              flag_set (Env.OLE E) (Result.result_flag r))
             /\ Result.proc_output r
                = (if Grader.memfd_output (State.self s) then out
                   else if (limit <? Z.of_nat (length out))
                           || (1048576 <? Z.of_nat (length err))
                        then [] else out))
  /\ (forall s r s',
        0 <= limit ->
        StandardGrader.grade E (H := StandardGrader.methods E) case s = (Return r, s') ->
        limit < Z.of_nat (length (Result.proc_output r)) ->
        flag_set (Env.OLE E) (Result.result_flag r))
  /\ (forall s r s',
        StandardGrader.grade E (H := StandardGrader.methods E) case s = (Return r, s') ->
        exists acts,
          actions (State.trace s') = (actions (State.trace s) ++ acts)%list
          /\ forall ca, In (EvChecker ca) acts ->
                        CheckerArgs.process_output ca = Result.proc_output r).
Proof.
  intros limit.
  assert (Hbreach : forall r p' result0 error check,
            r = StandardGrader.merge E
                  (StandardGrader.populate_result E error result0 p')
                  (StandardGrader.normalize case check) ->
            TracedPopen.is_ole p' = true ->
            flag_set (Env.OLE E) (Result.result_flag r)).
  { intros r p' result0 error check -> Hole.
    cbn [StandardGrader.merge Result.result_flag].
    apply flag_set_lor_l.
    unfold StandardGrader.populate_result, Executor_populate_result.
    cbn [Result.result_flag Result.set_result_flag].
    apply flag_set_lor_mid. rewrite Hole. apply flag_set_lor_r. }
  split; [|split; [|split]].
  - intros f s s1 result H1.
    apply std_launch_process_post in H1 as (beh & a & Hp & Hm & Hio & _).
    destruct (Grader.memfd_output (State.self s)) eqn:Hmemfd.
    + destruct (Hio eq_refl) as [Hout Herr].
      destruct (std_interact_memfd E case result s1 _ _ _ Hm Hp Hout Herr)
        as (s2 & H2 & _ & Htr).
      eexists. eexists. exists s2. eexists.
      split; [exact Hp|]. split; [exact H2|]. split; [exact Htr|].
      cbn. split; reflexivity.
    + destruct (std_interact_pipe E case result s1 _ Hm Hp)
        as (s2 & p' & H2 & _ & _ & _ & Htr).
      eexists. eexists. exists s2. eexists.
      split; [exact Hp|]. split; [exact H2|]. split; [exact Htr|].
      cbn. fold limit.
      destruct ((limit <? _) || _); split; reflexivity.
  - intros s r s' Hg.
    apply std_grade_capture in Hg
      as (beh & a & p' & result0 & error & check & acts & Hr & Hbeh & Hcap & _
          & _ & Hproc).
    exists p'. split; [exact Hproc|]. rewrite Hbeh. cbn zeta.
    fold limit in Hcap. split.
    + intros Hlong. apply Z.ltb_lt in Hlong.
      apply (Hbreach r p' result0 error check Hr).
      destruct (Grader.memfd_output (State.self s)).
      * destruct Hcap as [_ Hole]. now rewrite Hole.
      * destruct Hcap as [_ Hole]. now apply Hole.
    + rewrite Hr. cbn [StandardGrader.merge Result.proc_output].
      unfold StandardGrader.populate_result, Executor_populate_result.
      cbn [Result.proc_output Result.set_result_flag Result.set_execution_time].
      destruct (Grader.memfd_output (State.self s)); now destruct Hcap.
  - intros s r s' Hlimit Hg Hlong.
    apply std_grade_capture in Hg
      as (beh & a & p' & result0 & error & check & acts & Hr & Hbeh & Hcap & _).
    apply (Hbreach r p' result0 error check Hr).
    rewrite Hr in Hlong. cbn in Hlong.
    fold limit in Hcap.
    destruct (Grader.memfd_output (State.self s)).
    + destruct Hcap as [Hout Hole]. rewrite Hout in Hlong.
      apply Z.ltb_lt in Hlong. now rewrite Hole.
    + destruct Hcap as [Hout Hole]. rewrite Hout in Hlong.
      destruct (limit <? Z.of_nat (length (Behaviour.writes_stdout beh))) eqn:Hlt;
        [now apply Hole|].
      cbn in Hlong. destruct (1048576 <? _); cbn in Hlong; [lia|].
      apply Z.ltb_ge in Hlt. lia.
  - intros s r s' Hg.
    apply std_grade_capture in Hg
      as (beh & a & p' & result0 & error & check & acts & _ & _ & _ & Htr
          & Hchecker & _).
    eexists. split; [exact Htr|].
    intros ca [Hin|Hin]; [discriminate|]. now apply Hchecker.
Qed.

Lemma output_limit_breach_flagged_witness :
  flag_set (Env.OLE Scenario.env)
    (Result.result_flag
       (Result.mk 64 100 (Some "") (Some "") (repeat Byte.x61 5) (1 # 2)))
  /\ flag_set (Env.OLE Scenario.env)
       (Result.result_flag (Result.mk 64 100 (Some "") (Some "") [] (1 # 2))).
Proof.
  destruct (output_limit_breach_flagged Scenario.env Scenario.case_small_limit)
    as (_ & Hwritten & Hheld & _).
  split.
  - apply (Hheld Scenario.standard_state _
             (snd (StandardGrader.grade Scenario.env
                     (H := StandardGrader.methods Scenario.env)
                     Scenario.case_small_limit Scenario.standard_state))).
    + vm_compute. discriminate.
    + vm_compute. reflexivity.
    + vm_compute. reflexivity.
  - destruct (Hwritten Scenario.pipe_state
                (Result.mk 64 100 (Some "") (Some "") [] (1 # 2))
                (snd (StandardGrader.grade Scenario.env
                        (H := StandardGrader.methods Scenario.env)
                        Scenario.case_small_limit Scenario.pipe_state)))
      as (p & Hp & Hflag & _).
    + vm_compute. reflexivity.
    + apply Hflag. vm_compute in Hp. injection Hp as <-.
      vm_compute. reflexivity.
Defined.

(** On the pipe-based path with a limit of 3 bytes and a submission that
    writes 5, the bounded read is followed by a kill and a wait. *)
Example pipe_path_kills_on_breach :
  firstn 3
    (skipn 1
       (actions
          (State.trace
             (snd (StandardGrader.grade Scenario.env
                     (H := StandardGrader.methods Scenario.env)
                     Scenario.case_small_limit Scenario.pipe_state)))))
  = [EvCommunicate Submission 3 1048576; EvKill Submission; EvWait Submission].
Proof. vm_compute. reflexivity. Qed.

(** ** The primitives, one step at a time *)

Section PrimitiveSteps.
Context (E : Env.t).

Lemma os_pipe_inv s o s' :
  os_pipe s = (o, s') ->
  o = Return (State.next_fd s, S (State.next_fd s))
  /\ s' = State.record
            (State.set_fds s
               ({[State.next_fd s; S (State.next_fd s)]} ∪ State.open_fds s)
               (S (S (State.next_fd s))))
            (EvPipe (State.next_fd s) (S (State.next_fd s))).
Proof. unfold os_pipe. intros [= <- <-]. split; reflexivity. Qed.

Lemma os_close_Return_inv n s u s' :
  os_close n s = (Return u, s') ->
  n ∈ State.open_fds s
  /\ s' = State.record
            (State.set_fds s (State.open_fds s ∖ {[n]}) (State.next_fd s))
            (EvClose n).
Proof.
  destruct u. unfold os_close.
  destruct (decide (n ∈ State.open_fds s)) as [Hin|Hout].
  - intros [= <-]. split; [exact Hin|reflexivity].
  - discriminate.
Qed.

Lemma modify_self_inv f s o s' :
  modify_self f s = (o, s') ->
  o = Return tt /\ s' = State.set_self s (f (State.self s)).
Proof. unfold modify_self, modify. intros [= <- <-]. split; reflexivity. Qed.

Lemma get_self_inv s o s' :
  get_self s = (o, s') -> o = Return (State.self s) /\ s' = s.
Proof. unfold get_self. intros [= <- <-]. split; reflexivity. Qed.

Lemma emit_inv e s o s' :
  emit e s = (o, s') -> o = Return tt /\ s' = State.record s e.
Proof. unfold emit. intros [= <- <-]. split; reflexivity. Qed.

Lemma attr_of_Return_inv {A} name (x : option A) s a s' :
  attr_of name x s = (Return a, s') -> x = Some a /\ s' = s.
Proof.
  destruct x; cbn; unfold ret, raise; intros [= <- <-]. split; reflexivity.
Qed.

Lemma assert_some_Return_inv {A} (x : option A) s a s' :
  assert_some x s = (Return a, s') -> x = Some a /\ s' = s.
Proof.
  destruct x; cbn; unfold ret, raise; intros [= <- <-]. split; reflexivity.
Qed.

Lemma lift_inv {A} (x : Outcome A) s o s' :
  lift x s = (o, s') -> o = x /\ s' = s.
Proof. unfold lift. intros [= <- <-]. split; reflexivity. Qed.

Lemma ret_inv {A} (a : A) s o s' :
  ret a s = (o, s') -> o = Return a /\ s' = s.
Proof. unfold ret. intros [= <- <-]. split; reflexivity. Qed.

Lemma launch_Return_inv who exe a s p s' :
  launch E who exe a s = (Return p, s') ->
  exists beh,
    Env.launch E exe a = Return beh
    /\ s' = State.record s (EvLaunch who a)
    /\ p = TracedPopen.mk who (S (State.clock s) + Behaviour.lifetime beh)
             beh false false.
Proof.
  unfold launch. intros H.
  apply bind_Return_inv in H as ([] & s1 & H1 & H).
  apply emit_inv in H1 as [_ ->].
  apply bind_Return_inv in H as (beh & s2 & H2 & H).
  apply lift_inv in H2 as [H2 ->].
  apply bind_Return_inv in H as (now & s3 & H3 & H).
  unfold get_clock in H3. injection H3 as <- <-.
  apply ret_inv in H as [[= ->] <-].
  exists beh. repeat split. now symmetry.
Qed.

Lemma proc_wait_Return_inv who s u s' :
  proc_wait who s = (Return u, s') ->
  exists p,
    Grader.proc_of (State.self s) who = Some p
    /\ s' = State.record
              (State.set_clock s (Nat.max (State.clock s) (TracedPopen.death p)))
              (EvWait who).
Proof.
  unfold proc_wait. intros H.
  apply bind_Return_inv in H as (g & s1 & H1 & H).
  apply get_self_inv in H1 as [[= <-] ->].
  apply bind_Return_inv in H as (p & s1 & H1 & H).
  apply attr_of_Return_inv in H1 as [Hp ->].
  apply bind_Return_inv in H as ([] & s1 & H1 & H).
  unfold modify in H1. injection H1 as <-.
  apply emit_inv in H as [_ ->].
  exists p. split; [exact Hp|reflexivity].
Qed.
End PrimitiveSteps.

(** ** The interactive grader on its success path *)

(** A state is its seven fields. *)
Lemma State_fields s c o n t nt tr g :
  State.clock s = c -> State.open_fds s = o -> State.next_fd s = n ->
  State.tmp_files s = t -> State.next_tmp s = nt -> State.trace s = tr ->
  State.self s = g ->
  s = State.mk c o n t nt tr g.
Proof. destruct s. cbn. now intros -> -> -> -> -> -> ->. Qed.

Section BridgedSuccess.
Context (E : Env.t) (case : TestCase.t).

(** [_launch_process] returns only after it has created both pipes,
    started the submission and closed the two ends it handed over. *)
Lemma bridged_launch_Return_inv f s u s1 :
  BridgedInteractiveGrader._launch_process E case f s = (Return u, s1) ->
  let n := State.next_fd s in
  let c := State.clock s in
  exists a beh,
    Env.launch E (Grader.binary (State.self s)) a = Return beh
    /\ LaunchArgs.stdin a = Fd (S (S n))
    /\ LaunchArgs.stdout a = Fd (S n)
    /\ s1 = State.mk (5 + c)
              (({[S (S n); S (S (S n))]} ∪ ({[n; S n]} ∪ State.open_fds s))
                 ∖ {[S (S n)]} ∖ {[S n]})
              (S (S (S (S n))))
              (State.tmp_files s) (State.next_tmp s)
              (State.trace s
               ++ [(c, EvPipe n (S n));
                   (1 + c, EvPipe (S (S n)) (S (S (S n))));
                   (2 + c, EvLaunch Submission a);
                   (3 + c, EvClose (S (S n)));
                   (4 + c, EvClose (S n))])%nat%list
              (Grader.set_current_proc
                 (Grader.set_interactor_stdout_pipe
                    (Grader.set_interactor_stdin_pipe (State.self s) (Some n))
                    (Some (S (S (S n)))))
                 (Some (TracedPopen.mk Submission
                          (3 + c + Behaviour.lifetime beh) beh false false))).
Proof.
  intros H n c. unfold BridgedInteractiveGrader._launch_process in H.
  apply bind_Return_inv in H as (p1 & sa & H1 & H).
  apply os_pipe_inv in H1 as [[= ->] ->].
  apply bind_Return_inv in H as ([] & sb & H1 & H).
  apply modify_self_inv in H1 as [_ ->].
  apply bind_Return_inv in H as (p2 & sc & H1 & H).
  apply os_pipe_inv in H1 as [[= ->] ->].
  apply bind_Return_inv in H as ([] & sd & H1 & H).
  apply modify_self_inv in H1 as [_ ->].
  apply bind_Return_inv in H as (g & se & H1 & H).
  apply get_self_inv in H1 as [[= ->] ->].
  apply bind_Return_inv in H as (p & sf & H1 & H).
  apply launch_Return_inv in H1 as (beh & Hl & -> & ->).
  apply bind_Return_inv in H as ([] & sg & H1 & H).
  apply modify_self_inv in H1 as [_ ->].
  apply bind_Return_inv in H as ([] & sh & H1 & H).
  apply os_close_Return_inv in H1 as [_ ->].
  apply os_close_Return_inv in H as [_ ->].
  cbn in Hl. eexists. exists beh.
  split; [exact Hl|]. split; [reflexivity|]. split; [reflexivity|].
  subst n c. apply State_fields; cbn; try reflexivity.
  rewrite <- !app_assoc. reflexivity.
Qed.

(** [_interact_with_process] returns only after it has created the
    answer file, started the interactor, closed the two remaining pipe
    ends, waited for both processes and deleted the answer file. *)
Lemma bridged_interact_Return_inv result s captured s2 :
  BridgedInteractiveGrader._interact_with_process E case result s
  = (Return captured, s2) ->
  let t := State.next_tmp s in
  let c := State.clock s in
  exists sub r1 w2 ib a beh tl ml,
    Grader._current_proc (State.self s) = Some sub
    /\ Grader._interactor_stdin_pipe (State.self s) = Some r1
    /\ Grader._interactor_stdout_pipe (State.self s) = Some w2
    /\ Grader.interactor_binary (State.self s) = Some ib
    /\ Env.launch E ib a = Return beh
    /\ LaunchArgs.stdin a = Fd r1
    /\ LaunchArgs.stdout a = Fd w2
    /\ captured = (proc_stderr_read sub, result)
    /\ let inter := TracedPopen.mk Interactor (2 + c + Behaviour.lifetime beh)
                       beh false false in
       let c1 := Nat.max (4 + c) (TracedPopen.death sub) in
       let c2 := Nat.max (S c1) (TracedPopen.death inter) in
       s2 = State.mk (S (S c2))
              (State.open_fds s ∖ {[r1]} ∖ {[w2]})
              (State.next_fd s)
              (({[t]} ∪ State.tmp_files s) ∖ {[t]})
              (S t)
              (State.trace s
               ++ [(c, EvMktemp t);
                   (1 + c, EvLaunch Interactor a);
                   (2 + c, EvClose r1);
                   (3 + c, EvClose w2);
                   (c1, EvWait Submission);
                   (c2, EvWait Interactor);
                   (S c2, EvUnlink t)])%nat%list
              (Grader.set_interactor
                 (Grader.set_interactor_limits (State.self s) tl ml)
                 (Some inter)).
Proof.
  intros H t c. unfold BridgedInteractiveGrader._interact_with_process in H.
  apply bind_Return_inv in H as (g & sa & H1 & H).
  apply get_self_inv in H1 as [[= ->] ->].
  apply bind_Return_inv in H as (sub & sa & H1 & H).
  apply assert_some_Return_inv in H1 as [Hsub ->].
  apply bind_Return_inv in H as ([] & sa & H1 & H).
  apply modify_self_inv in H1 as [_ Hsa].
  apply bind_Return_inv in H as (fmt & sb & H1 & H).
  assert (Hsb : sb = sa) by
    (clear Hsa;
     destruct (HandlerData.args_format_string _) as [fs|] in H1;
     [destruct (String.eqb fs "") in H1|];
     try (apply ret_inv in H1 as [_ ->]; reflexivity);
     (apply bind_Return_inv in H1 as (cm & sx & H1 & H2);
      unfold BridgedInteractiveGrader.contrib_module in H1;
      destruct (Env.contrib_modules E !! _) in H1; [|discriminate];
      apply ret_inv in H1 as [_ ->];
      apply ret_inv in H2 as [_ ->]; reflexivity)).
  clear H1. subst sb.
  unfold with_mktemp in H.
  apply bind_Return_inv in H as (f & sb & H1 & H).
  unfold mktemp in H1. injection H1 as <- <-.
  unfold try_finally in H.
  match type of H with
  | (let (_, _) := ?body ?st in _) = _ => destruct (body st) as [o sc] eqn:Hbody
  end.
  unfold unlink in H. injection H as -> <-.
  apply bind_Return_inv in Hbody as (args & sd & H1 & H).
  apply lift_inv in H1 as [_ ->].
  apply bind_Return_inv in H as (g & sd & H1 & H).
  apply get_self_inv in H1 as [[= ->] ->].
  apply bind_Return_inv in H as (ib & sd & H1 & H).
  apply attr_of_Return_inv in H1 as [Hib ->].
  apply bind_Return_inv in H as (r1 & sd & H1 & H).
  apply attr_of_Return_inv in H1 as [Hr1 ->].
  apply bind_Return_inv in H as (w2 & sd & H1 & H).
  apply attr_of_Return_inv in H1 as [Hw2 ->].
  apply bind_Return_inv in H as (p & sd & H1 & H).
  apply launch_Return_inv in H1 as (beh & Hl & -> & ->).
  apply bind_Return_inv in H as ([] & sd & H1 & H).
  apply modify_self_inv in H1 as [_ ->].
  apply bind_Return_inv in H as ([] & sd & H1 & H).
  apply os_close_Return_inv in H1 as [_ ->].
  apply bind_Return_inv in H as ([] & sd & H1 & H).
  apply os_close_Return_inv in H1 as [_ ->].
  apply bind_Return_inv in H as ([] & sd & H1 & H).
  apply proc_wait_Return_inv in H1 as (p1 & Hp1 & ->).
  apply bind_Return_inv in H as ([] & sd & H1 & H).
  apply proc_wait_Return_inv in H1 as (p2 & Hp2 & ->).
  apply bind_Return_inv in H as (g & sd & H1 & H).
  apply get_self_inv in H1 as [[= ->] ->].
  apply bind_Return_inv in H as (cur & sd & H1 & H).
  apply attr_of_Return_inv in H1 as [Hcur ->].
  apply ret_inv in H as [[= ->] ->].
  subst sa. cbn in Hsub, Hib, Hr1, Hw2, Hp1, Hp2, Hcur, Hl.
  rewrite Hsub in Hp1, Hcur. injection Hp1 as <-. injection Hcur as <-.
  injection Hp2 as <-.
  exists sub, r1, w2, ib. eexists. exists beh. do 2 eexists.
  split; [exact Hsub|]. split; [exact Hr1|]. split; [exact Hw2|].
  split; [exact Hib|]. split; [exact Hl|].
  split; [reflexivity|]. split; [reflexivity|]. split; [reflexivity|].
  subst t c. apply State_fields; cbn; try reflexivity.
  rewrite <- !app_assoc. reflexivity.
Qed.
End BridgedSuccess.

Section BridgedGrade.
Context (E : Env.t) (case : TestCase.t).

(** What a returning interactive [grade] has done, step by step, and
    the state it leaves. *)
Lemma bridged_grade_Return_inv s r s' :
  BridgedInteractiveGrader.grade E case s = (Return r, s') ->
  let n := State.next_fd s in
  let t := State.next_tmp s in
  let c := State.clock s in
  exists a1 beh1 a2 beh2 ib pa,
    let sub := TracedPopen.mk Submission (3 + c + Behaviour.lifetime beh1)
                 beh1 false false in
    let inter := TracedPopen.mk Interactor (7 + c + Behaviour.lifetime beh2)
                   beh2 false false in
    let c1 := Nat.max (9 + c) (TracedPopen.death sub) in
    let c2 := Nat.max (S c1) (TracedPopen.death inter) in
    Env.launch E (Grader.binary (State.self s)) a1 = Return beh1
    /\ Env.launch E ib a2 = Return beh2
    /\ LaunchArgs.stdin a1 = Fd (S (S n)) /\ LaunchArgs.stdout a1 = Fd (S n)
    /\ LaunchArgs.stdin a2 = Fd n /\ LaunchArgs.stdout a2 = Fd (S (S (S n)))
    /\ ParseArgs.proc pa = inter
    /\ Grader._current_proc (State.self s') = Some sub
    /\ Grader._interactor (State.self s') = Some inter
    /\ State.clock s' = (4 + c2)%nat
    /\ State.open_fds s'
       = ({[S (S n); S (S (S n))]} ∪ ({[n; S n]} ∪ State.open_fds s))
           ∖ {[S (S n)]} ∖ {[S n]} ∖ {[n]} ∖ {[S (S (S n))]}
    /\ State.tmp_files s' = ({[t]} ∪ State.tmp_files s) ∖ {[t]}
    /\ State.trace s'
       = (State.trace s
          ++ [(c, EvPipe n (S n));
              (1 + c, EvPipe (S (S n)) (S (S (S n))));
              (2 + c, EvLaunch Submission a1);
              (3 + c, EvClose (S (S n)));
              (4 + c, EvClose (S n));
              (5 + c, EvMktemp t);
              (6 + c, EvLaunch Interactor a2);
              (7 + c, EvClose n);
              (8 + c, EvClose (S (S (S n))));
              (c1, EvWait Submission);
              (c2, EvWait Interactor);
              (1 + c2, EvUnlink t);
              (2 + c2, EvParseReturnCode pa);
              (3 + c2, EvFreeData)])%nat%list.
Proof.
  intros Hg n t c. unfold BridgedInteractiveGrader.grade in Hg.
  apply grade_inv in Hg
    as (s1 & s2 & s3 & error & result0 & process & check
        & H1 & H2 & H3 & Hc & _ & ->).
  cbn [m_launch_process m_interact_with_process m_check_result
         BridgedInteractiveGrader.methods] in *.
  apply bridged_launch_Return_inv in H1
    as (a1 & beh1 & Hl1 & Hin1 & Hout1 & ->).
  apply bridged_interact_Return_inv in H2
    as (sub & r1 & w2 & ib & a2 & beh2 & tl & ml
        & Hsub & Hr1 & Hw2 & Hib & Hl2 & Hin2 & Hout2 & _ & ->).
  apply bridged_check_result_inv in Hc
    as (cm & pa & parsed & _ & _ & -> & _ & Hpa).
  cbn in Hsub, Hr1, Hw2, H3, Hpa.
  injection Hsub as <-. injection Hr1 as <-. injection Hw2 as <-.
  injection Hpa as Hpa.
  exists a1, beh1, a2, beh2, ib, pa. cbn zeta.
  split; [exact Hl1|]. split; [exact Hl2|].
  split; [exact Hin1|]. split; [exact Hout1|].
  split; [exact Hin2|]. split; [exact Hout2|].
  split; [symmetry; exact Hpa|].
  subst n t c. cbn.
  repeat (split; [reflexivity|]).
  rewrite <- !app_assoc. reflexivity.
Qed.
End BridgedGrade.

(** C6: when the interactive [grade] returns, the submission and the
    interactor it launched during the call have both terminated, and
    they had already terminated when the verdict was computed (the call
    of [parse_return_code]); this holds for the lifetimes of the two
    processes whatever they are, so whichever of the two ends first. *)
Theorem grade_waits_for_both_processes (E : Env.t) (case : TestCase.t)
    (s s' : State.t) (r : Result.t) :
  BridgedInteractiveGrader.grade E case s = (Return r, s') ->
  exists sub inter new,
    Grader._current_proc (State.self s') = Some sub
    /\ Grader._interactor (State.self s') = Some inter
    /\ State.trace s' = (State.trace s ++ new)%list
    /\ (exists tl a beh,
          In (tl, EvLaunch Submission a) new
          /\ Env.launch E (Grader.binary (State.self s)) a = Return beh
          /\ sub = TracedPopen.mk Submission (S tl + Behaviour.lifetime beh)
                     beh false false)
    /\ (exists tl a exe beh,
          In (tl, EvLaunch Interactor a) new
          /\ Env.launch E exe a = Return beh
          /\ inter = TracedPopen.mk Interactor (S tl + Behaviour.lifetime beh)
                       beh false false)
    /\ terminated sub (State.clock s')
    /\ terminated inter (State.clock s')
    /\ (exists tp pa, In (tp, EvParseReturnCode pa) new)
    /\ (forall tp pa,
          In (tp, EvParseReturnCode pa) new ->
          ParseArgs.proc pa = inter
          /\ terminated sub tp /\ terminated inter tp).
Proof.
  intros Hg.
  apply bridged_grade_Return_inv in Hg
    as (a1 & beh1 & a2 & beh2 & ib & pa & Hl1 & Hl2 & _ & _ & _ & _ & Hpa
        & Hsub & Hinter & Hclock & _ & _ & Htrace).
  cbn zeta in *.
  eexists. eexists. eexists.
  split; [exact Hsub|]. split; [exact Hinter|]. split; [exact Htrace|].
  unfold terminated. cbn [TracedPopen.death] in *.
  split; [|split; [|split; [|split; [|split]]]].
  - exists (2 + State.clock s)%nat, a1, beh1.
    split; [cbn; tauto|]. split; [exact Hl1|reflexivity].
  - exists (6 + State.clock s)%nat, a2, ib, beh2.
    split; [cbn; tauto|]. split; [exact Hl2|reflexivity].
  - rewrite Hclock. lia.
  - rewrite Hclock. lia.
  - eexists. exists pa. cbn. do 12 right. left. reflexivity.
  - intros tp pa' Hin. cbn in Hin.
    repeat (destruct Hin as [Hin|Hin]; try discriminate; try contradiction).
    injection Hin as <- <-. split; [exact Hpa|]. lia.
Qed.

(** ** Temporary files on every exit path *)

Section TmpFrame.
Context (E : Env.t).

Lemma keeps_tmp_pure {A} (m : M A) :
  (forall s, exists o, m s = (o, s)) -> keeps_tmp m.
Proof.
  intros Hpure s o s' Hm. destruct (Hpure s) as [o' Ho].
  rewrite Ho in Hm. injection Hm as _ <-.
  split; [reflexivity|]. exists []. split; [now rewrite app_nil_r|].
  intros t [].
Qed.

Lemma keeps_tmp_ret {A} (a : A) : keeps_tmp (ret a).
Proof. apply keeps_tmp_pure. intros s. now exists (Return a). Qed.

Lemma keeps_tmp_raise {A} e : keeps_tmp (@raise A e).
Proof. apply keeps_tmp_pure. intros s. now exists (Raise e). Qed.

Lemma keeps_tmp_lift {A} (x : Outcome A) : keeps_tmp (lift x).
Proof. apply keeps_tmp_pure. intros s. now exists x. Qed.

Lemma keeps_tmp_get_self : keeps_tmp get_self.
Proof. apply keeps_tmp_pure. intros s. now eexists. Qed.

Lemma keeps_tmp_get_clock : keeps_tmp get_clock.
Proof. apply keeps_tmp_pure. intros s. now eexists. Qed.

Lemma keeps_tmp_attr_of {A} name (x : option A) : keeps_tmp (attr_of name x).
Proof. destruct x; [apply keeps_tmp_ret|apply keeps_tmp_raise]. Qed.

Lemma keeps_tmp_assert_some {A} (x : option A) : keeps_tmp (assert_some x).
Proof. destruct x; [apply keeps_tmp_ret|apply keeps_tmp_raise]. Qed.

Lemma keeps_tmp_modify f :
  (forall s, State.tmp_files (f s) = State.tmp_files s
             /\ State.trace (f s) = State.trace s) ->
  keeps_tmp (modify f).
Proof.
  intros Hf s o s' [= <- <-]. destruct (Hf s) as [Ht Htr].
  split; [exact Ht|]. exists []. rewrite Htr, app_nil_r.
  split; [reflexivity|]. intros t [].
Qed.

Lemma keeps_tmp_modify_self f : keeps_tmp (modify_self f).
Proof. apply keeps_tmp_modify. intros s. split; reflexivity. Qed.

Lemma keeps_tmp_emit e : (forall t, e <> EvMktemp t) -> keeps_tmp (emit e).
Proof.
  intros He s o s' [= <- <-]. split; [reflexivity|]. exists [e].
  split.
  - unfold actions. cbn. now rewrite map_app.
  - intros t [Hin|[]]. now apply (He t).
Qed.

Lemma keeps_tmp_bind {A B} (m : M A) (k : A -> M B) :
  keeps_tmp m -> (forall a, keeps_tmp (k a)) -> keeps_tmp (m ≫= k).
Proof.
  intros Hm Hk s o s' Hb.
  apply bind_inv in Hb as [(a & s1 & H1 & H2)|(e & H1 & _)].
  - apply Hm in H1 as (Ht1 & acts1 & Htr1 & Hno1).
    apply Hk in H2 as (Ht2 & acts2 & Htr2 & Hno2).
    split; [congruence|]. exists (acts1 ++ acts2)%list. split.
    + rewrite Htr2, Htr1. now rewrite app_assoc.
    + intros t Hin. apply in_app_or in Hin as [Hin|Hin];
        [now apply (Hno1 t)|now apply (Hno2 t)].
  - now apply Hm in H1.
Qed.

Lemma keeps_tmp_os_pipe : keeps_tmp os_pipe.
Proof.
  intros s o s' H. apply os_pipe_inv in H as [_ ->].
  split; [reflexivity|]. eexists. split.
  - unfold actions. cbn. rewrite map_app. reflexivity.
  - intros t [Hin|[]]. discriminate.
Qed.

Lemma keeps_tmp_os_close n : keeps_tmp (os_close n).
Proof.
  intros s o s'. unfold os_close.
  destruct (decide (n ∈ State.open_fds s)); intros [= <- <-].
  - split; [reflexivity|]. eexists. split.
    + unfold actions. cbn. rewrite map_app. reflexivity.
    + intros t [Hin|[]]. discriminate.
  - split; [reflexivity|]. exists []. split; [now rewrite app_nil_r|].
    intros t [].
Qed.

Lemma keeps_tmp_launch who exe a : keeps_tmp (launch E who exe a).
Proof.
  unfold launch.
  apply keeps_tmp_bind; [now apply keeps_tmp_emit|intros _].
  apply keeps_tmp_bind; [apply keeps_tmp_lift|intros beh].
  apply keeps_tmp_bind; [apply keeps_tmp_get_clock|intros now].
  apply keeps_tmp_ret.
Qed.

Lemma keeps_tmp_proc_wait who : keeps_tmp (proc_wait who).
Proof.
  unfold proc_wait.
  apply keeps_tmp_bind; [apply keeps_tmp_get_self|intros g].
  apply keeps_tmp_bind; [apply keeps_tmp_attr_of|intros p].
  apply keeps_tmp_bind;
    [apply keeps_tmp_modify; intros s; split; reflexivity|intros _].
  now apply keeps_tmp_emit.
Qed.

Lemma keeps_tmp_contrib_module g :
  keeps_tmp (BridgedInteractiveGrader.contrib_module E g).
Proof.
  unfold BridgedInteractiveGrader.contrib_module.
  destruct (Env.contrib_modules E !! _);
    [apply keeps_tmp_ret|apply keeps_tmp_raise].
Qed.

Lemma keeps_then_releases {A B} (m : M A) (k : A -> M B) :
  keeps_tmp m -> (forall a, releases_tmp (k a)) -> releases_tmp (m ≫= k).
Proof.
  intros Hm Hk s o s' Hb.
  apply bind_inv in Hb as [(a & s1 & H1 & H2)|(e & H1 & _)].
  - apply Hm in H1 as (Ht1 & acts1 & Htr1 & Hno1).
    apply Hk in H2 as (acts2 & Htr2 & Hrel).
    exists (acts1 ++ acts2)%list. split.
    + rewrite Htr2, Htr1. now rewrite app_assoc.
    + intros t Hin. apply in_app_or in Hin as [Hin|Hin];
        [now apply Hno1 in Hin|now apply Hrel].
  - apply Hm in H1 as (_ & acts & Htr & Hno). exists acts.
    split; [exact Htr|]. intros t Hin. now apply Hno in Hin.
Qed.

Lemma releases_then_keeps {A B} (m : M A) (k : A -> M B) :
  releases_tmp m -> (forall a, keeps_tmp (k a)) -> releases_tmp (m ≫= k).
Proof.
  intros Hm Hk s o s' Hb.
  apply bind_inv in Hb as [(a & s1 & H1 & H2)|(e & H1 & _)].
  - apply Hm in H1 as (acts1 & Htr1 & Hrel).
    apply Hk in H2 as (Ht2 & acts2 & Htr2 & Hno2).
    exists (acts1 ++ acts2)%list. split.
    + rewrite Htr2, Htr1. now rewrite app_assoc.
    + intros t Hin. rewrite Ht2. apply in_app_or in Hin as [Hin|Hin];
        [now apply Hrel|now apply Hno2 in Hin].
  - now apply Hm in H1.
Qed.

(** The [with] block of line 89: whatever its body does, the file it
    created is deleted when the block is left. *)
Lemma with_mktemp_releases {A} data (body : nat -> M A) :
  (forall f, keeps_tmp (body f)) -> releases_tmp (with_mktemp data body).
Proof.
  intros Hbody s o s' Hw. unfold with_mktemp in Hw.
  apply bind_inv in Hw as [(f & s1 & H1 & H2)|(e & H1 & _)];
    [|discriminate].
  unfold mktemp in H1. injection H1 as <- <-.
  unfold try_finally in H2.
  match type of H2 with
  | (let (_, _) := ?b ?st in _) = _ => destruct (b st) as [ob sb] eqn:Hb
  end.
  unfold unlink in H2. injection H2 as _ <-.
  apply Hbody in Hb as (Ht & acts & Htr & Hno).
  exists (EvMktemp (State.next_tmp s) :: acts ++ [EvUnlink (State.next_tmp s)])%list.
  split.
  - unfold actions in *. cbn in *. rewrite map_app, Htr, map_app. cbn.
    rewrite <- !app_assoc. reflexivity.
  - cbn [State.tmp_files State.record State.set_tmp]. rewrite Ht. cbn.
    intros t [[= <-]|Hin].
    + rewrite elem_of_difference, elem_of_singleton. tauto.
    + apply in_app_or in Hin as [Hin|[Hin|[]]];
        [now apply Hno in Hin|discriminate].
Qed.
End TmpFrame.

Ltac keeps_tmp_step :=
  first
    [ apply keeps_tmp_ret | apply keeps_tmp_raise | apply keeps_tmp_lift
    | apply keeps_tmp_get_self | apply keeps_tmp_get_clock
    | apply keeps_tmp_attr_of | apply keeps_tmp_assert_some
    | apply keeps_tmp_modify_self | apply keeps_tmp_os_pipe
    | apply keeps_tmp_os_close | apply keeps_tmp_launch
    | apply keeps_tmp_proc_wait | apply keeps_tmp_contrib_module
    | apply keeps_tmp_emit; discriminate
    | apply keeps_tmp_bind; [|intros ?] ].

Section BridgedTmp.
Context (E : Env.t) (case : TestCase.t).

Lemma bridged_launch_keeps_tmp f :
  keeps_tmp (BridgedInteractiveGrader._launch_process E case f).
Proof.
  unfold BridgedInteractiveGrader._launch_process. repeat keeps_tmp_step.
Qed.

Lemma bridged_check_result_keeps_tmp result :
  keeps_tmp (BridgedInteractiveGrader.check_result E case result).
Proof.
  unfold BridgedInteractiveGrader.check_result. repeat keeps_tmp_step.
Qed.

Lemma bridged_interact_releases_tmp result :
  releases_tmp (BridgedInteractiveGrader._interact_with_process E case result).
Proof.
  unfold BridgedInteractiveGrader._interact_with_process.
  apply keeps_then_releases; [keeps_tmp_step|intros g].
  apply keeps_then_releases; [keeps_tmp_step|intros p].
  apply keeps_then_releases; [keeps_tmp_step|intros _].
  apply keeps_then_releases.
  - destruct (HandlerData.args_format_string _) as [fs|];
      [destruct (String.eqb fs "")|]; repeat keeps_tmp_step.
  - intros fmt. apply with_mktemp_releases. intros f.
    repeat keeps_tmp_step.
Qed.

(** However the interactive [grade] ends, the answer file it created
    is gone. *)
Lemma bridged_grade_releases_tmp :
  releases_tmp (BridgedInteractiveGrader.grade E case).
Proof.
  unfold BridgedInteractiveGrader.grade, StandardGrader.grade.
  cbn [m_launch_process m_interact_with_process m_check_result
         BridgedInteractiveGrader.methods].
  apply keeps_then_releases; [apply bridged_launch_keeps_tmp|intros _].
  apply releases_then_keeps; [apply bridged_interact_releases_tmp|intros er].
  apply keeps_tmp_bind; [keeps_tmp_step|intros g].
  apply keeps_tmp_bind; [keeps_tmp_step|intros p].
  apply keeps_tmp_bind; [apply bridged_check_result_keeps_tmp|intros check].
  repeat keeps_tmp_step.
Qed.
End BridgedTmp.

Lemma actions_record (s : State.t) (e : Event) :
  actions (State.trace (State.record s e)) = (actions (State.trace s) ++ [e])%list.
Proof. unfold actions. cbn. now rewrite map_app. Qed.

(** ** Every way the interactive [grade] can end *)

Section BridgedExits.
Context (E : Env.t) (case : TestCase.t).

Lemma os_close_run n s :
  n ∈ State.open_fds s ->
  os_close n s
  = (Return tt,
     State.record (State.set_fds s (State.open_fds s ∖ {[n]}) (State.next_fd s))
       (EvClose n)).
Proof.
  intros Hin. unfold os_close.
  destruct (decide (n ∈ State.open_fds s)); [reflexivity|contradiction].
Qed.

Lemma os_close_inv n s o s' :
  n ∈ State.open_fds s ->
  os_close n s = (o, s') ->
  o = Return tt
  /\ s' = State.record
            (State.set_fds s (State.open_fds s ∖ {[n]}) (State.next_fd s))
            (EvClose n).
Proof.
  intros Hin H. rewrite (os_close_run n s Hin) in H.
  injection H as <- <-. split; reflexivity.
Qed.

Lemma assert_some_inv {A} (x : option A) s o s' :
  assert_some x s = (o, s') ->
  s' = s
  /\ match x with
     | Some a => o = Return a
     | None => o = Raise AssertionError
     end.
Proof.
  destruct x; unfold assert_some, ret, raise; intros [= <- <-];
    split; reflexivity.
Qed.

Lemma attr_of_inv {A} name (x : option A) s o s' :
  attr_of name x s = (o, s') ->
  s' = s
  /\ match x with
     | Some a => o = Return a
     | None => o = Raise (AttributeError name)
     end.
Proof.
  destruct x; unfold attr_of, ret, raise; intros [= <- <-];
    split; reflexivity.
Qed.

Lemma launch_inv who exe a s o s' :
  launch E who exe a s = (o, s') ->
  s' = State.record s (EvLaunch who a)
  /\ match Env.launch E exe a with
     | Return beh =>
         o = Return (TracedPopen.mk who
                       (S (State.clock s) + Behaviour.lifetime beh)
                       beh false false)
     | Raise e => o = Raise e
     end.
Proof.
  unfold launch, mbind, M_bind, bind, emit, lift, get_clock, ret.
  destruct (Env.launch E exe a); intros [= <- <-]; split; reflexivity.
Qed.

Lemma proc_wait_inv who p s o s' :
  Grader.proc_of (State.self s) who = Some p ->
  proc_wait who s = (o, s') ->
  o = Return tt
  /\ s' = State.record
            (State.set_clock s (Nat.max (State.clock s) (TracedPopen.death p)))
            (EvWait who).
Proof.
  intros Hp. unfold proc_wait, mbind, M_bind, bind, get_self, attr_of, modify,
    emit, ret.
  rewrite Hp. intros [= <- <-]. split; reflexivity.
Qed.

Lemma contrib_module_inv g s o s' :
  BridgedInteractiveGrader.contrib_module E g s = (o, s') -> s' = s.
Proof.
  unfold BridgedInteractiveGrader.contrib_module.
  destruct (Env.contrib_modules E !! _); unfold ret, raise; now intros [= _ <-].
Qed.

(** Once the interactor is launched, the rest of the [with] block cannot
    raise: the two descriptors are held, and both processes exist. *)
Lemma interact_tail_returns (result : Result.t) (p sub : TracedPopen.t)
    (r1 w2 : fd) s (o : Outcome (bytes * Result.t)) s' :
  r1 ∈ State.open_fds s -> w2 ∈ State.open_fds s -> r1 <> w2 ->
  Grader._current_proc (State.self s) = Some sub ->
  (modify_self (fun g => Grader.set_interactor g (Some p)) ;;
   os_close r1 ;;
   os_close w2 ;;
   proc_wait Submission ;;
   proc_wait Interactor ;;
   g ← get_self ;
   current_proc ← attr_of "stderr" (Grader._current_proc g) ;
   ret (proc_stderr_read current_proc, result)) s = (o, s') ->
  exists v, o = Return v.
Proof.
  intros Hin1 Hin2 Hne Hsub H.
  apply bind_inv in H as [([] & sa & H1 & H)|(e' & H1 & _)];
    [|apply modify_self_inv in H1 as [[=] _]].
  apply modify_self_inv in H1 as [_ ->].
  apply bind_inv in H as [([] & sa & H1 & H)|(e' & H1 & _)];
    [|apply os_close_inv in H1 as [[=] _]; exact Hin1].
  apply os_close_inv in H1 as [_ ->]; [|exact Hin1].
  apply bind_inv in H as [([] & sa & H1 & H)|(e' & H1 & _)].
  2: { apply os_close_inv in H1 as [[=] _]. cbn.
       rewrite elem_of_difference, elem_of_singleton. split; congruence. }
  apply os_close_inv in H1 as [_ ->].
  2: { cbn. rewrite elem_of_difference, elem_of_singleton. split; congruence. }
  apply bind_inv in H as [([] & sa & H1 & H)|(e' & H1 & _)];
    [|apply (proc_wait_inv Submission sub) in H1 as [[=] _]; exact Hsub].
  apply (proc_wait_inv Submission sub) in H1 as [_ ->]; [|exact Hsub].
  apply bind_inv in H as [([] & sa & H1 & H)|(e' & H1 & _)];
    [|apply (proc_wait_inv Interactor p) in H1 as [[=] _]; reflexivity].
  apply (proc_wait_inv Interactor p) in H1 as [_ ->]; [|reflexivity].
  apply bind_inv in H as [(g & sa & H1 & H)|(e' & H1 & _)];
    [|apply get_self_inv in H1 as [[=] _]].
  apply get_self_inv in H1 as [Hg ->]. injection Hg as Hg.
  apply bind_inv in H as [(cur & sa & H1 & H)|(e' & H1 & _)].
  - apply ret_inv in H as [-> _]. eauto.
  - apply attr_of_inv in H1 as [_ H1]. subst g. cbn in H1.
    rewrite Hsub in H1. discriminate.
Qed.

(** [_interact_with_process] raises only before the interactor runs: on
    the assertion, the adapter lookup, the argument template, a missing
    attribute or the launch itself.  Nothing is closed on these paths,
    and the answer file, once created, is removed by the [with] block. *)
Lemma bridged_interact_Raise_inv result s r1 w2 e s2 :
  Grader._interactor_stdin_pipe (State.self s) = Some r1 ->
  Grader._interactor_stdout_pipe (State.self s) = Some w2 ->
  r1 ∈ State.open_fds s -> w2 ∈ State.open_fds s -> r1 <> w2 ->
  BridgedInteractiveGrader._interact_with_process E case result s
  = (Raise e, s2) ->
  let t := State.next_tmp s in
  State.open_fds s2 = State.open_fds s
  /\ exists acts,
       actions (State.trace s2) = (actions (State.trace s) ++ acts)%list
       /\ ((acts = [] /\ State.tmp_files s2 = State.tmp_files s)
           \/ (State.tmp_files s2 = ({[t]} ∪ State.tmp_files s) ∖ {[t]}
               /\ (acts = [EvMktemp t; EvUnlink t]
                   \/ exists a ib,
                        Grader.interactor_binary (State.self s) = Some ib
                        /\ Env.launch E ib a = Raise e
                        /\ LaunchArgs.stdin a = Fd r1
                        /\ LaunchArgs.stdout a = Fd w2
                        /\ acts = [EvMktemp t; EvLaunch Interactor a;
                                   EvUnlink t]))).
Proof.
  intros Hr1 Hw2 Hin1 Hin2 Hne H t.
  assert (Hnil : forall g' : Grader.t,
            State.open_fds (State.set_self s g') = State.open_fds s
            /\ exists acts,
                 actions (State.trace (State.set_self s g'))
                 = (actions (State.trace s) ++ acts)%list
                 /\ ((acts = []
                      /\ State.tmp_files (State.set_self s g') = State.tmp_files s)
                     \/ (State.tmp_files (State.set_self s g')
                         = ({[t]} ∪ State.tmp_files s) ∖ {[t]}
                         /\ (acts = [EvMktemp t; EvUnlink t]
                             \/ exists a ib,
                                  Grader.interactor_binary (State.self s) = Some ib
                                  /\ Env.launch E ib a = Raise e
                                  /\ LaunchArgs.stdin a = Fd r1
                                  /\ LaunchArgs.stdout a = Fd w2
                                  /\ acts = [EvMktemp t; EvLaunch Interactor a;
                                             EvUnlink t])))).
  { intros g'. split; [reflexivity|]. exists []. split.
    - cbn. now rewrite app_nil_r.
    - left. split; reflexivity. }
  unfold BridgedInteractiveGrader._interact_with_process in H.
  apply bind_inv in H as [(g & sa & H1 & H)|(e' & H1 & _)];
    [|apply get_self_inv in H1 as [[=] _]].
  apply get_self_inv in H1 as [Hg ->]. injection Hg as ->.
  apply bind_inv in H as [(sub & sa & H1 & H)|(e' & H1 & _)].
  2: { apply assert_some_inv in H1 as [-> _]. split; [reflexivity|].
       exists []. split; [now rewrite app_nil_r|]. left. split; reflexivity. }
  apply assert_some_inv in H1 as [-> Hsub].
  destruct (Grader._current_proc (State.self s)) as [sub'|] eqn:Hproc;
    [|discriminate].
  injection Hsub as <-.
  apply bind_inv in H as [([] & sa & H1 & H)|(e' & H1 & _)];
    [|apply modify_self_inv in H1 as [[=] _]].
  apply modify_self_inv in H1 as [_ ->].
  match type of H with
  | context [State.set_self s ?g'] => set (g1 := g') in *
  end.
  apply bind_inv in H as [(fmt & sa & H1 & H)|(e' & H1 & _)].
  2: { assert (s2 = State.set_self s g1) as ->; [|apply Hnil].
       destruct (HandlerData.args_format_string _) as [fs|] in H1;
         [destruct (String.eqb fs "") in H1|].
       - apply bind_inv in H1 as [(cm & sx & H1 & H2)|(e'' & H1 & _)].
         + apply ret_inv in H2 as [[=] _].
         + now apply contrib_module_inv in H1.
       - apply ret_inv in H1 as [[=] _].
       - apply bind_inv in H1 as [(cm & sx & H1 & H2)|(e'' & H1 & _)].
         + apply ret_inv in H2 as [[=] _].
         + now apply contrib_module_inv in H1. }
  assert (sa = State.set_self s g1) as ->.
  { destruct (HandlerData.args_format_string _) as [fs|] in H1;
      [destruct (String.eqb fs "") in H1|].
    - apply bind_inv in H1 as [(cm & sx & H1 & H2)|(e'' & H1 & [=])].
      apply contrib_module_inv in H1 as ->. now apply ret_inv in H2 as [_ ->].
    - now apply ret_inv in H1 as [_ ->].
    - apply bind_inv in H1 as [(cm & sx & H1 & H2)|(e'' & H1 & [=])].
      apply contrib_module_inv in H1 as ->. now apply ret_inv in H2 as [_ ->]. }
  clear H1.
  unfold with_mktemp in H.
  apply bind_inv in H as [(f & sb & H1 & H)|(e' & H1 & _)];
    [|unfold mktemp in H1; discriminate].
  unfold mktemp in H1. injection H1 as <- <-.
  cbn [State.next_tmp State.set_self State.tmp_files] in H.
  fold t in H.
  unfold try_finally in H.
  match type of H with
  | (let (_, _) := ?body ?st in _) = _ =>
      set (sd := st) in *; destruct (body sd) as [o sc] eqn:Hbody
  end.
  unfold unlink in H. injection H as -> <-.
  assert (Hfds : State.open_fds sd = State.open_fds s) by reflexivity.
  assert (Htmp : State.tmp_files sd = {[t]} ∪ State.tmp_files s) by reflexivity.
  assert (Htr : actions (State.trace sd)
                = (actions (State.trace s) ++ [EvMktemp t])%list).
  { subst sd. now rewrite actions_record. }
  assert (Hself : State.self sd = g1) by reflexivity.
  (* the two ways out that do not launch, and the one that does *)
  assert (Hplain : sc = sd ->
          State.open_fds
            (State.record
               (State.set_tmp sc (State.tmp_files sc ∖ {[t]}) (State.next_tmp sc))
               (EvUnlink t)) = State.open_fds s
          /\ exists acts,
               actions
                 (State.trace
                    (State.record
                       (State.set_tmp sc (State.tmp_files sc ∖ {[t]})
                          (State.next_tmp sc))
                       (EvUnlink t)))
               = (actions (State.trace s) ++ acts)%list
               /\ ((acts = []
                    /\ State.tmp_files
                         (State.record
                            (State.set_tmp sc (State.tmp_files sc ∖ {[t]})
                               (State.next_tmp sc))
                            (EvUnlink t)) = State.tmp_files s)
                   \/ (State.tmp_files
                         (State.record
                            (State.set_tmp sc (State.tmp_files sc ∖ {[t]})
                               (State.next_tmp sc))
                            (EvUnlink t))
                       = ({[t]} ∪ State.tmp_files s) ∖ {[t]}
                       /\ (acts = [EvMktemp t; EvUnlink t]
                           \/ exists a ib,
                                Grader.interactor_binary (State.self s) = Some ib
                                /\ Env.launch E ib a = Raise e
                                /\ LaunchArgs.stdin a = Fd r1
                                /\ LaunchArgs.stdout a = Fd w2
                                /\ acts = [EvMktemp t; EvLaunch Interactor a;
                                           EvUnlink t])))).
  { intros ->. split; [exact Hfds|]. exists [EvMktemp t; EvUnlink t]. split.
    - rewrite actions_record. cbn [State.trace State.set_tmp].
      rewrite Htr, <- app_assoc. reflexivity.
    - right. split; [|now left].
      cbn [State.tmp_files State.record State.set_tmp]. now rewrite Htmp. }
  clearbody sd.
  apply bind_inv in Hbody as [(args & se & H1 & H)|(e' & H1 & _)].
  2: { apply lift_inv in H1 as [_ ->]. now apply Hplain. }
  apply lift_inv in H1 as [Hargs ->].
  apply bind_inv in H as [(g & se & H1 & H)|(e' & H1 & _)];
    [|apply get_self_inv in H1 as [[=] _]].
  apply get_self_inv in H1 as [Hg ->]. injection Hg as ->.
  rewrite Hself in H.
  apply bind_inv in H as [(ib & se & H1 & H)|(e' & H1 & _)].
  2: { apply attr_of_inv in H1 as [-> _]. now apply Hplain. }
  apply attr_of_inv in H1 as [-> Hib].
  apply bind_inv in H as [(r1' & se & H1 & H)|(e' & H1 & _)].
  2: { apply attr_of_inv in H1 as [-> _]. now apply Hplain. }
  apply attr_of_inv in H1 as [-> Hr1'].
  apply bind_inv in H as [(w2' & se & H1 & H)|(e' & H1 & _)].
  2: { apply attr_of_inv in H1 as [-> _]. now apply Hplain. }
  apply attr_of_inv in H1 as [-> Hw2'].
  subst g1. cbn [Grader.interactor_binary Grader._interactor_stdin_pipe
                   Grader._interactor_stdout_pipe Grader.set_interactor_limits]
    in Hib, Hr1', Hw2'.
  rewrite Hr1 in Hr1'. rewrite Hw2 in Hw2'.
  injection Hr1' as ->. injection Hw2' as ->.
  destruct (Grader.interactor_binary (State.self s)) as [ib'|] eqn:Hbin;
    [|discriminate].
  injection Hib as ->.
  apply bind_inv in H as [(p & se & H1 & H)|(e' & H1 & He)].
  - (* launched: the rest returns *)
    apply launch_inv in H1 as [-> _].
    apply (interact_tail_returns result p sub r1 w2) in H as [v [=]].
    + cbn [State.open_fds State.record]. now rewrite Hfds.
    + cbn [State.open_fds State.record]. now rewrite Hfds.
    + exact Hne.
    + cbn [State.self State.record]. rewrite Hself. exact Hproc.
  - (* refused *)
    injection He as <-.
    apply launch_inv in H1 as [-> Hl].
    match type of Hl with
    | match Env.launch E _ ?a with _ => _ end =>
        destruct (Env.launch E ib' a) as [beh|e''] eqn:Hlaunch;
          [discriminate|injection Hl as <-]; set (a2 := a) in *
    end.
    split; [exact Hfds|].
    exists [EvMktemp t; EvLaunch Interactor a2; EvUnlink t]. split.
    + rewrite actions_record. cbn [State.trace State.set_tmp].
      rewrite actions_record, Htr, <- !app_assoc. reflexivity.
    + right. split.
      * cbn [State.tmp_files State.record State.set_tmp]. now rewrite Htmp.
      * right. exists a2, ib'. repeat split. exact Hlaunch.
Qed.

(** The interactive [check_result] touches nothing but the trace. *)
Lemma bridged_check_result_cases result s o s3 :
  BridgedInteractiveGrader.check_result E case result s = (o, s3) ->
  (exists e, o = Raise e /\ s3 = s)
  \/ (exists pa, s3 = State.record s (EvParseReturnCode pa)).
Proof.
  unfold BridgedInteractiveGrader.check_result. intros H.
  apply bind_inv in H as [(g & sa & H1 & H)|(e' & H1 & _)];
    [|apply get_self_inv in H1 as [[=] _]].
  apply get_self_inv in H1 as [_ ->].
  apply bind_inv in H as [(inter & sa & H1 & H)|(e' & H1 & ->)].
  2: { apply attr_of_inv in H1 as [-> _]. left. eauto. }
  apply attr_of_inv in H1 as [-> _].
  apply bind_inv in H as [(cm & sa & H1 & H)|(e' & H1 & ->)].
  2: { apply contrib_module_inv in H1 as ->. left. eauto. }
  apply contrib_module_inv in H1 as ->.
  apply bind_inv in H as [(ib & sa & H1 & H)|(e' & H1 & ->)].
  2: { apply attr_of_inv in H1 as [-> _]. left. eauto. }
  apply attr_of_inv in H1 as [-> _].
  apply bind_inv in H as [([] & sa & H1 & H)|(e' & H1 & _)];
    [|apply emit_inv in H1 as [[=] _]].
  apply emit_inv in H1 as [_ ->].
  right. eexists.
  apply bind_inv in H as [(parsed & sa & H1 & H)|(e' & H1 & _)].
  - apply lift_inv in H1 as [_ ->]. apply ret_inv in H as [_ ->]. reflexivity.
  - apply lift_inv in H1 as [_ ->]. reflexivity.
Qed.

#[local] Arguments os_close : simpl never.

(** [_launch_process] returns as soon as the sandbox starts the
    submission: the two closes that follow cannot fail. *)
Lemma bridged_launch_Raise_inv f s e s1 :
  BridgedInteractiveGrader._launch_process E case f s = (Raise e, s1) ->
  let n := State.next_fd s in
  exists a,
    LaunchArgs.stdin a = Fd (S (S n)) /\ LaunchArgs.stdout a = Fd (S n)
    /\ Env.launch E (Grader.binary (State.self s)) a = Raise e
    /\ State.open_fds s1
       = {[S (S n); S (S (S n))]} ∪ ({[n; S n]} ∪ State.open_fds s)
    /\ State.tmp_files s1 = State.tmp_files s
    /\ actions (State.trace s1)
       = (actions (State.trace s)
          ++ [EvPipe n (S n); EvPipe (S (S n)) (S (S (S n)));
              EvLaunch Submission a])%list.
Proof.
  intros H n. subst n. destruct s as [clock fds nfd tmp ntmp trace self].
  cbn [State.self State.next_fd State.open_fds State.tmp_files State.trace].
  unfold BridgedInteractiveGrader._launch_process, launch, os_pipe in H.
  unfold_monad. cbn in H.
  match type of H with
  | context [Env.launch E ?x ?a] =>
      exists a; destruct (Env.launch E x a) as [beh|e0] eqn:Hl
  end; cbn in H.
  - rewrite os_close_run in H.
    2: { cbn. rewrite !elem_of_union, !elem_of_singleton. tauto. }
    cbn in H. rewrite os_close_run in H.
    2: { cbn. rewrite !elem_of_difference, !elem_of_union, !elem_of_singleton.
         split; [tauto|lia]. }
    discriminate.
  - split; [reflexivity|]. split; [reflexivity|].
    injection H as <- <-. cbn. split; [reflexivity|].
    repeat split.
    unfold actions. rewrite !map_app, <- !app_assoc. reflexivity.
Qed.

(** The interactive [grade], however it ends. *)
Lemma bridged_grade_exits s o s' :
  BridgedInteractiveGrader.grade E case s = (o, s') ->
  let n := State.next_fd s in
  let t := State.next_tmp s in
  exists a1 rest,
    LaunchArgs.stdin a1 = Fd (S (S n)) /\ LaunchArgs.stdout a1 = Fd (S n)
    /\ actions (State.trace s')
       = (actions (State.trace s)
          ++ [EvPipe n (S n); EvPipe (S (S n)) (S (S (S n)));
              EvLaunch Submission a1] ++ rest)%list
    /\ ((exists e,
           Env.launch E (Grader.binary (State.self s)) a1 = Raise e
           /\ o = Raise e /\ rest = []
           /\ State.open_fds s'
              = {[S (S n); S (S (S n))]} ∪ ({[n; S n]} ∪ State.open_fds s)
           /\ State.tmp_files s' = State.tmp_files s)
        \/ (exists beh rest',
              Env.launch E (Grader.binary (State.self s)) a1 = Return beh
              /\ rest = EvClose (S (S n)) :: EvClose (S n) :: rest'
              /\ (S n ∉ State.open_fds s') /\ (S (S n) ∉ State.open_fds s')
              /\ ((exists e,
                     o = Raise e
                     /\ (n ∈ State.open_fds s')
                     /\ (S (S (S n)) ∈ State.open_fds s')
                     /\ ((rest' = [] /\ State.tmp_files s' = State.tmp_files s)
                         \/ (State.tmp_files s'
                             = ({[t]} ∪ State.tmp_files s) ∖ {[t]}
                             /\ (rest' = [EvMktemp t; EvUnlink t]
                                 \/ exists a2 ib,
                                      Grader.interactor_binary (State.self s)
                                      = Some ib
                                      /\ Env.launch E ib a2 = Raise e
                                      /\ LaunchArgs.stdin a2 = Fd n
                                      /\ LaunchArgs.stdout a2 = Fd (S (S (S n)))
                                      /\ rest' = [EvMktemp t;
                                                  EvLaunch Interactor a2;
                                                  EvUnlink t]))))
                  \/ (exists a2 ib beh2 tail,
                        Grader.interactor_binary (State.self s) = Some ib
                        /\ Env.launch E ib a2 = Return beh2
                        /\ LaunchArgs.stdin a2 = Fd n
                        /\ LaunchArgs.stdout a2 = Fd (S (S (S n)))
                        /\ rest' = ([EvMktemp t; EvLaunch Interactor a2;
                                     EvClose n; EvClose (S (S (S n)));
                                     EvWait Submission; EvWait Interactor;
                                     EvUnlink t] ++ tail)%list
                        /\ (n ∉ State.open_fds s')
                        /\ (S (S (S n)) ∉ State.open_fds s')
                        /\ State.tmp_files s'
                           = ({[t]} ∪ State.tmp_files s) ∖ {[t]}
                        /\ ((exists e,
                               o = Raise e
                               /\ (tail = []
                                   \/ exists pa, tail = [EvParseReturnCode pa]))
                            \/ (exists r pa,
                                  o = Return r
                                  /\ tail = [EvParseReturnCode pa;
                                             EvFreeData])))))).
Proof.
  intros Hg n t.
  unfold BridgedInteractiveGrader.grade, StandardGrader.grade in Hg.
  cbn [m_launch_process m_interact_with_process m_check_result
         BridgedInteractiveGrader.methods] in Hg.
  apply bind_inv in Hg as [([] & s1 & H1 & Hg)|(e & H1 & ->)].
  2: { apply bridged_launch_Raise_inv in H1
         as (a & Hin & Hout & Hl & Hfds & Htmp & Htr).
       exists a, []. split; [exact Hin|]. split; [exact Hout|].
       split; [now rewrite app_nil_r|]. left. exists e. repeat split; assumption. }
  apply bridged_launch_Return_inv in H1
    as (a1 & beh1 & Hl1 & Hin1 & Hout1 & Hs1).
  fold n in Hin1, Hout1, Hs1.
  assert (Hfds1 : State.open_fds s1
                  = ({[S (S n); S (S (S n))]} ∪ ({[n; S n]} ∪ State.open_fds s))
                      ∖ {[S (S n)]} ∖ {[S n]}) by (rewrite Hs1; reflexivity).
  assert (Htmp1 : State.tmp_files s1 = State.tmp_files s)
    by (rewrite Hs1; reflexivity).
  assert (Hnt1 : State.next_tmp s1 = t) by (rewrite Hs1; reflexivity).
  assert (Htr1 : actions (State.trace s1)
                 = (actions (State.trace s)
                    ++ [EvPipe n (S n); EvPipe (S (S n)) (S (S (S n)));
                        EvLaunch Submission a1]
                    ++ [EvClose (S (S n)); EvClose (S n)])%list).
  { rewrite Hs1. unfold actions. cbn [State.trace]. rewrite map_app.
    reflexivity. }
  assert (Hbin1 : Grader.interactor_binary (State.self s1)
                  = Grader.interactor_binary (State.self s))
    by (rewrite Hs1; reflexivity).
  assert (Hr1 : Grader._interactor_stdin_pipe (State.self s1) = Some n)
    by (rewrite Hs1; reflexivity).
  assert (Hw2 : Grader._interactor_stdout_pipe (State.self s1)
                = Some (S (S (S n)))) by (rewrite Hs1; reflexivity).
  clear Hs1.
  assert (Hopen1 : (n ∈ State.open_fds s1) /\ (S (S (S n)) ∈ State.open_fds s1)
                   /\ (S n ∉ State.open_fds s1)
                   /\ (S (S n) ∉ State.open_fds s1)).
  { rewrite Hfds1.
    rewrite !elem_of_difference, !elem_of_union, !elem_of_singleton.
    repeat split; try lia; try tauto;
      intros Hc; decompose [and or] Hc; congruence || lia. }
  destruct Hopen1 as (Hn1 & Hw1 & Hsn1 & Hssn1).
  exists a1.
  apply bind_inv in Hg as [([error result0] & s2 & H2 & Hg)|(e & H2 & ->)].
  2: { (* the capture raised: the interactor did not start *)
       apply (bridged_interact_Raise_inv _ _ n (S (S (S n)))) in H2
         as (Hfds2 & acts & Htr2 & Hacts);
         [|exact Hr1|exact Hw2|exact Hn1|exact Hw1|lia].
       rewrite Hnt1, Htmp1, Hbin1 in Hacts.
       exists (EvClose (S (S n)) :: EvClose (S n) :: acts).
       split; [exact Hin1|]. split; [exact Hout1|]. split.
       { rewrite Htr2, Htr1, <- !app_assoc. reflexivity. }
       right. exists beh1, acts. split; [exact Hl1|]. split; [reflexivity|].
       rewrite Hfds2. split; [exact Hsn1|]. split; [exact Hssn1|].
       left. exists e. split; [reflexivity|]. split; [exact Hn1|].
       split; [exact Hw1|]. exact Hacts. }
  apply bridged_interact_Return_inv in H2
    as (sub & r1 & w2 & ib & a2 & beh2 & tl & ml
        & Hsub & Hr1' & Hw2' & Hib & Hl2 & Hin2 & Hout2 & _ & Hs2).
  rewrite Hr1 in Hr1'. injection Hr1' as <-.
  rewrite Hw2 in Hw2'. injection Hw2' as <-.
  rewrite Hbin1 in Hib. rewrite Hnt1, Htmp1 in Hs2.
  assert (Hfds2 : State.open_fds s2
                  = State.open_fds s1 ∖ {[n]} ∖ {[S (S (S n))]})
    by (rewrite Hs2; reflexivity).
  assert (Htmp2 : State.tmp_files s2 = ({[t]} ∪ State.tmp_files s) ∖ {[t]})
    by (rewrite Hs2; reflexivity).
  assert (Htr2 : actions (State.trace s2)
                 = (actions (State.trace s1)
                    ++ [EvMktemp t; EvLaunch Interactor a2; EvClose n;
                        EvClose (S (S (S n))); EvWait Submission;
                        EvWait Interactor; EvUnlink t])%list).
  { rewrite Hs2. unfold actions. cbn [State.trace]. rewrite map_app.
    reflexivity. }
  assert (Hcur2 : Grader._current_proc (State.self s2) = Some sub)
    by (rewrite Hs2; exact Hsub).
  clear Hs2.
  assert (Hclosed2 : (n ∉ State.open_fds s2) /\ (S (S (S n)) ∉ State.open_fds s2)
                     /\ (S n ∉ State.open_fds s2)
                     /\ (S (S n) ∉ State.open_fds s2)).
  { rewrite Hfds2. rewrite !elem_of_difference, !elem_of_singleton.
    repeat split; tauto. }
  destruct Hclosed2 as (Hn2 & Hw2c & Hsn2 & Hssn2).
  assert (Hend : exists tail,
            actions (State.trace s') = (actions (State.trace s2) ++ tail)%list
            /\ State.open_fds s' = State.open_fds s2
            /\ State.tmp_files s' = State.tmp_files s2
            /\ ((exists e,
                   o = Raise e
                   /\ (tail = [] \/ exists pa, tail = [EvParseReturnCode pa]))
                \/ (exists r pa,
                      o = Return r
                      /\ tail = [EvParseReturnCode pa; EvFreeData]))).
  { cbn [fst snd] in Hg.
    apply bind_inv in Hg as [(g & sx & H3 & Hg)|(e & H3 & _)];
      [|apply get_self_inv in H3 as [[=] _]].
    apply get_self_inv in H3 as [Hgeq ->]. injection Hgeq as ->.
    apply bind_inv in Hg as [(process & sx & H3 & Hg)|(e & H3 & _)].
    2: { apply assert_some_inv in H3 as [_ H3]. rewrite Hcur2 in H3.
         discriminate. }
    apply assert_some_inv in H3 as [-> _].
    apply bind_inv in Hg as [(check & s3 & H4 & Hg)|(e & H4 & ->)].
    - apply bridged_check_result_inv in H4
        as (cm & pa & parsed & _ & _ & -> & _).
      apply bind_inv in Hg as [([] & sx & H5 & Hg)|(e & H5 & _)];
        [|apply emit_inv in H5 as [[=] _]].
      apply emit_inv in H5 as [_ ->]. apply ret_inv in Hg as [-> ->].
      exists [EvParseReturnCode pa; EvFreeData].
      split; [now rewrite !actions_record, <- app_assoc|].
      split; [reflexivity|]. split; [reflexivity|]. right. eauto.
    - apply bridged_check_result_cases in H4 as [(e' & _ & ->)|(pa & ->)].
      + exists []. split; [now rewrite app_nil_r|].
        split; [reflexivity|]. split; [reflexivity|].
        left. exists e. split; [reflexivity|]. now left.
      + exists [EvParseReturnCode pa]. split; [now rewrite actions_record|].
        split; [reflexivity|]. split; [reflexivity|].
        left. exists e. split; [reflexivity|]. right. eauto. }
  destruct Hend as (tail & Htr & Hfds & Htmp & Hend).
  eexists. split; [exact Hin1|]. split; [exact Hout1|]. split.
  { rewrite Htr, Htr2, Htr1, <- !app_assoc. cbn [app]. reflexivity. }
  right. eexists. eexists. split; [exact Hl1|]. split; [reflexivity|].
  rewrite Hfds. split; [exact Hsn2|]. split; [exact Hssn2|].
  right. exists a2, ib, beh2, tail.
  split; [exact Hib|]. split; [exact Hl2|]. split; [exact Hin2|].
  split; [exact Hout2|]. split; [reflexivity|].
  split; [exact Hn2|]. split; [exact Hw2c|].
  split; [rewrite Htmp; exact Htmp2|]. exact Hend.
Qed.
End BridgedExits.

Lemma grade_waits_for_both_processes_witness :
  exists sub inter,
    Grader._current_proc
      (State.self (snd (BridgedInteractiveGrader.grade Scenario.env
                          Scenario.case_true Scenario.interactive_state)))
    = Some sub
    /\ Grader._interactor
         (State.self (snd (BridgedInteractiveGrader.grade Scenario.env
                             Scenario.case_true Scenario.interactive_state)))
       = Some inter
    /\ terminated sub
         (State.clock (snd (BridgedInteractiveGrader.grade Scenario.env
                              Scenario.case_true Scenario.interactive_state)))
    /\ terminated inter
         (State.clock (snd (BridgedInteractiveGrader.grade Scenario.env
                              Scenario.case_true Scenario.interactive_state))).
Proof.
  destruct (grade_waits_for_both_processes Scenario.env Scenario.case_true
              Scenario.interactive_state
              (snd (BridgedInteractiveGrader.grade Scenario.env
                      Scenario.case_true Scenario.interactive_state))
              (Result.mk 0 100 (Some "") (Some "") [] (1 # 2)))
    as (sub & inter & new & Hsub & Hinter & _ & _ & _ & Htsub & Htinter & _).
  - vm_compute. reflexivity.
  - exists sub, inter. repeat split; assumption.
Defined.

(** The two orders of termination.  In [Scenario.env] the submission
    dies at instant 6 and the interactor at 12; in
    [Scenario.env_interactor_first] the interactor dies at 9 and the
    submission at 12.  In both the verdict is computed later. *)
Example submission_first :
  map fst
    (filter (fun e => match snd e with
                      | EvWait _ | EvParseReturnCode _ => true
                      | _ => false
                      end)
       (State.trace
          (snd (BridgedInteractiveGrader.grade Scenario.env
                  Scenario.case_true Scenario.interactive_state))))
  = [9; 12; 14]%nat.
Proof. vm_compute. reflexivity. Qed.

Example interactor_first :
  map fst
    (filter (fun e => match snd e with
                      | EvWait _ | EvParseReturnCode _ => true
                      | _ => false
                      end)
       (State.trace
          (snd (BridgedInteractiveGrader.grade Scenario.env_interactor_first
                  Scenario.case_true Scenario.interactive_state))))
  = [12; 13; 15]%nat.
Proof. vm_compute. reflexivity. Qed.

(** C9, amended: the two pipe ends handed to a process are closed
    immediately after that process is launched, on every path: the
    submission's two right after the submission starts, the interactor's
    two right after the interactor starts, and they stay closed until
    [grade] ends, by returning or by raising.  So when [grade] returns,
    and on every error exit that follows both launches, all four
    descriptors are closed.  An error exit before a launch has
    succeeded leaves the ends not yet handed off open: all four when the
    submission cannot be started, the interactor's two when [grade]
    raises before the interactor runs.  However [grade] ends, the answer
    file it created is deleted. *)
Theorem interactive_resources_released (E : Env.t) (case : TestCase.t)
    (s : State.t) :
  (forall r s',
      BridgedInteractiveGrader.grade E case s = (Return r, s') ->
      let n := State.next_fd s in
      let t := State.next_tmp s in
      exists a1 a2 pa,
        LaunchArgs.stdin a1 = Fd (S (S n)) /\ LaunchArgs.stdout a1 = Fd (S n)
        /\ LaunchArgs.stdin a2 = Fd n /\ LaunchArgs.stdout a2 = Fd (S (S (S n)))
        /\ actions (State.trace s')
           = (actions (State.trace s)
              ++ [EvPipe n (S n); EvPipe (S (S n)) (S (S (S n)));
                  EvLaunch Submission a1; EvClose (S (S n)); EvClose (S n);
                  EvMktemp t;
                  EvLaunch Interactor a2; EvClose n; EvClose (S (S (S n)));
                  EvWait Submission; EvWait Interactor; EvUnlink t;
                  EvParseReturnCode pa; EvFreeData])%list
        /\ (n ∉ State.open_fds s') /\ (S n ∉ State.open_fds s')
        /\ (S (S n) ∉ State.open_fds s') /\ (S (S (S n)) ∉ State.open_fds s')
        /\ (t ∉ State.tmp_files s'))
  /\ (forall o s',
        BridgedInteractiveGrader.grade E case s = (o, s') ->
        exists acts,
          actions (State.trace s') = (actions (State.trace s) ++ acts)%list
          /\ forall t, In (EvMktemp t) acts -> t ∉ State.tmp_files s')
  /\ (forall o s',
        BridgedInteractiveGrader.grade E case s = (o, s') ->
      let n := State.next_fd s in
      let t := State.next_tmp s in
      exists a1 rest,
        LaunchArgs.stdin a1 = Fd (S (S n)) /\ LaunchArgs.stdout a1 = Fd (S n)
        /\ actions (State.trace s')
           = (actions (State.trace s)
              ++ [EvPipe n (S n); EvPipe (S (S n)) (S (S (S n)));
                  EvLaunch Submission a1] ++ rest)%list
        /\ ((exists e,
               Env.launch E (Grader.binary (State.self s)) a1 = Raise e
               /\ o = Raise e /\ rest = []
               /\ State.open_fds s'
                  = {[S (S n); S (S (S n))]} ∪ ({[n; S n]} ∪ State.open_fds s)
               /\ State.tmp_files s' = State.tmp_files s)
            \/ (exists beh rest',
                  Env.launch E (Grader.binary (State.self s)) a1 = Return beh
                  /\ rest = EvClose (S (S n)) :: EvClose (S n) :: rest'
                  /\ (S n ∉ State.open_fds s') /\ (S (S n) ∉ State.open_fds s')
                  /\ ((exists e,
                         o = Raise e
                         /\ (n ∈ State.open_fds s')
                         /\ (S (S (S n)) ∈ State.open_fds s')
                         /\ ((rest' = [] /\ State.tmp_files s' = State.tmp_files s)
                             \/ (State.tmp_files s'
                                 = ({[t]} ∪ State.tmp_files s) ∖ {[t]}
                                 /\ (rest' = [EvMktemp t; EvUnlink t]
                                     \/ exists a2 ib,
                                          Grader.interactor_binary (State.self s)
                                          = Some ib
                                          /\ Env.launch E ib a2 = Raise e
                                          /\ LaunchArgs.stdin a2 = Fd n
                                          /\ LaunchArgs.stdout a2 = Fd (S (S (S n)))
                                          /\ rest' = [EvMktemp t;
                                                      EvLaunch Interactor a2;
                                                      EvUnlink t]))))
                      \/ (exists a2 ib beh2 tail,
                            Grader.interactor_binary (State.self s) = Some ib
                            /\ Env.launch E ib a2 = Return beh2
                            /\ LaunchArgs.stdin a2 = Fd n
                            /\ LaunchArgs.stdout a2 = Fd (S (S (S n)))
                            /\ rest' = ([EvMktemp t; EvLaunch Interactor a2;
                                         EvClose n; EvClose (S (S (S n)));
                                         EvWait Submission; EvWait Interactor;
                                         EvUnlink t] ++ tail)%list
                            /\ (n ∉ State.open_fds s')
                            /\ (S (S (S n)) ∉ State.open_fds s')
                            /\ State.tmp_files s'
                               = ({[t]} ∪ State.tmp_files s) ∖ {[t]}
                            /\ ((exists e,
                                   o = Raise e
                                   /\ (tail = []
                                       \/ exists pa, tail = [EvParseReturnCode pa]))
                                \/ (exists r pa,
                                      o = Return r
                                      /\ tail = [EvParseReturnCode pa;
                                                 EvFreeData]))))))).
Proof.
  split; [|split].
  - intros r s' Hg n t.
    apply bridged_grade_Return_inv in Hg
      as (a1 & beh1 & a2 & beh2 & ib & pa & _ & _ & Hin1 & Hout1 & Hin2 & Hout2
          & _ & _ & _ & _ & Hfds & Htmp & Htrace).
    exists a1, a2, pa.
    split; [exact Hin1|]. split; [exact Hout1|].
    split; [exact Hin2|]. split; [exact Hout2|].
    split.
    + rewrite Htrace. unfold actions. rewrite map_app. reflexivity.
    + rewrite Hfds, Htmp. fold n t.
      rewrite !elem_of_difference, !elem_of_union, !elem_of_singleton.
      repeat split; intros H; decompose [and or] H; try congruence; lia.
  - intros o s' Hg. exact (bridged_grade_releases_tmp E case s o s' Hg).
  - intros o s' Hg. exact (bridged_grade_exits E case s o s' Hg).
Qed.

Lemma interactive_resources_released_witness :
  (3%nat ∉ State.open_fds
             (snd (BridgedInteractiveGrader.grade Scenario.env
                     Scenario.case_true Scenario.interactive_state)))
  /\ (0%nat ∉ State.tmp_files
               (snd (BridgedInteractiveGrader.grade Scenario.env
                       Scenario.case_true Scenario.interactive_state)))
  /\ (4%nat ∉ State.open_fds
               (snd (BridgedInteractiveGrader.grade Scenario.env_no_interactor
                       Scenario.case_true Scenario.interactive_state))).
Proof.
  split; [|split].
  - destruct (interactive_resources_released Scenario.env Scenario.case_true
                Scenario.interactive_state) as [Hreturn _].
    destruct (Hreturn (Result.mk 0 100 (Some "") (Some "") [] (1 # 2))
                (snd (BridgedInteractiveGrader.grade Scenario.env
                        Scenario.case_true Scenario.interactive_state)))
      as (a1 & a2 & pa & _ & _ & _ & _ & _ & Hfd & _).
    + vm_compute. reflexivity.
    + exact Hfd.
  - destruct (interactive_resources_released Scenario.env Scenario.case_true
                Scenario.interactive_state) as [Hreturn _].
    destruct (Hreturn (Result.mk 0 100 (Some "") (Some "") [] (1 # 2))
                (snd (BridgedInteractiveGrader.grade Scenario.env
                        Scenario.case_true Scenario.interactive_state)))
      as (a1 & a2 & pa & _ & _ & _ & _ & _ & _ & _ & _ & _ & Htmp).
    + vm_compute. reflexivity.
    + exact Htmp.
  - destruct (interactive_resources_released Scenario.env_no_interactor
                Scenario.case_true Scenario.interactive_state)
      as (_ & _ & Hexits).
    destruct (Hexits (Raise (RuntimeError "failed to spawn"))
                (snd (BridgedInteractiveGrader.grade Scenario.env_no_interactor
                        Scenario.case_true Scenario.interactive_state)))
      as (a1 & rest & _ & _ & _ & [(e & Hl & _)|(beh & rest' & _ & _ & Hfd & _)]).
    + vm_compute. reflexivity.
    + vm_compute in Hl. discriminate Hl.
    + exact Hfd.
Defined.

(** C9, as stated, fails: when the sandbox refuses to start the
    interactor, [grade] raises while the two pipe ends meant for the
    interactor (descriptors 3 and 6 here) are still open. *)
Lemma pipes_left_open_when_interactor_fails :
  fst (BridgedInteractiveGrader.grade Scenario.env_no_interactor
         Scenario.case_true Scenario.interactive_state)
  = Raise (RuntimeError "failed to spawn")
  /\ nth_error
       (actions (State.trace
                   (snd (BridgedInteractiveGrader.grade Scenario.env_no_interactor
                           Scenario.case_true Scenario.interactive_state)))) 0
     = Some (EvPipe 3%nat 4%nat)
  /\ nth_error
       (actions (State.trace
                   (snd (BridgedInteractiveGrader.grade Scenario.env_no_interactor
                           Scenario.case_true Scenario.interactive_state)))) 1
     = Some (EvPipe 5%nat 6%nat)
  /\ (3%nat ∈ State.open_fds
               (snd (BridgedInteractiveGrader.grade Scenario.env_no_interactor
                       Scenario.case_true Scenario.interactive_state)))
  /\ (6%nat ∈ State.open_fds
               (snd (BridgedInteractiveGrader.grade Scenario.env_no_interactor
                       Scenario.case_true Scenario.interactive_state))).
Proof.
  split; [vm_compute; reflexivity|].
  split; [vm_compute; reflexivity|].
  split; [vm_compute; reflexivity|].
  split; (apply (bool_decide_unpack _); vm_compute; exact I).
Qed.

(** * Further properties of the two graders *)

(** ** Launching the submission ([StandardGrader._launch_process]) *)

Section StandardLaunch.
Context (E : Env.t) (case : TestCase.t).

Let limit := CaseConfig.output_limit_length (TestCase.config case).

(** Every way [_launch_process] can end: exactly one call of [launch], on
    the executor the grader holds afterwards, decides it. *)
Lemma std_launch_process_cases f s o s1 :
  StandardGrader._launch_process E case f s = (o, s1) ->
  exists a,
    o = match Env.launch E (Grader.binary (State.self s1)) a with
        | Return _ => Return tt
        | Raise e => Raise e
        end
    /\ actions (State.trace s1)
       = (actions (State.trace s) ++ [EvLaunch Submission a])%list
    /\ a = LaunchArgs.mk []
             (Problem.time_limit (Grader.problem (State.self s)))
             (Problem.memory_limit (Grader.problem (State.self s)))
             (CaseConfig.symlinks (TestCase.config case))
             (match f with Some i => InputFile i | None => PIPE end)
             (if Grader.memfd_output (State.self s) then MemIO else PIPE)
             (if Grader.memfd_output (State.self s) then MemIO else PIPE)
             (Some (CaseConfig.wall_time_factor (TestCase.config case)
                    * Problem.time_limit (Grader.problem (State.self s)))%Q)
             []
    /\ Grader._orig_fsize (State.self s1) = Grader._orig_fsize (State.self s)
    /\ Grader.binary (State.self s1)
       = (if Grader.memfd_output (State.self s)
          then Executor.set_fsize (Grader.binary (State.self s))
                 (Z.max (Z.max (Grader._orig_fsize (State.self s)) (limit + 1024))
                    1048576)
          else Grader.binary (State.self s))
    /\ (forall e, o = Raise e ->
          Grader._current_proc (State.self s1)
          = Grader._current_proc (State.self s)).
Proof.
  destruct s as [clk fds nfd tmp ntmp tr g].
  unfold StandardGrader._launch_process, launch. unfold_monad. cbn.
  destruct (Grader.memfd_output g) eqn:Hm; cbn; rewrite ?Hm;
    destruct_launch Hl; cbn; intros Hs; injection Hs as <- <-; cbn;
    eexists; rewrite ?Hl;
    (split; [reflexivity|]);
    (split; [unfold actions; rewrite map_app; reflexivity|]);
    (split; [reflexivity|]); (split; [reflexivity|]); (split; [reflexivity|]);
    intros e' He'; try discriminate; reflexivity.
Qed.
End StandardLaunch.

(** X1: on the memory-backed path [_launch_process] sets the executor's
    file-size limit to the largest of its original limit, the output
    limit plus 1024 and 1 MiB, whether the launch then succeeds or not.
    The limit therefore lies above the output limit (a breach can be
    captured and detected), and since it is computed from [_orig_fsize],
    which is left alone, it does not grow from one case to the next. *)
Theorem memfd_file_size_limit (E : Env.t) (case : TestCase.t)
    (f : option string) (s s1 : State.t) (o : Outcome unit) :
  Grader.memfd_output (State.self s) = true ->
  StandardGrader._launch_process E case f s = (o, s1) ->
  let limit := CaseConfig.output_limit_length (TestCase.config case) in
  let fsize := Executor.fsize (Grader.binary (State.self s1)) in
  fsize = Z.max (Z.max (Grader._orig_fsize (State.self s)) (limit + 1024)) 1048576
  /\ limit + 1024 <= fsize
  /\ 1048576 <= fsize
  /\ Grader._orig_fsize (State.self s) <= fsize
  /\ Grader._orig_fsize (State.self s1) = Grader._orig_fsize (State.self s)
  /\ Executor.name (Grader.binary (State.self s1))
     = Executor.name (Grader.binary (State.self s)).
Proof.
  intros Hm Hl limit fsize.
  apply std_launch_process_cases in Hl as (a & _ & _ & _ & Horig & Hbin & _).
  rewrite Hm in Hbin. subst fsize. rewrite Hbin. cbn. fold limit.
  repeat split; lia.
Qed.

Lemma memfd_file_size_limit_witness :
  Executor.fsize
    (Grader.binary
       (State.self
          (snd (StandardGrader._launch_process Scenario.env Scenario.case_true
                  None Scenario.large_fsize_state))))
  = 4194304.
Proof.
  destruct (memfd_file_size_limit Scenario.env Scenario.case_true None
              Scenario.large_fsize_state
              (snd (StandardGrader._launch_process Scenario.env Scenario.case_true
                      None Scenario.large_fsize_state))
              (Return tt)) as (Hfsize & _).
  - reflexivity.
  - vm_compute. reflexivity.
  - rewrite Hfsize. vm_compute. reflexivity.
Defined.

(** ** Every way the standard [grade] can end *)

Section StandardGrade.
Context (E : Env.t) (case : TestCase.t).

Let limit := CaseConfig.output_limit_length (TestCase.config case).

(** Once the submission is launched, capturing its output returns. *)
Lemma std_capture_after_launch f s u s1 result :
  StandardGrader._launch_process E case f s = (Return u, s1) ->
  exists captured s2 p cap,
    StandardGrader._interact_with_process E case result s1 = (Return captured, s2)
    /\ Grader._current_proc (State.self s2) = Some p
    /\ actions (State.trace s2) = (actions (State.trace s1) ++ cap)%list
    /\ is_capture limit cap.
Proof.
  intros H1. destruct u.
  apply std_launch_process_post in H1 as (beh & a & Hp & Hm & Hio & _).
  destruct (Grader.memfd_output (State.self s)) eqn:Hmemfd.
  - destruct (Hio eq_refl) as [Hout Herr].
    destruct (std_interact_memfd E case result s1 _ _ _ Hm Hp Hout Herr)
      as (s2 & H2 & Hp2 & Htr).
    eexists. exists s2. eexists. eexists.
    split; [exact H2|]. split; [exact Hp2|]. split; [exact Htr|].
    unfold is_capture. destruct (_ <? _); tauto.
  - destruct (std_interact_pipe E case result s1 _ Hm Hp)
      as (s2 & p' & H2 & Hp2 & _ & _ & Htr).
    eexists. exists s2, p'. eexists.
    split; [exact H2|]. split; [exact Hp2|]. split; [exact Htr|].
    unfold is_capture. fold limit. destruct (_ || _); tauto.
Qed.

(** The standard [check_result], whichever branch it takes. *)
Lemma std_check_result_cases result s o s' :
  StandardGrader.check_result case result s = (o, s') ->
  (o = Return (CBool false) /\ s' = s
   /\ Result.result_flag result <> 0
   /\ StandardGrader.getattr_run_on_error (TestCase.checker case) = false)
  \/ (exists ca,
        ca = StandardGrader.checker_args (State.self s) case result
        /\ s' = State.record s (EvChecker ca)
        /\ ((exists c, o = Return c)
            \/ (exists e, o = Raise e
                          /\ Checker.call (TestCase.checker case) ca = Raise e
                          /\ StandardGrader.is_UnicodeDecodeError e = false))).
Proof.
  intros Hc.
  destruct (Z.eq_dec (Result.result_flag result) 0) as [Hz|Hnz];
    [|destruct (StandardGrader.getattr_run_on_error (TestCase.checker case))
        eqn:Hroe].
  1, 2: right;
    (rewrite check_result_invoked in Hc by (first [left; exact Hz|right; exact Hroe]));
    injection Hc as <- <-; eexists; split; [reflexivity|]; split; [reflexivity|];
    destruct (Checker.call _ _) as [c|e] eqn:Hcall; [left; eauto|];
    destruct (StandardGrader.is_UnicodeDecodeError e) eqn:Hu;
      [left; eauto|right; eauto].
  left. rewrite (check_result_skipped case result s Hnz Hroe) in Hc.
  injection Hc as <- <-. tauto.
Qed.

(** The standard [grade] ends in one of four ways: the sandbox refuses
    the launch; the checker is skipped; the checker is called and
    answers; the checker is called and raises. *)
Lemma std_grade_cases s o s' :
  StandardGrader.grade E (H := StandardGrader.methods E) case s = (o, s') ->
  exists a tail,
    actions (State.trace s')
    = (actions (State.trace s) ++ EvLaunch Submission a :: tail)%list
    /\ ((tail = [] /\ exists e, o = Raise e)
        \/ exists cap,
             is_capture limit cap
             /\ ((exists r, o = Return r
                            /\ (tail = (cap ++ [EvFreeData])%list
                                \/ exists ca,
                                     tail = (cap ++ [EvChecker ca; EvFreeData])%list))
                 \/ (exists e ca,
                       o = Raise e
                       /\ tail = (cap ++ [EvChecker ca])%list
                       /\ Checker.call (TestCase.checker case) ca = Raise e
                       /\ StandardGrader.is_UnicodeDecodeError e = false))).
Proof.
  unfold StandardGrader.grade.
  cbn [m_launch_process m_interact_with_process m_check_result
         StandardGrader.methods].
  intros Hg.
  apply bind_inv in Hg as [(u & s1 & H1 & Hg)|(e & H1 & ->)].
  - pose proof H1 as H1'.
    apply std_launch_process_cases in H1' as (a & _ & Htr1 & _).
    destruct (std_capture_after_launch _ _ _ _ (Result_new case) H1)
      as (captured & s2 & p & cap & H2 & Hp & Htr2 & Hcap).
    apply bind_inv in Hg as [(er & s2' & H2' & Hg)|(e & H2' & _)];
      rewrite H2 in H2'; [|discriminate].
    injection H2' as <- <-.
    apply bind_inv in Hg as [(g & s2' & Hself & Hg)|(e & Hself & _)];
      [|discriminate].
    apply get_self_inv in Hself as [[= ->] ->].
    rewrite Hp in Hg.
    apply bind_inv in Hg as [(p' & s2' & Hassert & Hg)|(e & Hassert & _)];
      [|discriminate].
    injection Hassert as <- <-.
    exists a.
    apply bind_inv in Hg as [(check & s3 & Hc & Hg)|(e & Hc & ->)].
    + apply bind_inv in Hg as [(v & s4 & Hemit & Hg)|(e & Hemit & _)];
        [|discriminate].
      apply emit_inv in Hemit as [_ ->]. apply ret_inv in Hg as [-> ->].
      apply std_check_result_cases in Hc
        as [(_ & -> & _ & _)|(ca & _ & -> & _)].
      * exists (cap ++ [EvFreeData])%list. split.
        -- rewrite !actions_record, Htr2, Htr1, <- !app_assoc. reflexivity.
        -- right. exists cap. split; [exact Hcap|]. left. eauto.
      * exists (cap ++ [EvChecker ca; EvFreeData])%list. split.
        -- rewrite !actions_record, Htr2, Htr1, <- !app_assoc. reflexivity.
        -- right. exists cap. split; [exact Hcap|]. left. eauto.
    + apply std_check_result_cases in Hc
        as [([=] & _)|(ca & _ & -> & [(c & [=])|(e' & [= ->] & Hcall & Hu)])].
      exists (cap ++ [EvChecker ca])%list. split.
      * rewrite !actions_record, Htr2, Htr1, <- !app_assoc. reflexivity.
      * right. exists cap. split; [exact Hcap|]. right.
        exists e', ca. repeat split; assumption.
  - apply std_launch_process_cases in H1 as (a & _ & Htr1 & _).
    exists a, []. split; [exact Htr1|]. left. split; [reflexivity|]. eauto.
Qed.
End StandardGrade.

(** X2: when the sandbox refuses to start the submission, the standard
    [grade] raises the sandbox's error; the refused [launch] is the only
    thing it has done (no wait, no checker call, no [free_data]) and
    [_current_proc] is left as it was. *)
Theorem launch_refusal_ends_grading (E : Env.t) (case : TestCase.t)
    (e : PyExc) (s s' : State.t) (o : Outcome Result.t) :
  (forall exe a, Env.launch E exe a = Raise e) ->
  StandardGrader.grade E (H := StandardGrader.methods E) case s = (o, s') ->
  o = Raise e
  /\ (exists a,
        actions (State.trace s')
        = (actions (State.trace s) ++ [EvLaunch Submission a])%list)
  /\ Grader._current_proc (State.self s') = Grader._current_proc (State.self s).
Proof.
  intros Hrefuse Hg. unfold StandardGrader.grade in Hg.
  cbn [m_launch_process StandardGrader.methods] in Hg.
  apply bind_inv in Hg as [(u & s1 & H1 & _)|(e' & H1 & ->)];
    apply std_launch_process_cases in H1
      as (a & Ho & Htr & _ & _ & _ & Hproc);
    rewrite Hrefuse in Ho; [discriminate|].
  injection Ho as ->. split; [reflexivity|]. split; [eauto|].
  now apply (Hproc e).
Qed.

Lemma launch_refusal_ends_grading_witness :
  fst (StandardGrader.grade Scenario.env_refusing
         (H := StandardGrader.methods Scenario.env_refusing)
         Scenario.case_true Scenario.standard_state)
  = Raise (RuntimeError "failed to spawn").
Proof.
  destruct (launch_refusal_ends_grading Scenario.env_refusing Scenario.case_true
              (RuntimeError "failed to spawn") Scenario.standard_state
              (snd (StandardGrader.grade Scenario.env_refusing
                      (H := StandardGrader.methods Scenario.env_refusing)
                      Scenario.case_true Scenario.standard_state))
              (fst (StandardGrader.grade Scenario.env_refusing
                      (H := StandardGrader.methods Scenario.env_refusing)
                      Scenario.case_true Scenario.standard_state)))
    as (Ho & _).
  - reflexivity.
  - now destruct (StandardGrader.grade _ _ _).
  - exact Ho.
Defined.

(** X3: a standard [grade] that returns has done, in this order:
    launched the submission once, captured its output (which always
    includes waiting for the process), called the checker at most once,
    and released the case data last.  So the checker never runs before
    the process has been waited for. *)
Theorem standard_grade_action_sequence (E : Env.t) (case : TestCase.t)
    (s s' : State.t) (r : Result.t) :
  StandardGrader.grade E (H := StandardGrader.methods E) case s = (Return r, s') ->
  exists a cap chk,
    actions (State.trace s')
    = (actions (State.trace s)
       ++ EvLaunch Submission a :: cap ++ chk ++ [EvFreeData])%list
    /\ is_capture (CaseConfig.output_limit_length (TestCase.config case)) cap
    /\ In (EvWait Submission) cap
    /\ (forall ca, ~ In (EvChecker ca) cap)
    /\ (chk = [] \/ exists ca, chk = [EvChecker ca]).
Proof.
  intros Hg.
  apply std_grade_cases in Hg
    as (a & tail & Htr & [(_ & e & He)|(cap & Hcap & Hcases)]);
    [discriminate|].
  destruct Hcases as [(r' & _ & Htail)|(e & ca & He & _)]; [|discriminate].
  assert (Hwait : In (EvWait Submission) cap /\ forall ca, ~ In (EvChecker ca) cap).
  { destruct Hcap as [ -> | [ -> | [ -> | -> ] ] ]; cbn; split; try tauto;
      intros ca Hin; decompose [or] Hin; discriminate || contradiction. }
  destruct Hwait as [Hwait Hnochecker].
  destruct Htail as [->|(ca & ->)].
  - exists a, cap, []. repeat split; try assumption. now left.
  - exists a, cap, [EvChecker ca]. repeat split; try assumption. right; eauto.
Qed.

Lemma standard_grade_action_sequence_witness :
  exists a cap chk,
    actions (State.trace
               (snd (StandardGrader.grade Scenario.env
                       (H := StandardGrader.methods Scenario.env)
                       Scenario.case_true Scenario.standard_state)))
    = (actions (State.trace Scenario.standard_state)
       ++ EvLaunch Submission a :: cap ++ chk ++ [EvFreeData])%list
    /\ is_capture
         (CaseConfig.output_limit_length (TestCase.config Scenario.case_true)) cap
    /\ In (EvWait Submission) cap
    /\ (forall ca, ~ In (EvChecker ca) cap)
    /\ (chk = [] \/ exists ca, chk = [EvChecker ca]).
Proof.
  apply (standard_grade_action_sequence Scenario.env Scenario.case_true
           Scenario.standard_state _
           (Result.mk 0 100 (Some "") (Some "") (repeat Byte.x61 5) (1 # 2))).
  vm_compute. reflexivity.
Defined.

(** X4: the standard [grade] calls [case.free_data()] exactly when it
    returns, and then as its last action; on every path that raises (a
    refused launch, a checker that crashes) the case data is not
    released. *)
Theorem free_data_only_when_grade_returns (E : Env.t) (case : TestCase.t)
    (s s' : State.t) (o : Outcome Result.t) :
  StandardGrader.grade E (H := StandardGrader.methods E) case s = (o, s') ->
  exists acts,
    actions (State.trace s') = (actions (State.trace s) ++ acts)%list
    /\ ((exists r init,
           o = Return r /\ acts = (init ++ [EvFreeData])%list
           /\ ~ In EvFreeData init)
        \/ (exists e, o = Raise e /\ ~ In EvFreeData acts)).
Proof.
  intros Hg.
  apply std_grade_cases in Hg
    as (a & tail & Htr & [(-> & e & ->)|(cap & Hcap & Hcases)]).
  - eexists. split; [exact Htr|]. right. exists e. split; [reflexivity|].
    cbn. intros [Hin|[]]. discriminate.
  - assert (Hnofree : ~ In EvFreeData cap).
    { destruct Hcap as [ -> | [ -> | [ -> | -> ] ] ]; cbn;
        intros Hin; decompose [or] Hin; discriminate || contradiction. }
    eexists. split; [exact Htr|].
    destruct Hcases as [(r & -> & [->|(ca & ->)])|(e & ca & -> & -> & _)].
    + left. exists r, (EvLaunch Submission a :: cap). repeat split.
      cbn. intros [Hin|Hin]; [discriminate|contradiction].
    + left. exists r, (EvLaunch Submission a :: cap ++ [EvChecker ca])%list.
      split; [reflexivity|]. split.
      * cbn. now rewrite <- app_assoc.
      * cbn. rewrite in_app_iff. cbn.
        intros Hin; decompose [or] Hin; discriminate || contradiction.
    + right. exists e. split; [reflexivity|].
      cbn. rewrite in_app_iff. cbn.
      intros Hin; decompose [or] Hin; discriminate || contradiction.
Qed.

Lemma free_data_only_when_grade_returns_witness :
  exists acts,
    actions (State.trace
               (snd (StandardGrader.grade Scenario.env
                       (H := StandardGrader.methods Scenario.env)
                       Scenario.case_crashing_checker Scenario.standard_state)))
    = (actions (State.trace Scenario.standard_state) ++ acts)%list
    /\ ((exists r init,
           fst (StandardGrader.grade Scenario.env
                  (H := StandardGrader.methods Scenario.env)
                  Scenario.case_crashing_checker Scenario.standard_state)
           = Return r
           /\ acts = (init ++ [EvFreeData])%list /\ ~ In EvFreeData init)
        \/ (exists e,
              fst (StandardGrader.grade Scenario.env
                     (H := StandardGrader.methods Scenario.env)
                     Scenario.case_crashing_checker Scenario.standard_state)
              = Raise e
              /\ ~ In EvFreeData acts)).
Proof.
  apply (free_data_only_when_grade_returns Scenario.env
           Scenario.case_crashing_checker Scenario.standard_state).
  now destruct (StandardGrader.grade _ _ _).
Defined.

(** X5: an exception of the checker other than [UnicodeDecodeError] is
    not caught: [check_result] raises it, and so does [grade], right
    after the checker call and without releasing the case data. *)
Theorem checker_crash_propagates (E : Env.t) (case : TestCase.t)
    (s s1 s2 : State.t) (error : bytes) (result0 : Result.t)
    (process : TracedPopen.t) (e : PyExc) :
  let result := StandardGrader.populate_result E error result0 process in
  let a := StandardGrader.checker_args (State.self s2) case result in
  StandardGrader._launch_process E case (Some (TestCase.input_path case)) s
  = (Return tt, s1) ->
  StandardGrader._interact_with_process E case (Result_new case) s1
  = (Return (error, result0), s2) ->
  Grader._current_proc (State.self s2) = Some process ->
  Result.result_flag result = 0
  \/ StandardGrader.getattr_run_on_error (TestCase.checker case) = true ->
  Checker.call (TestCase.checker case) a = Raise e ->
  StandardGrader.is_UnicodeDecodeError e = false ->
  StandardGrader.check_result case result s2
  = (Raise e, State.record s2 (EvChecker a))
  /\ StandardGrader.grade E (H := StandardGrader.methods E) case s
     = (Raise e, State.record s2 (EvChecker a)).
Proof.
  intros result a H1 H2 H3 Hopen Hraise Hnot.
  assert (Hcheck : StandardGrader.check_result case result s2
                   = (Raise e, State.record s2 (EvChecker a))).
  { rewrite (check_result_invoked case result s2 Hopen).
    fold a. rewrite Hraise, Hnot. reflexivity. }
  split; [exact Hcheck|].
  unfold StandardGrader.grade.
  cbn [m_launch_process m_interact_with_process m_check_result
         StandardGrader.methods].
  rewrite (bind_run _ _ _ _ _ H1), (bind_run _ _ _ _ _ H2). cbn [fst snd].
  unfold get_self at 1. unfold mbind at 1, M_bind at 1, bind at 1.
  rewrite H3. cbn [assert_some].
  unfold mbind at 1, M_bind at 1, bind at 1, ret at 1.
  unfold mbind at 1, M_bind at 1, bind at 1.
  fold result. rewrite Hcheck. reflexivity.
Qed.

Lemma checker_crash_propagates_witness :
  fst (StandardGrader.grade Scenario.env
         (H := StandardGrader.methods Scenario.env)
         Scenario.case_crashing_checker Scenario.standard_state)
  = Raise (RuntimeError "checker crashed").
Proof.
  pose proof
    (checker_crash_propagates Scenario.env Scenario.case_crashing_checker
       Scenario.standard_state
       (snd (StandardGrader._launch_process Scenario.env
               Scenario.case_crashing_checker
               (Some (TestCase.input_path Scenario.case_crashing_checker))
               Scenario.standard_state))
       (snd (StandardGrader._interact_with_process Scenario.env
               Scenario.case_crashing_checker
               (Result_new Scenario.case_crashing_checker)
               (snd (StandardGrader._launch_process Scenario.env
                       Scenario.case_crashing_checker
                       (Some (TestCase.input_path Scenario.case_crashing_checker))
                       Scenario.standard_state))))
       []
       (Result.mk 0 0 (Some "") (Some "") (repeat Byte.x61 5) 0)
       (TracedPopen.mk Submission 4 (Behaviour.mk 3 (repeat Byte.x61 5) [] 0 (1 # 2))
          false false)
       (RuntimeError "checker crashed")) as Hthm.
  cbv zeta in Hthm.
  destruct Hthm as (_ & Hgrade).
  - vm_compute. reflexivity.
  - vm_compute. reflexivity.
  - vm_compute. reflexivity.
  - left. vm_compute. reflexivity.
  - vm_compute. reflexivity.
  - reflexivity.
  - rewrite Hgrade. reflexivity.
Defined.

(** X6: on the memory-backed path, when [_interact_with_process]
    returns, both memory files are closed; the captured output is what
    the standard-output file held and the returned error text is what
    the standard-error file held. *)
Theorem memory_files_closed_after_capture (E : Env.t) (case : TestCase.t)
    (result : Result.t) (s : State.t) (p : TracedPopen.t)
    (out_io err_io : MemoryIO.t) :
  Grader.memfd_output (State.self s) = true ->
  Grader._current_proc (State.self s) = Some p ->
  Grader._stdout_io (State.self s) = Some out_io ->
  Grader._stderr_io (State.self s) = Some err_io ->
  exists s',
    StandardGrader._interact_with_process E case result s
    = (Return (MemoryIO.content err_io,
               Result.set_proc_output result (MemoryIO.content out_io)), s')
    /\ Grader._stdout_io (State.self s')
       = Some (MemoryIO.mk (MemoryIO.content out_io) true)
    /\ Grader._stderr_io (State.self s')
       = Some (MemoryIO.mk (MemoryIO.content err_io) true).
Proof.
  intros Hm Hp Hout Herr.
  destruct s as [clk fds nfd tmp ntmp tr g]. cbn [State.self State.trace] in *.
  unfold StandardGrader._interact_with_process, proc_wait, proc_mark_ole.
  unfold_monad. cbn. rewrite Hp, Hm. cbn. rewrite Hp. cbn.
  rewrite Hout. cbn.
  destruct (_ <? _); cbn; rewrite ?Hp; cbn; rewrite ?Herr; cbn;
    eexists; (split; [reflexivity|]); cbn; split; reflexivity.
Qed.

Lemma memory_files_closed_after_capture_witness :
  exists s',
    StandardGrader._interact_with_process Scenario.env Scenario.case_true
      (Result_new Scenario.case_true)
      (snd (StandardGrader._launch_process Scenario.env Scenario.case_true
              None Scenario.standard_state))
    = (Return ([], Result.set_proc_output (Result_new Scenario.case_true)
                     (repeat Byte.x61 5)), s')
    /\ Grader._stdout_io (State.self s')
       = Some (MemoryIO.mk (repeat Byte.x61 5) true)
    /\ Grader._stderr_io (State.self s') = Some (MemoryIO.mk [] true).
Proof.
  apply (memory_files_closed_after_capture Scenario.env Scenario.case_true
           (Result_new Scenario.case_true)
           (snd (StandardGrader._launch_process Scenario.env Scenario.case_true
                   None Scenario.standard_state))
           (TracedPopen.mk Submission 4
              (Behaviour.mk 3 (repeat Byte.x61 5) [] 0 (1 # 2)) false false)
           (MemoryIO.mk (repeat Byte.x61 5) false) (MemoryIO.mk [] false));
    vm_compute; reflexivity.
Defined.

(** X7: whichever grader runs, the merge at the end of [grade] only adds
    to the flags: every flag that was set in the result the checker step
    received is still set in the result [grade] returns, and the captured
    output and the execution time are passed on unchanged. *)
Theorem grade_keeps_flags (E : Env.t) (H : GraderMethods) (case : TestCase.t)
    (s s' : State.t) (r : Result.t) :
  StandardGrader.grade E case s = (Return r, s') ->
  exists result s2 check s3,
    m_check_result case result s2 = (Return check, s3)
    /\ (forall flag,
          flag_set flag (Result.result_flag result) ->
          flag_set flag (Result.result_flag r))
    /\ Result.proc_output r = Result.proc_output result
    /\ Result.execution_time r = Result.execution_time result.
Proof.
  intros Hg.
  apply grade_inv in Hg
    as (s1 & s2 & s3 & error & result0 & process & check & _ & _ & _ & Hc & -> & _).
  exists (StandardGrader.populate_result E error result0 process), s2, check, s3.
  split; [exact Hc|]. split; [|split; reflexivity].
  intros flag Hset. cbn [StandardGrader.merge Result.result_flag].
  now apply flag_set_lor_l.
Qed.

Lemma grade_keeps_flags_witness :
  exists result s2 check s3,
    StandardGrader.check_result Scenario.case_run_on_error result s2
    = (Return check, s3)
    /\ (forall flag,
          flag_set flag (Result.result_flag result) -> flag_set flag 4)
    /\ [] = Result.proc_output result
    /\ 2%Q = Result.execution_time result.
Proof.
  apply (grade_keeps_flags Scenario.env_tle
           (StandardGrader.methods Scenario.env_tle) Scenario.case_run_on_error
           Scenario.standard_state
           (snd (StandardGrader.grade Scenario.env_tle
                   (H := StandardGrader.methods Scenario.env_tle)
                   Scenario.case_run_on_error Scenario.standard_state))
           (Result.mk 4 100 (Some "") (Some "") [] 2)).
  vm_compute. reflexivity.
Defined.

(** ** The verdict of the interactive grader *)

Section BridgedVerdict.
Context (E : Env.t) (case : TestCase.t).

(** [check_result] of the interactive grader, run forward. *)
Lemma bridged_check_result_run result s inter cm ib :
  Grader._interactor (State.self s) = Some inter ->
  Env.contrib_modules E !! Grader.contrib_type (State.self s) = Some cm ->
  Grader.interactor_binary (State.self s) = Some ib ->
  let stderr := proc_stderr_read inter in
  let a := ParseArgs.mk inter ib (TestCase.points case)
             (Grader._interactor_time_limit (State.self s))
             (Grader._interactor_memory_limit (State.self s))
             (if HandlerData.feedback (Grader.handler_data (State.self s))
              then Env.utf8text E stderr else "")
             "interactor" stderr in
  BridgedInteractiveGrader.check_result E case result s
  = (match ContribModule.parse_return_code cm a with
     | Return parsed =>
         Return (if Result.result_flag result =? 0 then parsed else CBool false)
     | Raise e => Raise e
     end,
     State.record s (EvParseReturnCode a)).
Proof.
  intros Hinter Hcm Hib stderr a.
  unfold BridgedInteractiveGrader.check_result,
    BridgedInteractiveGrader.contrib_module.
  unfold_monad. rewrite Hinter, Hcm, Hib. unfold ret. cbv beta iota.
  fold stderr. fold a.
  destruct (ContribModule.parse_return_code cm a); reflexivity.
Qed.
End BridgedVerdict.

(** X8: the interactive [check_result] consults the adapter before it
    looks at the submission's flags: [parse_return_code] is called once,
    with the interactor process, the interactor binary, the case's
    points, the time and memory limits stored for the interactor, the
    name ["interactor"], the interactor's standard error, and as
    feedback that standard error decoded when the problem enables
    feedback and the empty string when it does not; this happens whether
    or not the submission already failed.  When the adapter raises, so
    does [check_result], even for a submission that already failed;
    when it returns, [check_result] returns its result for a clear flag
    and [False] otherwise. *)
Theorem adapter_consulted_before_flags (E : Env.t) (case : TestCase.t)
    (result : Result.t) (s : State.t) (inter : TracedPopen.t)
    (cm : ContribModule.t) (ib : Executor.t) :
  Grader._interactor (State.self s) = Some inter ->
  Env.contrib_modules E !! Grader.contrib_type (State.self s) = Some cm ->
  Grader.interactor_binary (State.self s) = Some ib ->
  exists a o,
    BridgedInteractiveGrader.check_result E case result s
    = (o, State.record s (EvParseReturnCode a))
    /\ ParseArgs.proc a = inter /\ ParseArgs.executor a = ib
    /\ ParseArgs.point_value a = TestCase.points case
    /\ ParseArgs.time_limit a = Grader._interactor_time_limit (State.self s)
    /\ ParseArgs.memory_limit a = Grader._interactor_memory_limit (State.self s)
    /\ ParseArgs.name a = "interactor"
    /\ ParseArgs.stderr a = proc_stderr_read inter
    /\ (HandlerData.feedback (Grader.handler_data (State.self s)) = true ->
        ParseArgs.feedback a = Env.utf8text E (proc_stderr_read inter))
    /\ (HandlerData.feedback (Grader.handler_data (State.self s)) = false ->
        ParseArgs.feedback a = "")
    /\ (forall e, ContribModule.parse_return_code cm a = Raise e -> o = Raise e)
    /\ (forall parsed,
          ContribModule.parse_return_code cm a = Return parsed ->
          o = Return (if Result.result_flag result =? 0
                      then parsed else CBool false)).
Proof.
  intros Hinter Hcm Hib.
  pose proof (bridged_check_result_run E case result s inter cm ib Hinter Hcm Hib)
    as Hrun.
  cbv zeta in Hrun.
  eexists. eexists. split; [exact Hrun|]. cbn.
  repeat split.
  - now intros ->.
  - now intros ->.
  - now intros e ->.
  - now intros parsed ->.
Qed.

Lemma adapter_consulted_before_flags_witness :
  fst (BridgedInteractiveGrader.check_result Scenario.env_crashing_adapter
         Scenario.case_true Scenario.failed_result Scenario.after_interaction)
  = Raise (InternalError "interactor crashed" None).
Proof.
  destruct (adapter_consulted_before_flags Scenario.env_crashing_adapter
              Scenario.case_true Scenario.failed_result
              Scenario.after_interaction
              (TracedPopen.mk Interactor 12 (Behaviour.mk 5 [] [] 0 0) false false)
              Scenario.crashing_contrib (Executor.mk "interactor" 0))
    as (a & o & Hrun & _ & _ & _ & _ & _ & _ & _ & _ & _ & Hraise & _).
  - reflexivity.
  - vm_compute. reflexivity.
  - reflexivity.
  - rewrite Hrun. cbn [fst].
    apply (Hraise (InternalError "interactor crashed" None)). reflexivity.
Defined.

(** X9: in the interactive grader a submission that already failed
    scores 0 whatever the adapter reports: when the result that [grade]
    hands to the verdict step (the populated result of the launched and
    waited-for submission) carries a flag and [grade] returns, the
    verdict step yielded [False], and the returned result is the
    populated one with 0 points and [WA] ORed in; it keeps the populated
    result's own feedback and extended feedback, the adapter's being
    dropped. *)
Theorem failed_submission_scores_zero (E : Env.t) (case : TestCase.t)
    (s s1 s2 s' : State.t) (error : bytes) (result0 r : Result.t)
    (process : TracedPopen.t) :
  let result := StandardGrader.populate_result E error result0 process in
  BridgedInteractiveGrader._launch_process E case
    (Some (TestCase.input_path case)) s = (Return tt, s1) ->
  BridgedInteractiveGrader._interact_with_process E case (Result_new case) s1
  = (Return (error, result0), s2) ->
  Grader._current_proc (State.self s2) = Some process ->
  Result.result_flag result <> 0 ->
  BridgedInteractiveGrader.grade E case s = (Return r, s') ->
  (exists a,
     BridgedInteractiveGrader.check_result E case result s2
     = (Return (CBool false), State.record s2 (EvParseReturnCode a))
     /\ s' = State.record (State.record s2 (EvParseReturnCode a)) EvFreeData)
  /\ r = StandardGrader.merge E result (CheckerResult.mk false 0 None None)
  /\ Result.points r = 0%Q
  /\ Result.result_flag r = Z.lor (Result.result_flag result) (Env.WA E)
  /\ Result.feedback r = Result.feedback result
  /\ Result.extended_feedback r = Result.extended_feedback result
  /\ Result.proc_output r = Result.proc_output result.
Proof.
  intros result H1 H2 H3 Hfailed Hg.
  unfold BridgedInteractiveGrader.grade in Hg.
  apply grade_inv in Hg
    as (s1' & s2' & s3 & error' & result0' & process' & check
        & H1' & H2' & H3' & Hc & -> & ->).
  cbn [m_launch_process m_interact_with_process m_check_result
         BridgedInteractiveGrader.methods] in *.
  rewrite H1 in H1'. injection H1' as <-.
  rewrite H2 in H2'. injection H2' as <- <- <-.
  rewrite H3 in H3'. injection H3' as <-.
  fold result in Hc |- *.
  pose proof Hc as Hc'.
  apply bridged_check_result_inv in Hc' as (cm & a & parsed & _ & _ & -> & -> & _).
  apply Z.eqb_neq in Hfailed. rewrite Hfailed in Hc |- *.
  split; [exists a; split; [exact Hc|reflexivity]|].
  repeat split.
Qed.

Lemma failed_submission_scores_zero_witness :
  Result.mk 5 0 (Some "") (Some "") [] 2
  = StandardGrader.merge Scenario.env_tle
      (StandardGrader.populate_result Scenario.env_tle []
         (Result_new Scenario.case_true)
         (TracedPopen.mk Submission 6 (Behaviour.mk 3 [] [] 4 2) false false))
      (CheckerResult.mk false 0 None None).
Proof.
  destruct (failed_submission_scores_zero Scenario.env_tle Scenario.case_true
              Scenario.interactive_state
              (snd (BridgedInteractiveGrader._launch_process Scenario.env_tle
                      Scenario.case_true
                      (Some (TestCase.input_path Scenario.case_true))
                      Scenario.interactive_state))
              (snd (BridgedInteractiveGrader._interact_with_process
                      Scenario.env_tle Scenario.case_true
                      (Result_new Scenario.case_true)
                      (snd (BridgedInteractiveGrader._launch_process
                              Scenario.env_tle Scenario.case_true
                              (Some (TestCase.input_path Scenario.case_true))
                              Scenario.interactive_state))))
              (snd (BridgedInteractiveGrader.grade Scenario.env_tle
                      Scenario.case_true Scenario.interactive_state))
              [] (Result_new Scenario.case_true)
              (Result.mk 5 0 (Some "") (Some "") [] 2)
              (TracedPopen.mk Submission 6 (Behaviour.mk 3 [] [] 4 2) false false))
    as (_ & Hr & _).
  - vm_compute. reflexivity.
  - vm_compute. reflexivity.
  - vm_compute. reflexivity.
  - vm_compute. discriminate.
  - vm_compute. reflexivity.
  - exact Hr.
Defined.

(** ** The interactor's launch in detail *)

Section BridgedInteract.
Context (E : Env.t) (case : TestCase.t).

(** [_interact_with_process] on its returning path, with the arguments
    of the interactor's launch and the limits it stored. *)
Lemma bridged_interact_Return_detail result s captured s2 :
  BridgedInteractiveGrader._interact_with_process E case result s
  = (Return captured, s2) ->
  let hd := Grader.handler_data (State.self s) in
  let tl := (num_or Q_is_zero (HandlerData.preprocessing_time hd) 2
             + Problem.time_limit (Grader.problem (State.self s)))%Q in
  let ml := num_or (Z.eqb 0) (HandlerData.memory_limit hd)
              (Env.generator_memory_limit E) in
  exists sub r1 w2 ib fmt args beh,
    Grader._current_proc (State.self s) = Some sub
    /\ Grader._interactor_stdin_pipe (State.self s) = Some r1
    /\ Grader._interactor_stdout_pipe (State.self s) = Some w2
    /\ Grader.interactor_binary (State.self s) = Some ib
    /\ Env.format_interactor_args E fmt (TestCase.input_path case) "/dev/null"
         (Env.tmp_name E (State.next_tmp s)) = Return args
    /\ ((forall configured,
           HandlerData.args_format_string hd = Some configured ->
           configured <> "" -> fmt = configured)
        /\ (HandlerData.args_format_string hd = None
            \/ HandlerData.args_format_string hd = Some "" ->
            exists cm,
              Env.contrib_modules E !! Grader.contrib_type (State.self s)
              = Some cm
              /\ fmt = ContribModule.get_interactor_args_format_string cm))
    /\ let a := LaunchArgs.mk args tl ml [] (Fd r1) (Fd w2) PIPE None
                  [TestCase.input_path case] in
       Env.launch E ib a = Return beh
       /\ captured = (proc_stderr_read sub, result)
       /\ In (EvLaunch Interactor a) (actions (State.trace s2))
       /\ State.self s2
          = Grader.set_interactor
              (Grader.set_interactor_limits (State.self s) tl ml)
              (Some (TracedPopen.mk Interactor
                       (2 + State.clock s + Behaviour.lifetime beh)
                       beh false false)).
Proof.
  intros H hd tl ml. unfold BridgedInteractiveGrader._interact_with_process in H.
  apply bind_Return_inv in H as (g & sa & H1 & H).
  apply get_self_inv in H1 as [[= ->] ->].
  apply bind_Return_inv in H as (sub & sa & H1 & H).
  apply assert_some_Return_inv in H1 as [Hsub ->].
  apply bind_Return_inv in H as ([] & sa & H1 & H).
  apply modify_self_inv in H1 as [_ Hsa].
  apply bind_Return_inv in H as (fmt & sb & H1 & H).
  fold hd in H1.
  assert (Hsb : sb = sa
                /\ (forall configured,
                      HandlerData.args_format_string hd = Some configured ->
                      configured <> "" -> fmt = configured)
                /\ (HandlerData.args_format_string hd = None
                    \/ HandlerData.args_format_string hd = Some "" ->
                    exists cm,
                      Env.contrib_modules E !! Grader.contrib_type (State.self s)
                      = Some cm
                      /\ fmt = ContribModule.get_interactor_args_format_string cm)).
  { clear Hsa.
    destruct (HandlerData.args_format_string hd) as [fs|] in H1 |- *;
      [destruct (String.eqb_spec fs "") as [Hempty|Hfull] in H1|].
    - apply bind_Return_inv in H1 as (cm & sx & H1 & H2).
      unfold BridgedInteractiveGrader.contrib_module in H1.
      destruct (Env.contrib_modules E !! _) as [cm'|] eqn:Hcm in H1;
        [|discriminate].
      apply ret_inv in H1 as [[= ->] ->]. apply ret_inv in H2 as [[= ->] ->].
      split; [reflexivity|]. split.
      + intros configured [= <-] Hne. contradiction.
      + intros _. eexists. split; [exact Hcm|reflexivity].
    - apply ret_inv in H1 as [[= ->] ->].
      split; [reflexivity|]. split.
      + now intros configured [= <-] _.
      + intros [Hnone|[= Hsome]]; [discriminate|contradiction].
    - apply bind_Return_inv in H1 as (cm & sx & H1 & H2).
      unfold BridgedInteractiveGrader.contrib_module in H1.
      destruct (Env.contrib_modules E !! _) as [cm'|] eqn:Hcm in H1;
        [|discriminate].
      apply ret_inv in H1 as [[= ->] ->]. apply ret_inv in H2 as [[= ->] ->].
      split; [reflexivity|]. split.
      + discriminate.
      + intros _. eexists. split; [exact Hcm|reflexivity]. }
  clear H1. destruct Hsb as [-> Hfmt].
  unfold with_mktemp in H.
  apply bind_Return_inv in H as (f & sb & H1 & H).
  unfold mktemp in H1. injection H1 as <- <-.
  unfold try_finally in H.
  match type of H with
  | (let (_, _) := ?body ?st in _) = _ => destruct (body st) as [o sc] eqn:Hbody
  end.
  unfold unlink in H. injection H as -> <-.
  apply bind_Return_inv in Hbody as (args & sd & H1 & H).
  apply lift_inv in H1 as [Hargs ->].
  apply bind_Return_inv in H as (g & sd & H1 & H).
  apply get_self_inv in H1 as [[= ->] ->].
  apply bind_Return_inv in H as (ib & sd & H1 & H).
  apply attr_of_Return_inv in H1 as [Hib ->].
  apply bind_Return_inv in H as (r1 & sd & H1 & H).
  apply attr_of_Return_inv in H1 as [Hr1 ->].
  apply bind_Return_inv in H as (w2 & sd & H1 & H).
  apply attr_of_Return_inv in H1 as [Hw2 ->].
  apply bind_Return_inv in H as (p & sd & H1 & H).
  apply launch_Return_inv in H1 as (beh & Hl & -> & ->).
  apply bind_Return_inv in H as ([] & sd & H1 & H).
  apply modify_self_inv in H1 as [_ ->].
  apply bind_Return_inv in H as ([] & sd & H1 & H).
  apply os_close_Return_inv in H1 as [_ ->].
  apply bind_Return_inv in H as ([] & sd & H1 & H).
  apply os_close_Return_inv in H1 as [_ ->].
  apply bind_Return_inv in H as ([] & sd & H1 & H).
  apply proc_wait_Return_inv in H1 as (p1 & Hp1 & ->).
  apply bind_Return_inv in H as ([] & sd & H1 & H).
  apply proc_wait_Return_inv in H1 as (p2 & Hp2 & ->).
  apply bind_Return_inv in H as (g & sd & H1 & H).
  apply get_self_inv in H1 as [[= ->] ->].
  apply bind_Return_inv in H as (cur & sd & H1 & H).
  apply attr_of_Return_inv in H1 as [Hcur ->].
  apply ret_inv in H as [[= ->] ->].
  subst sa. cbn in Hsub, Hib, Hr1, Hw2, Hp1, Hp2, Hcur, Hl, Hargs.
  rewrite Hsub in Hcur. injection Hcur as <-.
  exists sub, r1, w2, ib, fmt, args, beh.
  split; [exact Hsub|]. split; [exact Hr1|]. split; [exact Hw2|].
  split; [exact Hib|]. split; [symmetry; exact Hargs|]. split; [exact Hfmt|].
  cbv zeta. split; [exact Hl|]. split; [reflexivity|]. split.
  - unfold actions. cbn. rewrite !map_app, !in_app_iff. cbn. tauto.
  - reflexivity.
Qed.
End BridgedInteract.

(** X10: a grader that [__init__] returns is ready for grading: its
    handler data is the problem's interactive configuration, its
    interactor binary is the one [_generate_interactor_binary] compiled,
    and its contrib type (the configured one, ["default"] when the key is
    missing) is in the registry; the attributes the base class set are
    untouched. *)
Theorem constructed_grader_is_ready (E : Env.t) (g g' : Grader.t) :
  BridgedInteractiveGrader.__init__ E g = Return g' ->
  exists b cm,
    BridgedInteractiveGrader._generate_interactor_binary E (with_handler_data g)
    = Return b
    /\ Grader.interactor_binary g' = Some b
    /\ Grader.handler_data g' = Problem.interactive (Grader.problem g)
    /\ Grader.contrib_type g' = configured_contrib_type g
    /\ Env.contrib_modules E !! Grader.contrib_type g' = Some cm
    /\ (HandlerData.type (Problem.interactive (Grader.problem g)) = None ->
        Grader.contrib_type g' = "default")
    /\ Grader.problem g' = Grader.problem g
    /\ Grader.binary g' = Grader.binary g
    /\ Grader.language g' = Grader.language g
    /\ Grader.source g' = Grader.source g
    /\ Grader._orig_fsize g' = Grader._orig_fsize g
    /\ Grader.memfd_output g' = Grader.memfd_output g
    /\ Grader._current_proc g' = Grader._current_proc g.
Proof.
  unfold BridgedInteractiveGrader.__init__.
  fold (with_handler_data g). fold (configured_contrib_type g).
  destruct (BridgedInteractiveGrader._generate_interactor_binary E (with_handler_data g))
    as [b|e] eqn:Hgen; [|destruct e; discriminate].
  destruct (Env.contrib_modules E !! configured_contrib_type g) as [cm|] eqn:Hcm;
    [|discriminate].
  intros [= <-]. exists b, cm. cbn.
  repeat split; try assumption.
  unfold configured_contrib_type. now intros ->.
Qed.

Lemma constructed_grader_is_ready_witness :
  exists b cm,
    BridgedInteractiveGrader._generate_interactor_binary Scenario.env
      (with_handler_data (Scenario.base_grader (FStr "interactor.cpp") None true))
    = Return b
    /\ Grader.interactor_binary Scenario.interactive_grader = Some b
    /\ Grader.handler_data Scenario.interactive_grader
       = Problem.interactive
           (Grader.problem (Scenario.base_grader (FStr "interactor.cpp") None true))
    /\ Grader.contrib_type Scenario.interactive_grader
       = configured_contrib_type
           (Scenario.base_grader (FStr "interactor.cpp") None true)
    /\ Env.contrib_modules Scenario.env
         !! Grader.contrib_type Scenario.interactive_grader = Some cm
    /\ (HandlerData.type
          (Problem.interactive
             (Grader.problem (Scenario.base_grader (FStr "interactor.cpp") None true)))
        = None ->
        Grader.contrib_type Scenario.interactive_grader = "default")
    /\ Grader.problem Scenario.interactive_grader
       = Grader.problem (Scenario.base_grader (FStr "interactor.cpp") None true)
    /\ Grader.binary Scenario.interactive_grader
       = Grader.binary (Scenario.base_grader (FStr "interactor.cpp") None true)
    /\ Grader.language Scenario.interactive_grader
       = Grader.language (Scenario.base_grader (FStr "interactor.cpp") None true)
    /\ Grader.source Scenario.interactive_grader
       = Grader.source (Scenario.base_grader (FStr "interactor.cpp") None true)
    /\ Grader._orig_fsize Scenario.interactive_grader
       = Grader._orig_fsize (Scenario.base_grader (FStr "interactor.cpp") None true)
    /\ Grader.memfd_output Scenario.interactive_grader
       = Grader.memfd_output (Scenario.base_grader (FStr "interactor.cpp") None true)
    /\ Grader._current_proc Scenario.interactive_grader
       = Grader._current_proc (Scenario.base_grader (FStr "interactor.cpp") None true).
Proof.
  apply (constructed_grader_is_ready Scenario.env
           (Scenario.base_grader (FStr "interactor.cpp") None true)
           Scenario.interactive_grader).
  vm_compute. reflexivity.
Defined.

(** X11: the interactor is launched with the time limit
    [(preprocessing_time or 2) + time_limit] and the memory limit
    [memory_limit or env['generator_memory_limit']], with a piped
    standard error, no wall-time limit and the case's input file as its
    only extra file; and the verdict step hands the adapter the same two
    limits, so the interactor is judged against the limits it ran
    under. *)
Theorem interactor_limits_consistent (E : Env.t) (case : TestCase.t)
    (result result' : Result.t) (s s2 : State.t) (captured : bytes * Result.t)
    (cm : ContribModule.t) :
  BridgedInteractiveGrader._interact_with_process E case result s
  = (Return captured, s2) ->
  Env.contrib_modules E !! Grader.contrib_type (State.self s) = Some cm ->
  let hd := Grader.handler_data (State.self s) in
  let tl := (num_or Q_is_zero (HandlerData.preprocessing_time hd) 2
             + Problem.time_limit (Grader.problem (State.self s)))%Q in
  let ml := num_or (Z.eqb 0) (HandlerData.memory_limit hd)
              (Env.generator_memory_limit E) in
  exists a pa o,
    In (EvLaunch Interactor a) (actions (State.trace s2))
    /\ LaunchArgs.time a = tl /\ LaunchArgs.memory a = ml
    /\ LaunchArgs.stderr a = PIPE /\ LaunchArgs.wall_time a = None
    /\ LaunchArgs.extra_fs a = [TestCase.input_path case]
    /\ BridgedInteractiveGrader.check_result E case result' s2
       = (o, State.record s2 (EvParseReturnCode pa))
    /\ ParseArgs.time_limit pa = tl /\ ParseArgs.memory_limit pa = ml.
Proof.
  intros Hi Hcm hd tl ml.
  apply bridged_interact_Return_detail in Hi
    as (sub & r1 & w2 & ib & fmt & args & beh & _ & _ & _ & Hib & _ & _
        & _ & _ & Hin & Hself).
  fold hd tl ml in Hin, Hself.
  pose proof (bridged_check_result_run E case result' s2
                (TracedPopen.mk Interactor
                   (2 + State.clock s + Behaviour.lifetime beh) beh false false)
                cm ib) as Hrun.
  rewrite Hself in Hrun. cbn in Hrun.
  specialize (Hrun eq_refl Hcm Hib).
  eexists. eexists. eexists. split; [exact Hin|].
  cbn. do 5 (split; [reflexivity|]).
  split; [exact Hrun|]. split; reflexivity.
Qed.

Lemma interactor_limits_consistent_witness :
  exists a pa o,
    In (EvLaunch Interactor a)
      (actions
         (State.trace
            (snd (BridgedInteractiveGrader._interact_with_process Scenario.env
                    Scenario.case_true Scenario.clear_result
                    (snd (BridgedInteractiveGrader._launch_process Scenario.env
                            Scenario.case_true None Scenario.interactive_state))))))
    /\ LaunchArgs.time a = (2 + 1)%Q /\ LaunchArgs.memory a = 65536
    /\ LaunchArgs.stderr a = PIPE /\ LaunchArgs.wall_time a = None
    /\ LaunchArgs.extra_fs a = ["/problems/p/1.in"]
    /\ BridgedInteractiveGrader.check_result Scenario.env Scenario.case_true
         Scenario.failed_result
         (snd (BridgedInteractiveGrader._interact_with_process Scenario.env
                 Scenario.case_true Scenario.clear_result
                 (snd (BridgedInteractiveGrader._launch_process Scenario.env
                         Scenario.case_true None Scenario.interactive_state))))
       = (o, State.record
               (snd (BridgedInteractiveGrader._interact_with_process Scenario.env
                       Scenario.case_true Scenario.clear_result
                       (snd (BridgedInteractiveGrader._launch_process Scenario.env
                               Scenario.case_true None Scenario.interactive_state))))
               (EvParseReturnCode pa))
    /\ ParseArgs.time_limit pa = (2 + 1)%Q /\ ParseArgs.memory_limit pa = 65536.
Proof.
  apply (interactor_limits_consistent Scenario.env Scenario.case_true
           Scenario.clear_result Scenario.failed_result
           (snd (BridgedInteractiveGrader._launch_process Scenario.env
                   Scenario.case_true None Scenario.interactive_state))
           _ ([], Scenario.clear_result) Scenario.accepting_contrib).
  - vm_compute. reflexivity.
  - vm_compute. reflexivity.
Defined.

(** X12: when [_interact_with_process] of the interactive grader
    returns, it returns the standard error of the submission and the
    result object as it received it: the interactive grader captures no
    output of the submission. *)
Theorem interactive_capture_returns_stderr (E : Env.t) (case : TestCase.t)
    (result : Result.t) (s s2 : State.t) (captured : bytes * Result.t) :
  BridgedInteractiveGrader._interact_with_process E case result s
  = (Return captured, s2) ->
  exists sub,
    Grader._current_proc (State.self s) = Some sub
    /\ Grader._current_proc (State.self s2) = Some sub
    /\ fst captured = proc_stderr_read sub
    /\ snd captured = result.
Proof.
  intros Hi.
  apply bridged_interact_Return_detail in Hi
    as (sub & r1 & w2 & ib & fmt & args & beh & Hsub & _ & _ & _ & _ & _
        & _ & -> & _ & Hself).
  exists sub. rewrite Hself. cbn. repeat split; assumption.
Qed.

Lemma interactive_capture_returns_stderr_witness :
  exists sub,
    Grader._current_proc
      (State.self (snd (BridgedInteractiveGrader._launch_process Scenario.env
                          Scenario.case_true None Scenario.interactive_state)))
    = Some sub
    /\ Grader._current_proc
         (State.self
            (snd (BridgedInteractiveGrader._interact_with_process Scenario.env
                    Scenario.case_true Scenario.clear_result
                    (snd (BridgedInteractiveGrader._launch_process Scenario.env
                            Scenario.case_true None Scenario.interactive_state)))))
       = Some sub
    /\ fst ([], Scenario.clear_result) = proc_stderr_read sub
    /\ snd (@nil Byte.byte, Scenario.clear_result) = Scenario.clear_result.
Proof.
  apply (interactive_capture_returns_stderr Scenario.env Scenario.case_true
           Scenario.clear_result
           (snd (BridgedInteractiveGrader._launch_process Scenario.env
                   Scenario.case_true None Scenario.interactive_state))
           (snd (BridgedInteractiveGrader._interact_with_process Scenario.env
                   Scenario.case_true Scenario.clear_result
                   (snd (BridgedInteractiveGrader._launch_process Scenario.env
                           Scenario.case_true None Scenario.interactive_state))))
           ([], Scenario.clear_result)).
  vm_compute. reflexivity.
Defined.

(** ** A refused submission in the interactive grader *)

Section BridgedRefusal.
Variable E : Env.t.
Variable case : TestCase.t.

Lemma bridged_launch_refused input e s :
  (forall exe a, Env.launch E exe a = Raise e) ->
  exists s',
    BridgedInteractiveGrader._launch_process E case input s = (Raise e, s')
    /\ State.open_fds s'
       = {[S (S (State.next_fd s)); S (S (S (State.next_fd s)))]}
           ∪ ({[State.next_fd s; S (State.next_fd s)]} ∪ State.open_fds s)
    /\ State.tmp_files s' = State.tmp_files s
    /\ Grader._current_proc (State.self s') = Grader._current_proc (State.self s)
    /\ Grader._interactor (State.self s') = Grader._interactor (State.self s)
    /\ (exists a,
          actions (State.trace s')
          = (actions (State.trace s)
             ++ [EvPipe (State.next_fd s) (S (State.next_fd s));
                 EvPipe (S (S (State.next_fd s))) (S (S (S (State.next_fd s))));
                 EvLaunch Submission a])%list).
Proof.
  intros Hrefuse. destruct s as [clock fds nfd tmp ntmp trace self].
  unfold BridgedInteractiveGrader._launch_process, launch, os_pipe.
  unfold_monad. cbn. rewrite Hrefuse. cbn.
  eexists. split; [reflexivity|]. cbn.
  repeat split. eexists.
  unfold actions. rewrite !map_app, <- !app_assoc. cbn. reflexivity.
Qed.
End BridgedRefusal.

(** X13: when the sandbox refuses to start the submission, the
    interactive [grade] raises the sandbox's error after having created
    both pipes; all four pipe descriptors are still open when the error
    leaves [grade] (nothing on this path closes them), no interactor has
    been launched and no temporary file has been created. *)
Theorem refused_submission_leaves_pipes_open (E : Env.t) (case : TestCase.t)
    (e : PyExc) (s : State.t) :
  (forall exe a, Env.launch E exe a = Raise e) ->
  exists s',
    BridgedInteractiveGrader.grade E case s = (Raise e, s')
    /\ (forall n : fd,
          (State.next_fd s <= n < 4 + State.next_fd s)%nat ->
          n ∈ State.open_fds s')
    /\ State.open_fds s ⊆ State.open_fds s'
    /\ State.tmp_files s' = State.tmp_files s
    /\ Grader._interactor (State.self s') = Grader._interactor (State.self s)
    /\ (forall a, In (EvLaunch Interactor a) (actions (State.trace s')) ->
                  In (EvLaunch Interactor a) (actions (State.trace s))).
Proof.
  intros Hrefuse.
  destruct (bridged_launch_refused E case (Some (TestCase.input_path case)) e s
              Hrefuse) as (s' & Hrun & Hfds & Htmp & _ & Hint & a0 & Htr).
  exists s'. split.
  - unfold BridgedInteractiveGrader.grade, StandardGrader.grade.
    cbn [m_launch_process BridgedInteractiveGrader.methods].
    unfold mbind at 1, M_bind at 1, bind at 1. rewrite Hrun. reflexivity.
  - split; [|split; [|split; [exact Htmp|split; [exact Hint|]]]].
    + intros n Hn. rewrite Hfds.
      rewrite !elem_of_union, !elem_of_singleton. lia.
    + intros n Hn. rewrite Hfds. rewrite !elem_of_union. tauto.
    + intros a. rewrite Htr, in_app_iff. intros [Hin|Hin]; [exact Hin|].
      cbn in Hin. decompose [or] Hin; try discriminate; contradiction.
Qed.

Lemma refused_submission_leaves_pipes_open_witness :
  exists s',
    BridgedInteractiveGrader.grade Scenario.env_refusing Scenario.case_true
      Scenario.interactive_state
    = (Raise (RuntimeError "failed to spawn"), s')
    /\ (forall n : fd,
          (State.next_fd Scenario.interactive_state <= n
           < 4 + State.next_fd Scenario.interactive_state)%nat ->
          n ∈ State.open_fds s')
    /\ State.open_fds Scenario.interactive_state ⊆ State.open_fds s'
    /\ State.tmp_files s' = State.tmp_files Scenario.interactive_state
    /\ Grader._interactor (State.self s')
       = Grader._interactor (State.self Scenario.interactive_state)
    /\ (forall a, In (EvLaunch Interactor a) (actions (State.trace s')) ->
                  In (EvLaunch Interactor a)
                    (actions (State.trace Scenario.interactive_state))).
Proof.
  apply (refused_submission_leaves_pipes_open Scenario.env_refusing
           Scenario.case_true (RuntimeError "failed to spawn")
           Scenario.interactive_state).
  reflexivity.
Defined.

(** ** A refused interactor *)

(** X14: when the sandbox refuses to start the interactor,
    [_interact_with_process] of the interactive grader raises and has
    closed no descriptor: the set of open descriptors is what it was on
    entry, so both pipe ends kept for the interactor stay open.  The
    temporary answer file, if it was created, is removed again, and
    [_interactor] and [_current_proc] are left as they were. *)
Theorem refused_interactor_closes_nothing (E : Env.t) (case : TestCase.t)
    (result : Result.t) (e : PyExc) (s : State.t) :
  (forall ib a,
      Grader.interactor_binary (State.self s) = Some ib ->
      Env.launch E ib a = Raise e) ->
  exists e' s',
    BridgedInteractiveGrader._interact_with_process E case result s
    = (Raise e', s')
    /\ State.open_fds s' = State.open_fds s
    /\ State.tmp_files s' ⊆ State.tmp_files s
    /\ Grader._interactor (State.self s') = Grader._interactor (State.self s)
    /\ Grader._current_proc (State.self s')
       = Grader._current_proc (State.self s).
Proof.
  intros Hrefuse. destruct s as [clock fds nfd tmp ntmp trace self].
  cbn [State.self] in Hrefuse.
  assert (Htmp : ({[ntmp]} ∪ tmp) ∖ {[ntmp]} ⊆ tmp).
  { intros f. rewrite elem_of_difference, elem_of_union, elem_of_singleton.
    tauto. }
  unfold BridgedInteractiveGrader._interact_with_process,
    BridgedInteractiveGrader.contrib_module, with_mktemp, mktemp, unlink, launch.
  unfold_monad. cbn.
  repeat (match goal with
          | |- context [Env.launch E ?x ?a] =>
              rewrite (Hrefuse x a ltac:(first [assumption | reflexivity]))
          | |- context [match ?x with _ => _ end] =>
              lazymatch type of x with
              | option _ => destruct x eqn:?
              | bool => destruct x eqn:?
              | Outcome _ => destruct x eqn:?
              end
          end; cbn).
  all: do 2 eexists; (split; [reflexivity|]); cbn.
  all: repeat split;
    first [assumption | reflexivity | intros f Hf; exact Hf].
Qed.

Lemma refused_interactor_closes_nothing_witness :
  exists e' s',
    BridgedInteractiveGrader._interact_with_process Scenario.env_no_interactor
      Scenario.case_true Scenario.clear_result
      (snd (BridgedInteractiveGrader._launch_process Scenario.env_no_interactor
              Scenario.case_true None Scenario.interactive_state))
    = (Raise e', s')
    /\ State.open_fds s'
       = State.open_fds
           (snd (BridgedInteractiveGrader._launch_process
                   Scenario.env_no_interactor Scenario.case_true None
                   Scenario.interactive_state))
    /\ State.tmp_files s'
       ⊆ State.tmp_files
           (snd (BridgedInteractiveGrader._launch_process
                   Scenario.env_no_interactor Scenario.case_true None
                   Scenario.interactive_state))
    /\ Grader._interactor (State.self s')
       = Grader._interactor
           (State.self
              (snd (BridgedInteractiveGrader._launch_process
                      Scenario.env_no_interactor Scenario.case_true None
                      Scenario.interactive_state)))
    /\ Grader._current_proc (State.self s')
       = Grader._current_proc
           (State.self
              (snd (BridgedInteractiveGrader._launch_process
                      Scenario.env_no_interactor Scenario.case_true None
                      Scenario.interactive_state))).
Proof.
  apply (refused_interactor_closes_nothing Scenario.env_no_interactor
           Scenario.case_true Scenario.clear_result
           (RuntimeError "failed to spawn")).
  intros ib a [= <-]. reflexivity.
Defined.

(** ** The interactor's command line *)

(** X15: the interactor's arguments are the template filled with the
    case's input path, ["/dev/null"] as output file and the name of the
    temporary answer file.  The template is the problem's
    [args_format_string] when that is configured and not empty, and the
    adapter's own format string when it is missing or empty ([or] falls
    through on the empty string). *)
Theorem interactor_arguments_from_template (E : Env.t) (case : TestCase.t)
    (result : Result.t) (s s2 : State.t) (captured : bytes * Result.t) :
  BridgedInteractiveGrader._interact_with_process E case result s
  = (Return captured, s2) ->
  let hd := Grader.handler_data (State.self s) in
  exists fmt a,
    Env.format_interactor_args E fmt (TestCase.input_path case) "/dev/null"
      (Env.tmp_name E (State.next_tmp s))
    = Return (LaunchArgs.args a)
    /\ In (EvLaunch Interactor a) (actions (State.trace s2))
    /\ (forall configured,
          HandlerData.args_format_string hd = Some configured ->
          configured <> "" -> fmt = configured)
    /\ (HandlerData.args_format_string hd = None
        \/ HandlerData.args_format_string hd = Some "" ->
        exists cm,
          Env.contrib_modules E !! Grader.contrib_type (State.self s) = Some cm
          /\ fmt = ContribModule.get_interactor_args_format_string cm).
Proof.
  intros Hi hd.
  apply bridged_interact_Return_detail in Hi
    as (sub & r1 & w2 & ib & fmt & args & beh & _ & _ & _ & _ & Hargs
        & [Hconf Hdef] & _ & _ & Hin & _).
  eexists fmt, _. split; [|split; [exact Hin|split; [exact Hconf|exact Hdef]]].
  exact Hargs.
Qed.

Lemma interactor_arguments_from_template_witness :
  exists fmt a,
    Env.format_interactor_args Scenario.env fmt
      (TestCase.input_path Scenario.case_true) "/dev/null"
      (Env.tmp_name Scenario.env
         (State.next_tmp
            (snd (BridgedInteractiveGrader._launch_process Scenario.env
                    Scenario.case_true None Scenario.interactive_state))))
    = Return (LaunchArgs.args a)
    /\ In (EvLaunch Interactor a)
         (actions
            (State.trace
               (snd (BridgedInteractiveGrader._interact_with_process Scenario.env
                       Scenario.case_true Scenario.clear_result
                       (snd (BridgedInteractiveGrader._launch_process Scenario.env
                               Scenario.case_true None
                               Scenario.interactive_state))))))
    /\ (forall configured,
          HandlerData.args_format_string
            (Grader.handler_data
               (State.self
                  (snd (BridgedInteractiveGrader._launch_process Scenario.env
                          Scenario.case_true None Scenario.interactive_state))))
          = Some configured ->
          configured <> "" -> fmt = configured)
    /\ (HandlerData.args_format_string
          (Grader.handler_data
             (State.self
                (snd (BridgedInteractiveGrader._launch_process Scenario.env
                        Scenario.case_true None Scenario.interactive_state))))
        = None
        \/ HandlerData.args_format_string
             (Grader.handler_data
                (State.self
                   (snd (BridgedInteractiveGrader._launch_process Scenario.env
                           Scenario.case_true None Scenario.interactive_state))))
           = Some "" ->
        exists cm,
          Env.contrib_modules Scenario.env
            !! Grader.contrib_type
                 (State.self
                    (snd (BridgedInteractiveGrader._launch_process Scenario.env
                            Scenario.case_true None Scenario.interactive_state)))
          = Some cm
          /\ fmt = ContribModule.get_interactor_args_format_string cm).
Proof.
  apply (interactor_arguments_from_template Scenario.env Scenario.case_true
           Scenario.clear_result
           (snd (BridgedInteractiveGrader._launch_process Scenario.env
                   Scenario.case_true None Scenario.interactive_state))
           (snd (BridgedInteractiveGrader._interact_with_process Scenario.env
                   Scenario.case_true Scenario.clear_result
                   (snd (BridgedInteractiveGrader._launch_process Scenario.env
                           Scenario.case_true None Scenario.interactive_state))))
           ([], Scenario.clear_result)).
  vm_compute. reflexivity.
Defined.
